(** * Record collection tracker: the repository layer and HTTP facade of
    [server.py], embedded and verified.

    The embedding follows [server.py] function by function.  A database is
    the content of the SQLite file: each of the five tables is either absent
    or a list of rows in rowid order, together with its AUTOINCREMENT
    counter.  A table that is there has the columns of [SCHEMA]; a table of
    an older layout is not a database of this development.  A repository
    function maps a database to an outcome (a value or a raised exception)
    and the database as last committed. *)

From Stdlib Require Import ZArith QArith Qcanon Ascii String Lia.
From stdpp Require Import base numbers option list sorting strings gmap.

#[local] Set Warnings "-clear-no-such-hyp".
Local Open Scope Z_scope.

(** ** Python text

    A [str] is modelled by [string]; its characters are the code points
    below 256. *)
Module PyStr.

Definition code (c : ascii) : N := N_of_ascii c.

(** [str.isspace] on the code points below 256. *)
Definition is_space (c : ascii) : bool :=
  let n := code c in
  ((9 <=? n) && (n <=? 13) || (28 <=? n) && (n <=? 32)
   || (n =? 133) || (n =? 160))%N.

Definition is_digit (c : ascii) : bool :=
  let n := code c in ((48 <=? n) && (n <=? 57))%N.

Definition digit_val (c : ascii) : Z := Z.of_N (code c) - 48.

Fixpoint lstrip (s : string) : string :=
  match s with
  | String c s' => if is_space c then lstrip s' else s
  | EmptyString => EmptyString
  end.

(** A character is kept when it is not white space or when something is kept
    after it. *)
Fixpoint rstrip (s : string) : string :=
  match s with
  | String c s' =>
      match rstrip s' with
      | EmptyString => if is_space c then EmptyString else String c EmptyString
      | r => String c r
      end
  | EmptyString => EmptyString
  end.

(** [s.strip()] *)
Definition strip (s : string) : string := rstrip (lstrip s).

(** [s[:n]] *)
Definition prefix (n : nat) (s : string) : string := String.substring 0 n s.

(** Truth value of a [str]: non-empty. *)
Definition truthy (s : string) : bool :=
  match s with EmptyString => false | _ => true end.

(** Text comparison as SQLite's BINARY collation does it. *)
Definition leb (a b : string) : bool := String.leb a b.

End PyStr.

(** ** [datetime.strptime(val, "%Y-%m-%d")]

    The library turns the format into the regular expression
    [(\d\d\d\d)-(1[0-2]|0[1-9]|[1-9])-(3[0-1]|[1-2]\d|0[1-9]|[1-9]| [1-9])],
    matches it at the start of the text with the alternatives tried in that
    order, raises [ValueError] when there is no match or when text remains
    after the match, and raises [ValueError] again when the three numbers are
    not a date of the calendar (years 1 to 9999). *)
Module Strptime.
Import PyStr.

Definition matcher := string -> option (Z * string).

Definition in_range (lo hi : ascii) (c : ascii) : bool :=
  ((code lo <=? code c) && (code c <=? code hi))%N.

(** [\d\d\d\d] *)
Definition year4 : matcher := fun s =>
  match s with
  | String a (String b (String c (String d r))) =>
      if is_digit a && is_digit b && is_digit c && is_digit d
      then Some (digit_val a * 1000 + digit_val b * 100
                 + digit_val c * 10 + digit_val d, r)
      else None
  | _ => None
  end.

(** Two characters, the first in [l1..h1], the second in [l2..h2]. *)
Definition two (l1 h1 l2 h2 : ascii) : matcher := fun s =>
  match s with
  | String a (String b r) =>
      if in_range l1 h1 a && in_range l2 h2 b
      then Some (digit_val a * 10 + digit_val b, r) else None
  | _ => None
  end.

(** One character in [1..9]. *)
Definition one : matcher := fun s =>
  match s with
  | String a r => if in_range "1" "9" a then Some (digit_val a, r) else None
  | _ => None
  end.

(** A space, then one character in [1..9]. *)
Definition space_one : matcher := fun s =>
  match s with
  | String " " r => one r
  | _ => None
  end.

Definition month_alts : list matcher :=
  [two "1" "1" "0" "2"; two "0" "0" "1" "9"; one].

Definition day_alts : list matcher :=
  [two "3" "3" "0" "1"; two "1" "2" "0" "9"; two "0" "0" "1" "9"; one;
   space_one].

Definition dash (s : string) : option string :=
  match s with String "-" r => Some r | _ => None end.

(** The first alternative after which the continuation matches. *)
Fixpoint first_alt {A} (alts : list matcher) (s : string)
    (k : Z -> string -> option A) : option A :=
  match alts with
  | [] => None
  | m :: alts' =>
      match m s ≫= (fun '(v, r) => k v r) with
      | Some x => Some x
      | None => first_alt alts' s k
      end
  end.

(** The match of the whole expression: the three numbers and the text
    left after the match. *)
Definition regex_match (s : string) : option (Z * Z * Z * string) :=
  '(y, r1) ← year4 s;
  r2 ← dash r1;
  first_alt month_alts r2 (fun m r3 =>
    r4 ← dash r3;
    first_alt day_alts r4 (fun d r5 => Some (y, m, d, r5))).

Definition is_leap (y : Z) : bool :=
  (y mod 4 =? 0) && (negb (y mod 100 =? 0) || (y mod 400 =? 0)).

Definition days_in_month (y m : Z) : Z :=
  if m =? 2 then (if is_leap y then 29 else 28)
  else if (m =? 4) || (m =? 6) || (m =? 9) || (m =? 11) then 30
  else 31.

(** [datetime.date(y, m, d)] does not raise. *)
Definition valid_date (y m d : Z) : bool :=
  (1 <=? y) && (y <=? 9999) && (1 <=? m) && (m <=? 12)
  && (1 <=? d) && (d <=? days_in_month y m).

(** [true] when [strptime] returns, [false] when it raises [ValueError]. *)
Definition strptime_ok (s : string) : bool :=
  match regex_match s with
  | Some (y, m, d, EmptyString) => valid_date y m d
  | _ => false
  end.

(** The shape [YYYY-MM-DD]: ten characters, digits everywhere but for the
    two hyphens. *)
Definition is_yyyy_mm_dd (s : string) : bool :=
  match s with
  | String y1 (String y2 (String y3 (String y4 (String h1
      (String m1 (String m2 (String h2 (String d1 (String d2 EmptyString)))))))))
    => is_digit y1 && is_digit y2 && is_digit y3 && is_digit y4
       && bool_decide (h1 = "-"%char)
       && is_digit m1 && is_digit m2
       && bool_decide (h2 = "-"%char)
       && is_digit d1 && is_digit d2
  | _ => false
  end.

End Strptime.

(** ** The database *)
Module Db.

(** What a call can raise. *)
Inductive exn :=
| OperationalError (msg : string)
| IntegrityError (msg : string)
| ValueError (msg : string)
| TypeError
| AttributeError.

Inductive result (A : Type) :=
| Ok (a : A)
| Raise (e : exn).
Arguments Ok {A} a.
Arguments Raise {A} e.

Definition rbind {A B} (r : result A) (k : A -> result B) : result B :=
  match r with Ok a => k a | Raise e => Raise e end.

(** Rows, with the columns of [SCHEMA].  A table that exists has these
    columns: a table left by an older schema, with other columns, is outside
    the model. *)
Record artist := Artist {
  artist_id : Z; artist_name : string; artist_country : option string }.

Record genre := Genre { genre_id : Z; genre_name : string }.

Record store := Store {
  store_id : Z; store_name : string;
  store_state : option string; store_address : option string }.

Record record := Record_ {
  record_id : Z; title : string;
  rec_artist_id : option Z; rec_genre_id : option Z;
  year : option Z; condition : option string;
  price : option Qc; purchase_date : option string }.

(** A link row of [recordStores]: [(record_id, store_id)]. *)
Definition link : Type := Z * Z.

(** A table with an [INTEGER PRIMARY KEY AUTOINCREMENT]: its rows in rowid
    order and the largest rowid it ever held ([sqlite_sequence]). *)
Record table (A : Type) := Table { rows : list A; seq : Z }.
Arguments Table {A} rows seq.
Arguments rows {A} t.
Arguments seq {A} t.

Record db := Database {
  Artists : option (table artist);
  Genres : option (table genre);
  Records : option (table record);
  Stores : option (table store);
  recordStores : option (list link);
  indexes : gset string }.

(** The empty database file. *)
Definition empty_db : db := Database None None None None None ∅.

Definition set_Artists (t : table artist) (d : db) : db :=
  Database (Some t) (Genres d) (Records d) (Stores d) (recordStores d) (indexes d).
Definition set_Genres (t : table genre) (d : db) : db :=
  Database (Artists d) (Some t) (Records d) (Stores d) (recordStores d) (indexes d).
Definition set_Records (t : table record) (d : db) : db :=
  Database (Artists d) (Genres d) (Some t) (Stores d) (recordStores d) (indexes d).
Definition set_Stores (t : table store) (d : db) : db :=
  Database (Artists d) (Genres d) (Records d) (Some t) (recordStores d) (indexes d).
Definition set_recordStores (l : list link) (d : db) : db :=
  Database (Artists d) (Genres d) (Records d) (Stores d) (Some l) (indexes d).
Definition add_index (i : string) (d : db) : db :=
  Database (Artists d) (Genres d) (Records d) (Stores d) (recordStores d)
           ({[ i ]} ∪ indexes d).

Definition no_such_table {A} (name : string) : result A :=
  Raise (OperationalError ("no such table: " +:+ name)).

(** The table a statement names, or the engine's error. *)
Definition the_table {A} (name : string) (t : option A) : result A :=
  match t with Some t => Ok t | None => no_such_table name end.

(** The rowid AUTOINCREMENT gives to the next row: one more than the
    largest rowid the table holds or ever held. *)
Definition next_id {A} (key : A -> Z) (t : table A) : Z :=
  1 + foldr Z.max (seq t) (key <$> rows t).

Definition append_row {A} (key : A -> Z) (mk : Z -> A) (t : table A)
    : Z * table A :=
  let i := next_id key t in (i, Table (rows t ++ [mk i]) i).

(** [fetchone()] after a SELECT: the first matching row. *)
Definition fetchone {A} (p : A -> bool) (t : table A) : option A :=
  List.find p (rows t).

(** [DELETE FROM t WHERE p] *)
Definition delete_where {A} (p : A -> bool) (t : table A) : table A :=
  Table (List.filter (fun r => negb (p r)) (rows t)) (seq t).

(** [SELECT COUNT( * ) FROM t WHERE p] *)
Definition count_where {A} (p : A -> bool) (t : table A) : Z :=
  Z.of_nat (length (List.filter p (rows t))).

Definition Zeqb_opt (o : option Z) (z : Z) : bool :=
  match o with Some x => x =? z | None => false end.

(** ** Schema statements *)
Inductive tname := TArtists | TGenres | TRecords | TStores | TRecordStores.

Definition tname_str (t : tname) : string :=
  match t with
  | TArtists => "Artists" | TGenres => "Genres" | TRecords => "Records"
  | TStores => "Stores" | TRecordStores => "recordStores"
  end.

Definition has_table (t : tname) (d : db) : bool :=
  match t with
  | TArtists => bool_decide (is_Some (Artists d))
  | TGenres => bool_decide (is_Some (Genres d))
  | TRecords => bool_decide (is_Some (Records d))
  | TStores => bool_decide (is_Some (Stores d))
  | TRecordStores => bool_decide (is_Some (recordStores d))
  end.

Inductive ddl :=
| CreateTableIfNotExists (t : tname)
| CreateIndexIfNotExists (name : string) (t : tname).

Definition create_table (t : tname) (d : db) : db :=
  match t with
  | TArtists => set_Artists (Table [] 0) d
  | TGenres => set_Genres (Table [] 0) d
  | TRecords => set_Records (Table [] 0) d
  | TStores => set_Stores (Table [] 0) d
  | TRecordStores => set_recordStores [] d
  end.

Definition exec_ddl (s : ddl) (d : db) : result db :=
  match s with
  | CreateTableIfNotExists t =>
      Ok (if has_table t d then d else create_table t d)
  | CreateIndexIfNotExists i t =>
      if bool_decide (i ∈ indexes d) then Ok d
      else if has_table t d then Ok (add_index i d)
      else no_such_table (tname_str t)
  end.

(** [cur.executescript(s)] *)
Fixpoint executescript (s : list ddl) (d : db) : result db :=
  match s with
  | [] => Ok d
  | x :: s' => rbind (exec_ddl x d) (executescript s')
  end.

End Db.

(** ** The repository functions *)
Module Repo.
Import Db.

Definition SCHEMA : list (list ddl) :=
  [ [ CreateTableIfNotExists TArtists;
      CreateIndexIfNotExists "idx_artists_name" TArtists ];
    [ CreateTableIfNotExists TGenres;
      CreateTableIfNotExists TRecords;
      CreateIndexIfNotExists "idx_records_artist" TRecords;
      CreateIndexIfNotExists "idx_records_genre" TRecords;
      CreateIndexIfNotExists "idx_records_purchase_date" TRecords;
      CreateIndexIfNotExists "idx_records_year" TRecords;
      CreateTableIfNotExists TStores;
      CreateIndexIfNotExists "idx_stores_name" TStores ] ].

(** [init_db]: every script of [SCHEMA] in turn. *)
Definition init_db (d : db) : result db :=
  foldl (fun r s => rbind r (executescript s)) (Ok d) SCHEMA.

(** [INSERT INTO Artists (name, country)]: [name] is UNIQUE. *)
Definition insert_artist (name : string) (country : option string)
    (t : table artist) : result (Z * table artist) :=
  if existsb (fun a => bool_decide (artist_name a = name)) (rows t)
  then Raise (IntegrityError "UNIQUE constraint failed: Artists.name")
  else Ok (append_row artist_id (fun i => Artist i name country) t).

(** [INSERT INTO Genres (name)]: [name] is UNIQUE. *)
Definition insert_genre (name : string) (t : table genre)
    : result (Z * table genre) :=
  if existsb (fun g => bool_decide (genre_name g = name)) (rows t)
  then Raise (IntegrityError "UNIQUE constraint failed: Genres.name")
  else Ok (append_row genre_id (fun i => Genre i name) t).

Definition find_or_create_artist (name : option string)
    (country : option string) (d : db) : result (option Z) * db :=
  let name := PyStr.strip (default "" name) in
  if negb (PyStr.truthy name) then (Ok None, d)
  else
    match Artists d with
    | None => (no_such_table "Artists", d)
    | Some t =>
        match fetchone (fun a => bool_decide (artist_name a = name)) t with
        | Some r => (Ok (Some (artist_id r)), d)
        | None =>
            match insert_artist name country t with
            | Ok (i, t') => (Ok (Some i), set_Artists t' d)
            | Raise e => (Raise e, d)
            end
        end
    end.

(** [name.strip()] raises on [None]. *)
Definition find_or_create_genre (name : option string) (d : db)
    : result (option Z) * db :=
  match name with
  | None => (Raise AttributeError, d)
  | Some name =>
      let name := PyStr.strip name in
      if negb (PyStr.truthy name) then (Ok None, d)
      else
        match Genres d with
        | None => (no_such_table "Genres", d)
        | Some t =>
            match fetchone (fun g => bool_decide (genre_name g = name)) t with
            | Some r => (Ok (Some (genre_id r)), d)
            | None =>
                match insert_genre name t with
                | Ok (i, t') => (Ok (Some i), set_Genres t' d)
                | Raise e => (Raise e, d)
                end
            end
        end
  end.

(** Truth value of an optional text: neither [None] nor empty. *)
Definition truthy_opt (o : option string) : bool :=
  match o with Some s => PyStr.truthy s | None => false end.

Definition find_or_create_store (name : option string)
    (state address : option string) (d : db) : result (option Z) * db :=
  let name := PyStr.strip (default "" name) in
  if negb (PyStr.truthy name) then (Ok None, d)
  else
    match Stores d with
    | None => (no_such_table "Stores", d)
    | Some t =>
        let hit :=
          if truthy_opt address
          then fetchone (fun s => bool_decide (store_name s = name)
                                  && bool_decide (store_address s = address)) t
          else fetchone (fun s => bool_decide (store_name s = name)) t in
        match hit with
        | Some r => (Ok (Some (store_id r)), d)
        | None =>
            let '(i, t') :=
              append_row store_id (fun i => Store i name state address) t in
            (Ok (Some i), set_Stores t' d)
        end
    end.

(** The dict the facade hands to [add_record_db] and [update_record_db].
    [year] and [price] are kept as Python values, for the checks the two
    functions make on them; the other entries have the types the facade gives
    them.  [d_store_id] is [None] when the dict has no key ['store_id'], and
    [Some None] when the key holds [None]. *)
Inductive pyval :=
| PNone
| PInt (z : Z)
| PFloat (q : Qc)
| PStr (s : string).

Record record_data := RecordData {
  d_title : option string;
  d_artist_id : option Z;
  d_genre_id : option Z;
  d_year : pyval;
  d_condition : option string;
  d_price : pyval;
  d_purchase_date : option string;
  d_store_id : option (option Z) }.

Definition Qc_ltb (a b : Qc) : bool := negb (Qle_bool b a).

(** [y is None or not isinstance(y, int) or y < 1800 or y > 2100] fails. *)
Definition checked_year (y : pyval) : option Z :=
  match y with
  | PInt y => if (y <? 1800) || (y >? 2100) then None else Some y
  | _ => None
  end.

(** [p is None or not isinstance(p, (int, float)) or float(p) < 0] fails;
    the value is the one the REAL column then holds. *)
Definition checked_price (p : pyval) : option Qc :=
  match p with
  | PInt z => if z <? 0 then None else Some (Qc_of_Z z)
  | PFloat q => if Qc_ltb q 0 then None else Some q
  | _ => None
  end.

(** The defensive validation both functions start with. *)
Definition validate (data : record_data) : result (string * Z * Qc) :=
  match d_title data with
  | None => Raise (ValueError "title required")
  | Some t =>
      match checked_year (d_year data) with
      | None => Raise (ValueError "year must be a valid number between 1800 and 2100")
      | Some y =>
          match checked_price (d_price data) with
          | None => Raise (ValueError "price must be a valid non-negative number")
          | Some p => Ok (t, y, p)
          end
      end
  end.

(** Truth value of [data.get('store_id')]: an integer other than 0. *)
Definition truthy_id (o : option Z) : option Z :=
  match o with Some z => if z =? 0 then None else Some z | None => None end.

(** Modelled from the spec: the declaration of [recordStores] is not in the
    source.  The spec makes it the link table between records and stores in
    which a duplicate link is a conflict; [INSERT OR IGNORE] skips it. *)
Definition insert_or_ignore (l : link) (ls : list link) : list link :=
  if bool_decide (l ∈ ls) then ls else ls ++ [l].

(** [DELETE FROM recordStores WHERE record_id = ?] *)
Definition unlink_record (rid : Z) (ls : list link) : list link :=
  List.filter (fun l => negb (fst l =? rid)) ls.

(** What a connection leaves behind: the work of a call that raised before
    its [commit] is lost. *)
Definition commit {A} (d : db) (r : result (A * db)) : result A * db :=
  match r with
  | Ok (a, d') => (Ok a, d')
  | Raise e => (Raise e, d)
  end.

Definition add_record_db (data : record_data) (d : db) : result Z * db :=
  match validate data with
  | Raise e => (Raise e, d)
  | Ok (t, y, p) =>
      commit d
        (rbind (the_table "Records" (Records d)) (fun recs =>
         let '(rid, recs') :=
           append_row record_id
             (fun i => Record_ i t (d_artist_id data) (d_genre_id data) (Some y)
                         (d_condition data) (Some p) (d_purchase_date data))
             recs in
         let d1 := set_Records recs' d in
         match truthy_id (d_store_id data ≫= id) with
         | Some sid =>
             rbind (the_table "recordStores" (recordStores d1)) (fun ls =>
             Ok (rid, set_recordStores (insert_or_ignore (rid, sid) ls) d1))
         | None => Ok (rid, d1)
         end))
  end.

(** [UPDATE Records SET ... WHERE record_id = ?] *)
Definition update_row (rid : Z) (t : string) (y : Z) (p : Qc)
    (data : record_data) (r : record) : record :=
  if record_id r =? rid
  then Record_ (record_id r) t (d_artist_id data) (d_genre_id data) (Some y)
         (d_condition data) (Some p) (d_purchase_date data)
  else r.

Definition update_record_db (rid : Z) (data : record_data) (d : db)
    : result unit * db :=
  match validate data with
  | Raise e => (Raise e, d)
  | Ok (t, y, p) =>
      commit d
        (rbind (the_table "Records" (Records d)) (fun recs =>
         let d1 :=
           set_Records (Table (update_row rid t y p data <$> rows recs) (seq recs)) d in
         match d_store_id data with
         | Some sid =>
             rbind (the_table "recordStores" (recordStores d1)) (fun ls =>
             let ls1 := unlink_record rid ls in
             match truthy_id sid with
             | Some s => Ok (tt, set_recordStores (insert_or_ignore (rid, s) ls1) d1)
             | None => Ok (tt, set_recordStores ls1 d1)
             end)
         | None => Ok (tt, d1)
         end))
  end.

Definition delete_record_db (rid : Z) (d : db) : result unit * db :=
  match the_table "Records" (Records d) with
  | Raise e => (Raise e, d)
  | Ok recs =>
      let artist :=
        match fetchone (fun r => record_id r =? rid) recs with
        | Some r => rec_artist_id r
        | None => None
        end in
      match the_table "recordStores" (recordStores d) with
      | Raise e => (Raise e, d)
      | Ok ls =>
          let recs' := delete_where (fun r => record_id r =? rid) recs in
          let d1 := set_Records recs' (set_recordStores (unlink_record rid ls) d) in
          match truthy_id artist with
          | Some aid =>
              if count_where (fun r => Zeqb_opt (rec_artist_id r) aid) recs' =? 0
              then
                match the_table "Artists" (Artists d1) with
                | Raise e => (Raise e, d1)
                | Ok arts =>
                    (Ok tt,
                     set_Artists (delete_where (fun a => artist_id a =? aid) arts) d1)
                end
              else (Ok tt, d1)
          | None => (Ok tt, d1)
          end
      end
  end.


(** *** [fetch_all_records_db] *)

(** A row of the joined view, with the column names of [api_get_records]. *)
Record view := View {
  v_record_id : Z; v_title : string;
  v_artist : option string; v_genre : option string; v_store : option string;
  v_year : option Z; v_condition : option string;
  v_price : option Qc; v_purchase_date : option string }.

Definition Records_cols : list string :=
  ["record_id"; "title"; "artist_id"; "genre_id"; "year"; "condition";
   "price"; "purchase_date"].
Definition Artists_cols : list string := ["artist_id"; "name"; "country"].
Definition Genres_cols : list string := ["genre_id"; "name"].

(** [PRAGMA table_info]: the column names, none for a table that is absent. *)
Definition table_info {A} (cols : list string) (t : option A) : list string :=
  match t with Some _ => cols | None => [] end.

(** Where a column of the view comes from. *)
Inductive source :=
| Joined (pk : string)
| TextColumn
| Null.

Definition pick_pk (cols : list string) : option string :=
  if bool_decide ("artist_id" ∈ cols) then Some "artist_id"
  else if bool_decide ("id" ∈ cols) then Some "id" else None.

Definition pick_genre_pk (cols : list string) : option string :=
  if bool_decide ("genre_id" ∈ cols) then Some "genre_id"
  else if bool_decide ("id" ∈ cols) then Some "id" else None.

Definition pick_source (has_id : bool) (pk : option string) (text : string)
    (rec_cols : list string) : source :=
  match has_id, pk with
  | true, Some pk => Joined pk
  | _, _ => if bool_decide (text ∈ rec_cols) then TextColumn else Null
  end.

Definition no_such_column {A} (name : string) : result A :=
  Raise (OperationalError ("no such column: " +:+ name)).

(** [LEFT JOIN Artists A ON R.artist_id = A.artist_id], column [A.name]. *)
Definition artist_of (arts : table artist) (r : record) : option string :=
  aid ← rec_artist_id r;
  artist_name <$> fetchone (fun a => artist_id a =? aid) arts.

Definition genre_of (gens : table genre) (r : record) : option string :=
  gid ← rec_genre_id r;
  genre_name <$> fetchone (fun g => genre_id g =? gid) gens.

(** [LEFT JOIN Stores S ON RS.store_id = S.store_id], column [S.name]. *)
Definition store_of (stores : table store) (l : link) : option string :=
  store_name <$> fetchone (fun s => store_id s =? snd l) stores.

Fixpoint join_with (sep : string) (l : list string) : string :=
  match l with
  | [] => ""
  | [x] => x
  | x :: l' => x +:+ sep +:+ join_with sep l'
  end.

(** [GROUP_CONCAT(S.name, ', ')] over the links of a record. *)
Definition group_concat (names : list (option string)) : option string :=
  match omap id names with
  | [] => None
  | ns => Some (join_with ", " ns)
  end.

Definition links_of (rid : Z) (ls : list link) : list link :=
  List.filter (fun l => fst l =? rid) ls.

(** [ORDER BY R.record_id DESC] *)
Definition rec_desc (a b : record) : Prop := record_id b ≤ record_id a.

#[global] Instance rec_desc_dec : RelDecision rec_desc.
Proof. intros a b. unfold rec_desc. apply _. Defined.

(** [ORDER BY name] *)
Definition genre_asc (a b : genre) : Prop :=
  String.le (genre_name a) (genre_name b).

#[global] Instance genre_asc_dec : RelDecision genre_asc.
Proof. intros a b. unfold genre_asc. apply _. Defined.

Definition get_genres_db (d : db) : result (list genre) :=
  rbind (the_table "Genres" (Genres d)) (fun t =>
  Ok (merge_sort genre_asc (rows t))).

Definition fetch_all_records_db (d : db) : result (list view) :=
  let rec_cols := table_info Records_cols (Records d) in
  let pk :=
    if bool_decide ("record_id" ∈ rec_cols) then "record_id"
    else if bool_decide ("id" ∈ rec_cols) then "id"
    else match rec_cols with c :: _ => c | [] => "rowid" end in
  let has_artist_id := bool_decide ("artist_id" ∈ rec_cols) in
  let artist_pk := pick_pk (table_info Artists_cols (Artists d)) in
  let has_genre_id := bool_decide ("genre_id" ∈ rec_cols) in
  let genre_pk := pick_genre_pk (table_info Genres_cols (Genres d)) in
  let has_recordstores := bool_decide (is_Some (recordStores d)) in
  let has_stores := bool_decide (is_Some (Stores d)) in
  let artist_src := pick_source has_artist_id artist_pk "artist" rec_cols in
  let genre_src := pick_source has_genre_id genre_pk "genre" rec_cols in
  let store_src :=
    if has_recordstores && has_stores then Joined "store_id"
    else if bool_decide ("store" ∈ rec_cols) then TextColumn else Null in
  (* the statement assembled from these choices, run on the tables *)
  rbind (the_table "Records" (Records d)) (fun recs =>
  rbind (if bool_decide (pk = "record_id") then Ok tt else no_such_column pk) (fun _ =>
  rbind (match artist_src with
         | Joined apk =>
             rbind (the_table "Artists" (Artists d)) (fun arts =>
             if bool_decide (apk = "artist_id") then Ok (artist_of arts)
             else no_such_column apk)
         | TextColumn => no_such_column "artist"
         | Null => Ok (fun _ => None)
         end) (fun artist =>
  rbind (match genre_src with
         | Joined gpk =>
             rbind (the_table "Genres" (Genres d)) (fun gens =>
             if bool_decide (gpk = "genre_id") then Ok (genre_of gens)
             else no_such_column gpk)
         | TextColumn => no_such_column "genre"
         | Null => Ok (fun _ => None)
         end) (fun genre =>
  rbind (match store_src with
         | Joined _ =>
             rbind (the_table "recordStores" (recordStores d)) (fun ls =>
             rbind (the_table "Stores" (Stores d)) (fun stores =>
             Ok (fun r => group_concat
                            (store_of stores <$> links_of (record_id r) ls))))
         | TextColumn => no_such_column "store"
         | Null => Ok (fun _ => None)
         end) (fun store =>
  Ok ((fun r => View (record_id r) (title r) (artist r) (genre r) (store r)
                  (year r) (condition r) (price r) (purchase_date r))
      <$> merge_sort rec_desc (rows recs))))))).

End Repo.

(** ** The HTTP facade *)
Module Api.
Import Db Repo.

(** A JSON value of a request body.  Numbers are the rationals they denote:
    rounding and the infinities of binary floating point are not modelled. *)
#[local] Unset Elimination Schemes.
Inductive json :=
| JNull
| JBool (b : bool)
| JInt (z : Z)
| JFloat (q : Qc)
| JStr (s : string)
| JArr (l : list json)
| JObj (l : list (string * json)).
#[local] Set Elimination Schemes.

(** The request body, [request.get_json(silent=True) or {}]. *)
Abbreviation payload := (gmap string json).

(** [payload.get(key)] *)
Definition get (p : payload) (key : string) : json := default JNull (p !! key).

(** Truth value of a Python object. *)
Definition truthy (v : json) : bool :=
  match v with
  | JNull => false
  | JBool b => b
  | JInt z => negb (z =? 0)
  | JFloat q => negb (Qeq_bool q 0)
  | JStr s => PyStr.truthy s
  | JArr l => match l with [] => false | _ => true end
  | JObj l => match l with [] => false | _ => true end
  end.

(** The [stats] object of a report. *)
Record stats := Stats {
  count : Z;
  avg_price : option Qc; min_price : option Qc; max_price : option Qc;
  avg_year : option Qc }.

Inductive body :=
| Empty
| Error (msg : string)
| RecordId (rid : Z)
| RecordList (l : list view)
| GenreList (l : list genre)
| Report (rows : list view) (st : stats)
| Failure (e : exn).

Record response := Response { status : Z; content : body }.

(** The reply to a request whose handler raised. *)
Definition internal_error (e : exn) : response := Response 500 (Failure e).

Definition bad_request (msg : string) : response := Response 400 (Error msg).

(** A handler under way: the next value, or the response it returned. *)
Inductive step (A : Type) :=
| Next (a : A)
| Return (r : response).
Arguments Next {A} a.
Arguments Return {A} r.

Definition handler (A : Type) : Type := db -> step A * db.

Definition hbind {A B} (h : handler A) (k : A -> handler B) : handler B :=
  fun d => match h d with
           | (Next a, d') => k a d'
           | (Return r, d') => (Return r, d')
           end.

Definition hret {A} (a : A) : handler A := fun d => (Next a, d).

(** [return response] *)
Definition reply {A} (r : response) : handler A := fun d => (Return r, d).

(** A call of a repository function. *)
Definition call {A} (f : db -> result A * db) : handler A :=
  fun d => match f d with
           | (Ok a, d') => (Next a, d')
           | (Raise e, d') => (Return (internal_error e), d')
           end.

(** A computation that may raise and does not touch the database. *)
Definition eval {A} (r : result A) : handler A := call (fun d => (r, d)).

Definition run (h : handler response) (d : db) : response * db :=
  match h d with
  | (Next r, d') => (r, d')
  | (Return r, d') => (r, d')
  end.

Notation "x <- h ;; k" := (hbind h (fun x => k))
  (at level 100, h at next level, right associativity).

(** [(val or "").strip()], [None] when empty, else cut to [max_len]. *)
Definition sanitize_text (val : json) : result (option string) :=
  match (if truthy val then val else JStr "") with
  | JStr s =>
      let s := PyStr.strip s in
      Ok (if PyStr.truthy s then Some (PyStr.prefix 255 s) else None)
  | _ => Raise AttributeError
  end.

(** [parse_date_yyyy_mm_dd]: [strptime] raises [TypeError], which the
    function does not catch, on what is not text. *)
Definition parse_date_yyyy_mm_dd (val : json) : result (option string) :=
  if negb (truthy val) then Ok None
  else match val with
       | JStr s => Ok (if Strptime.strptime_ok s then Some s else None)
       | _ => Raise TypeError
       end.

Section Runtime.

(** [int(s)] and [float(s)] on text are the interpreter's; [None] stands for
    the [ValueError] they raise. *)
Variable int_of_str : string -> option Z.
Variable float_of_str : string -> option Qc.

(** [int(val)], [None] for [TypeError] and [ValueError]. *)
Definition py_int (val : json) : option Z :=
  match val with
  | JBool b => Some (if b then 1 else 0)
  | JInt z => Some z
  | JFloat q => Some (Z.quot (Qnum q) (Z.pos (Qden q)))
  | JStr s => int_of_str s
  | _ => None
  end.

(** [float(val)], [None] for [TypeError] and [ValueError]. *)
Definition py_float (val : json) : option Qc :=
  match val with
  | JBool b => Some (if b then 1%Qc else 0%Qc)
  | JInt z => Some (Qc_of_Z z)
  | JFloat q => Some q
  | JStr s => float_of_str s
  | _ => None
  end.

Definition parse_int (val : json) (min_val max_val : option Z) : option Z :=
  match val with
  | JNull => None
  | _ =>
      i ← py_int val;
      if match min_val with Some m => i <? m | None => false end then None
      else if match max_val with Some m => i >? m | None => false end then None
      else Some i
  end.

Definition parse_float (val : json) (min_val max_val : option Qc) : option Qc :=
  match val with
  | JNull => None
  | _ =>
      f ← py_float val;
      if match min_val with Some m => Qc_ltb f m | None => false end then None
      else if match max_val with Some m => Qc_ltb m f | None => false end then None
      else Some f
  end.

(** [find_or_create_artist(artist_name) if artist_name else None] *)
Definition artist_for (name : option string) : handler (option Z) :=
  match name with
  | Some n => call (find_or_create_artist (Some n) None)
  | None => hret None
  end.

Definition genre_for (name : option string) : handler (option Z) :=
  match name with
  | Some n => call (find_or_create_genre (Some n))
  | None => hret None
  end.

(** The body that [api_add_record] and [api_update_record] share, from the
    reading of the payload to the dict [data]. *)
Definition record_form (p : payload) : handler record_data :=
  title <- eval (sanitize_text (get p "title")) ;;
  match title with
  | None => reply (bad_request "title required")
  | Some title =>
      artist_name <- eval (sanitize_text (get p "artist_name")) ;;
      genre_name <- eval (sanitize_text (get p "genre")) ;;
      artist_id <- artist_for artist_name ;;
      genre_id <- genre_for genre_name ;;
      match parse_int (get p "year") (Some 1800) (Some 2100) with
      | None =>
          reply (bad_request "year must be a valid number between 1800 and 2100")
      | Some year =>
          condition <- eval (sanitize_text (get p "condition")) ;;
          match parse_float (get p "price") (Some 0%Qc) None with
          | None =>
              reply (bad_request "price must be a valid non-negative number")
          | Some price =>
              purchase_date <- eval (parse_date_yyyy_mm_dd (get p "purchase_date")) ;;
              let store_id := parse_int (get p "store_id") (Some 1) None in
              hret (RecordData (Some title) artist_id genre_id (PInt year)
                      condition (PFloat price) purchase_date (Some store_id))
          end
      end
  end.

Definition api_add_record (p : payload) : db -> response * db :=
  run (data <- record_form p ;;
       rid <- call (add_record_db data) ;;
       hret (Response 201 (RecordId rid))).

Definition api_update_record (rid : Z) (p : payload) : db -> response * db :=
  run (data <- record_form p ;;
       _ <- call (update_record_db rid data) ;;
       hret (Response 204 Empty)).

Definition api_delete_record (rid : Z) : db -> response * db :=
  run (_ <- call (delete_record_db rid) ;;
       hret (Response 204 Empty)).

(** *** [api_report_records] *)

(** One entry of the list [where], with its parameter. *)
Inductive cond :=
| DateGe (s : string)
| DateLe (s : string)
| ArtistEq (z : Z)
| GenreEq (z : Z)
| StoreEq (z : Z).

(** A row of the FROM clause: a record [R] and the link [RS] joined to it,
    [None] when the record has no link or the link table is not joined. *)
Definition from_row : Type := record * option link.

(** A comparison with NULL does not hold. *)
Definition holds (c : cond) (x : from_row) : bool :=
  match c with
  | DateGe s =>
      match purchase_date (fst x) with Some p => PyStr.leb s p | None => false end
  | DateLe s =>
      match purchase_date (fst x) with Some p => PyStr.leb p s | None => false end
  | ArtistEq z => Zeqb_opt (rec_artist_id (fst x)) z
  | GenreEq z => Zeqb_opt (rec_genre_id (fst x)) z
  | StoreEq z => Zeqb_opt (snd <$> snd x) z
  end.

Definition where_holds (where_ : list cond) (x : from_row) : bool :=
  forallb (fun c => holds c x) where_.

Definition names_RS (c : cond) : bool :=
  match c with StoreEq _ => true | _ => false end.

(** A statement that names [RS.store_id] without joining [RS] is refused. *)
Definition check_where (rs_joined : bool) (where_ : list cond) : result unit :=
  if negb rs_joined && existsb names_RS where_
  then no_such_column "RS.store_id" else Ok tt.

(** [LEFT JOIN recordStores RS ON R.record_id = RS.record_id] *)
Definition join_links (ls : list link) (r : record) : list from_row :=
  match links_of (record_id r) ls with
  | [] => [(r, None)]
  | m => (fun l => (r, Some l)) <$> m
  end.

Definition no_links (r : record) : list from_row := [(r, None)].

Definition opt_list {A} (b : bool) (x : A) : list A := if b then [x] else [].

Definition Qc_sum (l : list Qc) : Qc := foldr Qcplus 0%Qc l.

(** [AVG], [MIN] and [MAX] leave NULL out and are NULL over nothing. *)
Definition sql_avg (l : list (option Qc)) : option Qc :=
  match omap id l with
  | [] => None
  | v => Some (Qc_sum v / Qc_of_Z (Z.of_nat (length v)))%Qc
  end.

Definition Qc_min (a b : Qc) : Qc := if Qle_bool a b then a else b.
Definition Qc_max (a b : Qc) : Qc := if Qle_bool a b then b else a.

Definition sql_min (l : list (option Qc)) : option Qc :=
  match omap id l with
  | [] => None
  | x :: v => Some (foldr Qc_min x v)
  end.

Definition sql_max (l : list (option Qc)) : option Qc :=
  match omap id l with
  | [] => None
  | x :: v => Some (foldr Qc_max x v)
  end.

(** The statement behind [rows]. *)
Definition report_rows (where_ : list cond) (d : db) : result (list view) :=
  let has_recordstores := bool_decide (is_Some (recordStores d)) in
  let has_stores := bool_decide (is_Some (Stores d)) in
  rbind (the_table "Records" (Records d)) (fun recs =>
  rbind (the_table "Artists" (Artists d)) (fun arts =>
  rbind (the_table "Genres" (Genres d)) (fun gens =>
  let sorted := merge_sort rec_desc (rows recs) in
  if has_recordstores && has_stores then
    rbind (the_table "recordStores" (recordStores d)) (fun ls =>
    rbind (the_table "Stores" (Stores d)) (fun stores =>
    Ok ((fun x : from_row =>
           let r := fst x in
           View (record_id r) (title r) (artist_of arts r) (genre_of gens r)
             (snd x ≫= store_of stores)
             (year r) (condition r) (price r) (purchase_date r))
        <$> List.filter (where_holds where_) (sorted ≫= join_links ls))))
  else
    rbind (check_where false where_) (fun _ =>
    Ok ((fun x : from_row =>
           let r := fst x in
           View (record_id r) (title r) (artist_of arts r) (genre_of gens r)
             None (year r) (condition r) (price r) (purchase_date r))
        <$> List.filter (where_holds where_) (sorted ≫= no_links)))))).

(** The statement behind [stats]. *)
Definition report_stats (join_store : bool) (where_ : list cond) (d : db)
    : result stats :=
  rbind (the_table "Records" (Records d)) (fun recs =>
  rbind (if join_store
         then rbind (the_table "recordStores" (recordStores d)) (fun ls =>
              Ok (join_links ls))
         else Ok no_links) (fun join =>
  rbind (check_where join_store where_) (fun _ =>
  let sel := List.filter (where_holds where_) (rows recs ≫= join) in
  let prices := (fun x : from_row => price (fst x)) <$> sel in
  let years := (fun x : from_row => Qc_of_Z <$> year (fst x)) <$> sel in
  Ok (Stats (Z.of_nat (length sel)) (sql_avg prices) (sql_min prices)
        (sql_max prices) (sql_avg years))))).

(** [api_report_records].  The third member of the reply, [by_artist], is
    left out: its order among artists of equal count is the engine's, and
    its statement reads no table that the two before it have not read. *)
Definition api_report_records (p : payload) : db -> response * db :=
  run (start_date <- eval (parse_date_yyyy_mm_dd (get p "start_date")) ;;
       end_date <- eval (parse_date_yyyy_mm_dd (get p "end_date")) ;;
       let artist_id := parse_int (get p "artist_id") (Some 1) None in
       let store_id := parse_int (get p "store_id") (Some 1) None in
       let genre_id := parse_int (get p "genre_id") (Some 1) None in
       let where_ :=
         match start_date with
         | Some s => opt_list (PyStr.truthy s) (DateGe s) | None => []
         end
         ++ match end_date with
            | Some s => opt_list (PyStr.truthy s) (DateLe s) | None => []
            end
         ++ from_option (fun a => [ArtistEq a]) [] (truthy_id artist_id)
         ++ from_option (fun g => [GenreEq g]) [] (truthy_id genre_id)
         ++ from_option (fun s => [StoreEq s]) [] (truthy_id store_id) in
       let join_store := bool_decide (is_Some (truthy_id store_id)) in
       rows <- call (fun d => (report_rows where_ d, d)) ;;
       st <- call (fun d => (report_stats join_store where_ d, d)) ;;
       hret (Response 200 (Report rows st))).

End Runtime.


Definition api_get_genres : db -> response * db :=
  run (rows <- call (fun d => (get_genres_db d, d)) ;;
       hret (Response 200 (GenreList rows))).

Definition api_delete_genre (gid : Z) (d : db) : response * db :=
  match the_table "Records" (Records d) with
  | Raise e => (internal_error e, d)
  | Ok recs =>
      let cnt := count_where (fun r => Zeqb_opt (rec_genre_id r) gid) recs in
      if cnt >? 0
      then (bad_request "genre in use by records, cannot delete", d)
      else
        match the_table "Genres" (Genres d) with
        | Raise e => (internal_error e, d)
        | Ok gens =>
            (Response 204 Empty,
             set_Genres (delete_where (fun g => genre_id g =? gid) gens) d)
        end
  end.

End Api.

(** ** The endpoints of artists, genres and stores *)
Module Entities.
Import Db Repo Api.

(** [ORDER BY name] *)
Definition artist_asc (a b : artist) : Prop :=
  String.le (artist_name a) (artist_name b).

#[global] Instance artist_asc_dec : RelDecision artist_asc.
Proof. intros a b. unfold artist_asc. apply _. Defined.

Definition store_asc (a b : store) : Prop :=
  String.le (store_name a) (store_name b).

#[global] Instance store_asc_dec : RelDecision store_asc.
Proof. intros a b. unfold store_asc. apply _. Defined.

Definition get_artists_db (d : db) : result (list artist) :=
  rbind (the_table "Artists" (Artists d)) (fun t =>
  Ok (merge_sort artist_asc (rows t))).

Definition get_stores_db (d : db) : result (list store) :=
  rbind (the_table "Stores" (Stores d)) (fun t =>
  Ok (merge_sort store_asc (rows t))).

(** The replies of these endpoints: an error reply, the id of a creation
    (201) or a list (200). *)
Inductive entity_reply :=
| Plain (r : response)
| ArtistId (aid : option Z)
| GenreId (gid : option Z)
| StoreId (sid : option Z)
| ArtistList (l : list artist)
| StoreList (l : list store).

Definition reply_status (r : entity_reply) : Z :=
  match r with
  | Plain r => status r
  | ArtistId _ | GenreId _ | StoreId _ => 201
  | ArtistList _ | StoreList _ => 200
  end.

Definition conclude (h : handler entity_reply) (d : db) : entity_reply * db :=
  match h d with
  | (Next r, d') => (r, d')
  | (Return r, d') => (Plain r, d')
  end.

Definition api_get_artists : db -> entity_reply * db :=
  conclude (rows <- call (fun d => (get_artists_db d, d)) ;;
            hret (ArtistList rows)).

Definition api_get_stores : db -> entity_reply * db :=
  conclude (rows <- call (fun d => (get_stores_db d, d)) ;;
            hret (StoreList rows)).

Definition api_create_artist (p : payload) : db -> entity_reply * db :=
  conclude (name <- eval (sanitize_text (get p "name")) ;;
            country <- eval (sanitize_text (get p "country")) ;;
            match name with
            | None => reply (bad_request "name required")
            | Some n =>
                aid <- call (find_or_create_artist (Some n) country) ;;
                hret (ArtistId aid)
            end).

Definition api_create_genre (p : payload) : db -> entity_reply * db :=
  conclude (name <- eval (sanitize_text (get p "name")) ;;
            match name with
            | None => reply (bad_request "name required")
            | Some n =>
                gid <- call (find_or_create_genre (Some n)) ;;
                hret (GenreId gid)
            end).

Definition api_create_store (p : payload) : db -> entity_reply * db :=
  conclude (name <- eval (sanitize_text (get p "name")) ;;
            match name with
            | None => reply (bad_request "name required")
            | Some n =>
                state <- eval (sanitize_text (get p "state")) ;;
                address <- eval (sanitize_text (get p "address")) ;;
                sid <- call (find_or_create_store (Some n) state address) ;;
                hret (StoreId sid)
            end).

(** [UPDATE Artists SET name = ?, country = ? WHERE artist_id = ?]: the
    statement is refused when it would give the row the name of another
    row. *)
Definition update_artist_row (aid : Z) (name : string)
    (country : option string) (a : artist) : artist :=
  if artist_id a =? aid then Artist (artist_id a) name country else a.

Definition update_artists (aid : Z) (name : string) (country : option string)
    (t : table artist) : result (table artist) :=
  if existsb (fun a => artist_id a =? aid) (rows t)
     && existsb (fun a => negb (artist_id a =? aid)
                          && bool_decide (artist_name a = name)) (rows t)
  then Raise (IntegrityError "UNIQUE constraint failed: Artists.name")
  else Ok (Table (update_artist_row aid name country <$> rows t) (seq t)).

Definition api_update_artist (aid : Z) (p : payload) : db -> response * db :=
  run (name <- eval (sanitize_text (get p "name")) ;;
       country <- eval (sanitize_text (get p "country")) ;;
       match name with
       | None => reply (bad_request "name required")
       | Some n =>
           _ <- call (fun d =>
                  commit d
                    (rbind (the_table "Artists" (Artists d)) (fun t =>
                     rbind (update_artists aid n country t) (fun t' =>
                     Ok (tt, set_Artists t' d))))) ;;
           hret (Response 204 Empty)
       end).

Definition api_delete_artist (aid : Z) (d : db) : response * db :=
  match the_table "Records" (Records d) with
  | Raise e => (internal_error e, d)
  | Ok recs =>
      let cnt := count_where (fun r => Zeqb_opt (rec_artist_id r) aid) recs in
      if cnt >? 0
      then (bad_request "artist has records, cannot delete", d)
      else
        match the_table "Artists" (Artists d) with
        | Raise e => (internal_error e, d)
        | Ok arts =>
            (Response 204 Empty,
             set_Artists (delete_where (fun a => artist_id a =? aid) arts) d)
        end
  end.

(** [UPDATE Genres SET name = ? WHERE genre_id = ?] *)
Definition update_genre_row (gid : Z) (name : string) (g : genre) : genre :=
  if genre_id g =? gid then Genre (genre_id g) name else g.

Definition update_genres (gid : Z) (name : string) (t : table genre)
    : result (table genre) :=
  if existsb (fun g => genre_id g =? gid) (rows t)
     && existsb (fun g => negb (genre_id g =? gid)
                          && bool_decide (genre_name g = name)) (rows t)
  then Raise (IntegrityError "UNIQUE constraint failed: Genres.name")
  else Ok (Table (update_genre_row gid name <$> rows t) (seq t)).

Definition api_update_genre (gid : Z) (p : payload) : db -> response * db :=
  run (name <- eval (sanitize_text (get p "name")) ;;
       match name with
       | None => reply (bad_request "name required")
       | Some n =>
           _ <- call (fun d =>
                  commit d
                    (rbind (the_table "Genres" (Genres d)) (fun t =>
                     rbind (update_genres gid n t) (fun t' =>
                     Ok (tt, set_Genres t' d))))) ;;
           hret (Response 204 Empty)
       end).

(** [UPDATE Stores SET name = ?, state = ?, address = ? WHERE store_id = ?] *)
Definition update_store_row (sid : Z) (name : string)
    (state address : option string) (s : store) : store :=
  if store_id s =? sid then Store (store_id s) name state address else s.

Definition api_update_store (sid : Z) (p : payload) : db -> response * db :=
  run (name <- eval (sanitize_text (get p "name")) ;;
       state <- eval (sanitize_text (get p "state")) ;;
       address <- eval (sanitize_text (get p "address")) ;;
       match name with
       | None => reply (bad_request "name required")
       | Some n =>
           _ <- call (fun d =>
                  commit d
                    (rbind (the_table "Stores" (Stores d)) (fun t =>
                     Ok (tt, set_Stores
                               (Table (update_store_row sid n state address
                                       <$> rows t) (seq t)) d)))) ;;
           hret (Response 204 Empty)
       end).

(** [DELETE FROM recordStores WHERE store_id = ?] *)
Definition unlink_store (sid : Z) (ls : list link) : list link :=
  List.filter (fun l => negb (snd l =? sid)) ls.

Definition api_delete_store (sid : Z) (d : db) : response * db :=
  match the_table "recordStores" (recordStores d) with
  | Raise e => (internal_error e, d)
  | Ok ls =>
      match the_table "Stores" (Stores d) with
      | Raise e => (internal_error e, d)
      | Ok sts =>
          (Response 204 Empty,
           set_Stores (delete_where (fun s => store_id s =? sid) sts)
             (set_recordStores (unlink_store sid ls) d))
      end
  end.

End Entities.

Import Db Repo Api Entities.

Arguments PyStr.strip : simpl never.
Arguments fetchone : simpl never.
Arguments next_id : simpl never.

(** * Vocabulary of the properties *)

(** Two calls in a row of a find-or-create [foc] on the table [tbl]: both
    return the same id and the second changes nothing; the first returns the
    row that [matches] when there is one and changes nothing either, and
    otherwise appends exactly one row, which [matches]. *)
Definition twice_one_row {A} (foc : db -> result (option Z) * db)
    (tbl : db -> option (table A)) (set : table A -> db -> db)
    (key : A -> Z) (matches : A -> bool) (d : db) : Prop :=
  exists i d1 t,
    tbl d = Some t /\
    foc d = (Ok (Some i), d1) /\ foc d1 = (Ok (Some i), d1) /\
    match fetchone matches t with
    | Some r => key r = i /\ d1 = d
    | None =>
        exists r, key r = i /\ matches r = true
                  /\ d1 = set (Table (rows t ++ [r]) i) d
    end.

(** The row a call of [find_or_create_store] looks for. *)
Definition store_matches (name : string) (address : option string)
    (s : store) : bool :=
  if truthy_opt address
  then bool_decide (store_name s = name) && bool_decide (store_address s = address)
  else bool_decide (store_name s = name).

(** A database with the five tables, all empty. *)
Definition blank_db : db :=
  Database (Some (Table [] 0)) (Some (Table [] 0)) (Some (Table [] 0))
    (Some (Table [] 0)) (Some []) ∅.

(** A field of the payload that is text, [null] or missing. *)
Definition optional_text (v : json) : bool :=
  match v with JNull | JStr _ => true | _ => false end.

(** The text the facade keeps of such a field. *)
Definition clean (v : json) : option string :=
  match sanitize_text v with Ok o => o | Raise _ => None end.

(** The date the facade keeps of such a field. *)
Definition date_of (v : json) : option string :=
  match parse_date_yyyy_mm_dd v with Ok o => o | Raise _ => None end.

(** The number a JSON number denotes. *)
Definition number (v : json) : option Qc :=
  match v with
  | JInt z => Some (Qc_of_Z z)
  | JFloat q => Some q
  | _ => None
  end.

(** A valid record payload: a title that is not blank, a year from 1800 to
    2100, a price that is not negative, and text, [null] or nothing in the
    fields that are text. *)
Definition valid_payload (p : payload) (t : string) (y : Z) (q : Qc) : Prop :=
  get p "title" = JStr t /\ PyStr.truthy (PyStr.strip t) = true
  /\ get p "year" = JInt y /\ 1800 ≤ y ≤ 2100
  /\ number (get p "price") = Some q /\ (0 ≤ q)%Qc
  /\ optional_text (get p "artist_name") = true
  /\ optional_text (get p "genre") = true
  /\ optional_text (get p "condition") = true
  /\ optional_text (get p "purchase_date") = true.


(** A database that already holds the artist "Miles Davis". *)
Definition miles_db : db :=
  set_Artists (Table [Artist 1 "Miles Davis" None] 1) blank_db.

(** A database with a link row whose record is not there. *)
Definition dangling_db : db := set_recordStores [(99, 1)] blank_db.

(** Two records of one artist, the first of them sold by two stores. *)
Definition kind_of_blue : record :=
  Record_ 1 "Kind of Blue" (Some 1) None (Some 1959) None
    (Some (Qc_of_Z 25)) (Some "2020-01-01").

Definition bitches_brew : record :=
  Record_ 2 "Bitches Brew" (Some 1) None (Some 1970) None
    (Some (Qc_of_Z 30)) (Some "2021-06-01").

Definition two_stores : table store :=
  Table [Store 1 "Vinyl Corner" None None; Store 2 "Groove Yard" None None] 2.

Definition shelf_db : db :=
  Database (Some (Table [Artist 1 "Miles Davis" None] 1))
    (Some (Table [] 0))
    (Some (Table [kind_of_blue; bitches_brew] 2))
    (Some two_stores) (Some [(1, 1); (1, 2)]) ∅.

(** The row of a report for a record and the link joined to it, when the
    five tables are there. *)
Definition report_row (arts : table artist) (gens : table genre)
    (sts : table store) (x : from_row) : view :=
  View (record_id (fst x)) (title (fst x)) (artist_of arts (fst x))
    (genre_of gens (fst x)) (snd x ≫= store_of sts)
    (year (fst x)) (condition (fst x)) (price (fst x)) (purchase_date (fst x)).

(** The number of rows of a join that a condition selects. *)
Definition selected (W : from_row -> bool) (J : record -> list from_row)
    (l : list record) : nat :=
  length (List.filter W (l ≫= J)).

(** The number two decimal digits write. *)
Definition num2 (a b : ascii) : Z :=
  PyStr.digit_val a * 10 + PyStr.digit_val b.

Definition num4 (a b c d : ascii) : Z :=
  PyStr.digit_val a * 1000 + PyStr.digit_val b * 100
  + PyStr.digit_val c * 10 + PyStr.digit_val d.

(** The payload of the example of the specification. *)
Definition kind_of_blue_payload : payload :=
  list_to_map
    [("title", JStr "Kind of Blue"); ("artist_name", JStr "Miles Davis");
     ("genre", JStr "Jazz"); ("year", JInt 1959); ("price", JInt 25);
     ("purchase_date", JStr "2020-01-01"); ("store_id", JInt 2)].

(** Payloads that fail validation and name an artist not stored yet. *)
Definition year_payload (y : Z) : payload :=
  list_to_map
    [("title", JStr "So What"); ("artist_name", JStr "Nobody");
     ("year", JInt y); ("price", JInt 10)].

Definition negative_price_payload : payload :=
  list_to_map
    [("title", JStr "So What"); ("artist_name", JStr "Nobody");
     ("year", JInt 1959); ("price", JFloat (Q2Qc (-1 # 100)))].

Definition nobody_db : db :=
  set_Artists (Table [Artist 1 "Nobody" None] 1) blank_db.

(** A report request with an artist and a first date. *)
Definition report_payload : payload :=
  list_to_map [("artist_id", JInt 1); ("start_date", JStr "2020-01-01")].

(** A database with a genre that a record refers to. *)
Definition jazz : genre := Genre 1 "Jazz".

Definition jazz_record : record :=
  Record_ 1 "Kind of Blue" None (Some 1) (Some 1959) None
    (Some (Qc_of_Z 25)) None.

Definition jazz_db : db :=
  set_Records (Table [jazz_record] 1) (set_Genres (Table [jazz] 1) blank_db).

(** An update that names a store. *)
Definition store_payload (sid : Z) : payload :=
  list_to_map
    [("title", JStr "Kind of Blue"); ("year", JInt 1959); ("price", JInt 25);
     ("store_id", JInt sid)].

(** A runtime in which no text is a number. *)
Definition no_number {A} (s : string) : option A := None.

(** A stored record with a year from 1800 to 2100 and a price that is not
    negative. *)
Definition valid_row (r : record) : Prop :=
  exists y q, year r = Some y /\ 1800 ≤ y ≤ 2100
              /\ price r = Some q /\ (0 ≤ q)%Qc.

(** A stored record as the facade writes it: valid, with a title of 1 to
    255 characters. *)
Definition facade_row (r : record) : Prop :=
  valid_row r /\ (1 ≤ String.length (title r) ≤ 255)%nat.

(** Every record that names an artist names one that is stored. *)
Definition artist_refs_ok (d : db) : Prop :=
  forall recs arts r a,
    Records d = Some recs -> Artists d = Some arts ->
    r ∈ rows recs -> rec_artist_id r = Some a ->
    exists x, x ∈ rows arts /\ artist_id x = a.

(** Every record that names a genre names one that is stored. *)
Definition genre_refs_ok (d : db) : Prop :=
  forall recs gens r g,
    Records d = Some recs -> Genres d = Some gens ->
    r ∈ rows recs -> rec_genre_id r = Some g ->
    exists x, x ∈ rows gens /\ genre_id x = g.

(** Every link names a store that is stored. *)
Definition store_links_ok (d : db) : Prop :=
  forall ls sts l,
    recordStores d = Some ls -> Stores d = Some sts -> l ∈ ls ->
    exists x, x ∈ rows sts /\ store_id x = snd l.

(** A dict with a title and nothing else. *)
Definition title_only : record_data :=
  RecordData (Some "Kind of Blue") None None PNone None PNone None None.

(** A dict that the checks of the layer accept. *)
Definition good_data : record_data :=
  RecordData (Some "Kind of Blue") (Some 1) None (PInt 1959) None (PInt 25)
    (Some "2020-01-01") (Some (Some 2)).

(** A database without a table of stores. *)
Definition no_stores_db : db :=
  Database (Some (Table [] 0)) (Some (Table [] 0)) (Some (Table [] 0))
    None (Some []) ∅.

(** The order of the list of records: newest id first. *)
Definition view_desc (a b : view) : Prop := v_record_id b ≤ v_record_id a.

(** Two artists with different names. *)
Definition two_artists_db : db :=
  set_Artists
    (Table [Artist 1 "Miles Davis" None; Artist 2 "John Coltrane" (Some "US")] 2)
    blank_db.

(** ** The numbers of a request

    [sqlite3] binds a Python [int] that fits in 64 bits and raises
    [OverflowError] on a larger one; [float] takes over an [int] of up to
    53 bits as it is, rounds a larger one and raises [OverflowError] on one
    beyond the doubles.  The definitions above compute with the integers
    and the rationals themselves: the theorems take the numbers that come
    with a request in the range where that is what the program does. *)
Definition sqlite_int (z : Z) : Prop :=
  -9223372036854775808 ≤ z ≤ 9223372036854775807.

Definition exact_number (v : json) : Prop :=
  match v with JInt z => Z.abs z ≤ 9007199254740992 | _ => True end.

(** An id of a request: nothing, or an integer that can be bound; one below
    1 counts as nothing. *)
Definition id_field (v : json) (o : option Z) : Prop :=
  match v with
  | JNull => o = None
  | JInt z => z ≤ 9223372036854775807 /\ o = (if 1 <=? z then Some z else None)
  | _ => False
  end.

(** A date of a request: nothing, or text that [strptime] takes. *)
Definition date_field (v : json) : Prop :=
  match v with
  | JNull => True
  | JStr s => Strptime.strptime_ok s = true
  | _ => False
  end.

(** The text of a field, as it stands. *)
Definition text_of (v : json) : option string :=
  match v with JStr s => Some s | _ => None end.

(** The rule of the specification for a text field (4.4): trimmed, nothing
    when empty, cut to 255 characters. *)
Definition spec_text (v : json) : option string :=
  match v with
  | JStr s =>
      if PyStr.truthy (PyStr.strip s)
      then Some (PyStr.prefix 255 (PyStr.strip s)) else None
  | _ => None
  end.


(** The link that [LEFT JOIN recordStores] joins to a record: one of its
    links, or none when it has none. *)
Definition link_joined (ls : list link) (r : record) (o : option link) : Prop :=
  match o with
  | Some l => l ∈ ls /\ fst l = record_id r
  | None => forall l, l ∈ ls -> fst l <> record_id r
  end.

(** The filters of a report as the specification reads them (4.3): every
    filter that is given holds of the record, the store filter of the link
    joined to it; a record without a purchase date passes no date filter. *)
Definition passes_filters (sd ed : option string) (a g s : option Z)
    (r : record) (o : option link) : Prop :=
  (forall x, sd = Some x ->
     exists dt, purchase_date r = Some dt /\ PyStr.leb x dt = true)
  /\ (forall x, ed = Some x ->
        exists dt, purchase_date r = Some dt /\ PyStr.leb dt x = true)
  /\ (forall x, a = Some x -> rec_artist_id r = Some x)
  /\ (forall x, g = Some x -> rec_genre_id r = Some x)
  /\ (forall x, s = Some x -> exists l, o = Some l /\ snd l = x).

(** A database with one record, sold by two stores, and its artist. *)
Definition solo_db : db :=
  Database (Some (Table [Artist 1 "Miles Davis" None] 1))
    (Some (Table [] 0))
    (Some (Table [kind_of_blue] 1))
    (Some two_stores) (Some [(1, 1); (1, 2)]) ∅.

(** The shelf with a link left over from a record that is gone. *)
Definition stale_db : db := set_recordStores [(1, 1); (99, 1); (1, 2)] shelf_db.

(** Two records and nothing else: no table of artists, genres or stores,
    no link table. *)
Definition bare_db : db :=
  Database None None (Some (Table [kind_of_blue; bitches_brew] 2)) None None ∅.


(** A genre in use and one that is not. *)
Definition rock : genre := Genre 2 "Rock".

Definition two_genres_db : db :=
  set_Genres (Table [jazz; rock] 2) jazz_db.

(** A name that is missing or blank. *)
Definition blank (v : json) : Prop :=
  match v with
  | JNull => True
  | JStr n => PyStr.truthy (PyStr.strip n) = false
  | _ => False
  end.

(** A value that is there and is not text: it has no [strip]. *)
Definition not_text (v : json) : Prop :=
  truthy v = true /\ forall s, v <> JStr s.

(** A report request for the records of artist 1 bought from June 2020. *)
Definition late_payload : payload :=
  list_to_map [("artist_id", JInt 1); ("start_date", JStr "2020-06-01")].

(** The shelf with one store for each record. *)
Definition linked_db : db := set_recordStores [(1, 2); (2, 1)] shelf_db.

(** * Schema initialisation *)

Definition schema_indexes : gset string :=
  {[ "idx_artists_name"; "idx_records_artist"; "idx_records_genre";
     "idx_records_purchase_date"; "idx_records_year"; "idx_stores_name" ]}.

Definition or_empty {A} (t : option (table A)) : option (table A) :=
  Some (default (Table [] 0) t).

Lemma db_eq (d : db) a g r s l ix :
  Artists d = a -> Genres d = g -> Records d = r -> Stores d = s ->
  recordStores d = l -> indexes d = ix -> d = Database a g r s l ix.
Proof. destruct d; simpl; congruence. Qed.

Lemma exec_create_table t d :
  exec_ddl (CreateTableIfNotExists t) d =
  Ok (match t with
      | TArtists => Database (or_empty (Artists d)) (Genres d) (Records d)
                      (Stores d) (recordStores d) (indexes d)
      | TGenres => Database (Artists d) (or_empty (Genres d)) (Records d)
                     (Stores d) (recordStores d) (indexes d)
      | TRecords => Database (Artists d) (Genres d) (or_empty (Records d))
                      (Stores d) (recordStores d) (indexes d)
      | TStores => Database (Artists d) (Genres d) (Records d)
                     (or_empty (Stores d)) (recordStores d) (indexes d)
      | TRecordStores => Database (Artists d) (Genres d) (Records d) (Stores d)
                           (Some (default [] (recordStores d))) (indexes d)
      end).
Proof.
  destruct d as [a g r s l ix]; destruct t; simpl;
    [destruct a | destruct g | destruct r | destruct s | destruct l]; reflexivity.
Qed.

Lemma exec_create_index i t d :
  has_table t d = true ->
  exec_ddl (CreateIndexIfNotExists i t) d =
  Ok (Database (Artists d) (Genres d) (Records d) (Stores d) (recordStores d)
        ({[ i ]} ∪ indexes d)).
Proof.
  intros Ht. unfold exec_ddl. rewrite Ht.
  case_bool_decide as Hi; [|reflexivity].
  f_equal. apply db_eq; try reflexivity.
  apply leibniz_equiv. set_solver.
Qed.

(** What [init_db] does to any database: the four entity tables are there
    afterwards, those that existed with their rows, the six indexes are
    there, and the link table is as it was. *)
Lemma init_db_spec d :
  init_db d =
  Ok (Database (or_empty (Artists d)) (or_empty (Genres d))
        (or_empty (Records d)) (or_empty (Stores d)) (recordStores d)
        (schema_indexes ∪ indexes d)).
Proof.
  unfold init_db, SCHEMA. cbn [foldl executescript rbind].
  repeat (first [ rewrite exec_create_table
                | rewrite exec_create_index by reflexivity ];
          cbn [foldl executescript rbind
               Artists Genres Records Stores recordStores indexes]).
  f_equal. apply db_eq; try reflexivity.
  unfold schema_indexes. apply leibniz_equiv. set_solver.
Qed.

Lemma init_db_idempotent d d' : init_db d = Ok d' -> init_db d' = Ok d'.
Proof.
  rewrite init_db_spec. intros [= <-]. rewrite init_db_spec.
  f_equal. apply db_eq; try reflexivity.
  cbn. apply leibniz_equiv. set_solver.
Qed.

(** On a schema that is already there, [init_db] changes nothing. *)
Lemma init_db_existing a g r s l ix :
  schema_indexes ⊆ ix ->
  init_db (Database (Some a) (Some g) (Some r) (Some s) l ix)
  = Ok (Database (Some a) (Some g) (Some r) (Some s) l ix).
Proof.
  intros Hix. rewrite init_db_spec. f_equal. apply db_eq; try reflexivity.
  cbn. apply leibniz_equiv. set_solver.
Qed.

(** C1, evaluated: on the empty database [init_db] creates the four entity
    tables and no link table; [recordStores] is absent afterwards, and the
    deletion of a record, which names that table, is refused by the engine. *)
Theorem init_db_omits_link_table :
  exists d, init_db empty_db = Ok d
    /\ has_table TArtists d = true /\ has_table TGenres d = true
    /\ has_table TRecords d = true /\ has_table TStores d = true
    /\ has_table TRecordStores d = false
    /\ fst (delete_record_db 1 d) = no_such_table "recordStores".
Proof.
  rewrite init_db_spec. eexists. split; [reflexivity|].
  repeat split; reflexivity.
Qed.

(** * The date parser *)

Lemma parse_date_text s r :
  parse_date_yyyy_mm_dd (JStr s) = Ok (Some r) ->
  r = s /\ Strptime.strptime_ok s = true.
Proof.
  unfold parse_date_yyyy_mm_dd. destruct s as [|c s]; [discriminate|]. cbn.
  destruct (Strptime.strptime_ok (String c s)); [|discriminate].
  intros [= <-]. auto.
Qed.

(** C8, evaluated: the text [2020-1-5], whose month and day are not padded
    to two digits, is returned as a date. *)
Theorem parse_date_accepts_unpadded :
  parse_date_yyyy_mm_dd (JStr "2020-1-5") = Ok (Some "2020-1-5")
  /\ Strptime.is_yyyy_mm_dd "2020-1-5" = false.
Proof. split; reflexivity. Qed.

(** * Tables *)

Section Tables.
Context {A : Type} (key : A -> Z).

Lemma foldr_max_ge (l : list Z) (z : Z) : z ≤ foldr Z.max z l.
Proof. induction l as [|x l IH]; simpl; lia. Qed.

Lemma foldr_max_elem (l : list Z) (z x : Z) : x ∈ l -> x ≤ foldr Z.max z l.
Proof.
  induction l as [|y l IH]; simpl; [inversion 1|].
  intros [->|Hx]%elem_of_cons; [lia|]. specialize (IH Hx). lia.
Qed.

(** A new rowid is above every rowid of the table. *)
Lemma next_id_fresh (t : table A) (r : A) : r ∈ rows t -> key r < next_id key t.
Proof.
  intros Hr. unfold next_id.
  assert (key r ≤ foldr Z.max (seq t) (key <$> rows t)); [|lia].
  apply foldr_max_elem, list_elem_of_fmap. eauto.
Qed.

Lemma next_id_above_seq (t : table A) : seq t < next_id key t.
Proof. unfold next_id. pose proof (foldr_max_ge (key <$> rows t) (seq t)). lia. Qed.

Lemma fetchone_Some (p : A -> bool) (t : table A) (r : A) :
  fetchone p t = Some r -> r ∈ rows t /\ p r = true.
Proof.
  unfold fetchone. intros [H1 H2]%find_some. by rewrite list_elem_of_In.
Qed.

Lemma fetchone_None (p : A -> bool) (t : table A) :
  fetchone p t = None <-> forall r, r ∈ rows t -> p r = false.
Proof.
  unfold fetchone. split.
  - intros H r Hr. apply (find_none _ _ H). by rewrite <- list_elem_of_In.
  - intros H. destruct (List.find p (rows t)) as [r|] eqn:E; [|done].
    apply find_some in E as [E1 E2]. rewrite <- list_elem_of_In in E1.
    rewrite (H r E1) in E2. discriminate.
Qed.

Lemma find_app (p : A -> bool) (l1 l2 : list A) :
  List.find p (l1 ++ l2) =
  match List.find p l1 with Some r => Some r | None => List.find p l2 end.
Proof. induction l1 as [|x l1 IH]; simpl; [done|]. by destruct (p x). Qed.

(** After an insertion, a search that found nothing before finds the new
    row, if it matches. *)
Lemma fetchone_appended (p : A -> bool) (t : table A) (r : A) (s : Z) :
  fetchone p t = None -> p r = true ->
  fetchone p (Table (rows t ++ [r]) s) = Some r.
Proof.
  unfold fetchone. cbn. intros Hn Hp. rewrite find_app, Hn. cbn. by rewrite Hp.
Qed.

Lemma existsb_find (p : A -> bool) (l : list A) :
  existsb p l = bool_decide (is_Some (List.find p l)).
Proof.
  induction l as [|x l IH]; simpl; [done|].
  destruct (p x); simpl; done.
Qed.

(** With unique keys, the row found by its key is the row itself. *)
Lemma fetchone_by_key (t : table A) (r : A) :
  NoDup (key <$> rows t) -> r ∈ rows t ->
  fetchone (fun x => key x =? key r) t = Some r.
Proof.
  unfold fetchone. induction (rows t) as [|x l IH]; [inversion 2|].
  rewrite fmap_cons, NoDup_cons. intros [Hx Hl] [->|Hr]%elem_of_cons; cbn.
  - by rewrite Z.eqb_refl.
  - destruct (Z.eqb_spec (key x) (key r)) as [E|E]; [|auto].
    exfalso. apply Hx. rewrite E. apply list_elem_of_fmap. eauto.
Qed.

Lemma NoDup_append_row (mk : Z -> A) (t : table A) :
  (forall i, key (mk i) = i) ->
  NoDup (key <$> rows t) ->
  NoDup (key <$> rows (snd (append_row key mk t))).
Proof.
  intros Hmk Hnd. cbn. rewrite fmap_app. apply NoDup_app. split; [done|].
  split; [|apply NoDup_singleton].
  intros x [r [-> Hr]]%list_elem_of_fmap.
  intros (r' & E & ->%list_elem_of_singleton)%list_elem_of_fmap.
  rewrite Hmk in E. pose proof (next_id_fresh t r Hr). lia.
Qed.

End Tables.

(** * Find-or-create *)

Lemma find_or_create_artist_blank name country d :
  PyStr.truthy (PyStr.strip (default "" name)) = false ->
  find_or_create_artist name country d = (Ok None, d).
Proof. intros H. unfold find_or_create_artist. by rewrite H. Qed.

Lemma find_or_create_artist_found name country d t r :
  PyStr.truthy (PyStr.strip name) = true -> Artists d = Some t ->
  fetchone (fun a => bool_decide (artist_name a = PyStr.strip name)) t = Some r ->
  find_or_create_artist (Some name) country d = (Ok (Some (artist_id r)), d).
Proof.
  intros Hn Ht Hr. unfold find_or_create_artist. simpl.
  by rewrite Hn, Ht, Hr.
Qed.

Lemma find_or_create_artist_new name country d t :
  PyStr.truthy (PyStr.strip name) = true -> Artists d = Some t ->
  fetchone (fun a => bool_decide (artist_name a = PyStr.strip name)) t = None ->
  find_or_create_artist (Some name) country d =
  (Ok (Some (next_id artist_id t)),
   set_Artists (Table (rows t ++ [Artist (next_id artist_id t) (PyStr.strip name) country])
                  (next_id artist_id t)) d).
Proof.
  intros Hn Ht Hr. unfold find_or_create_artist, insert_artist. simpl.
  rewrite Hn, Ht, Hr. cbn [negb].
  rewrite existsb_find. unfold fetchone in Hr. rewrite Hr.
  rewrite bool_decide_false by (intros [? [=]]). reflexivity.
Qed.

Lemma find_or_create_artist_twice name country d :
  PyStr.truthy (PyStr.strip name) = true -> is_Some (Artists d) ->
  twice_one_row (find_or_create_artist (Some name) country) Artists set_Artists
    artist_id (fun a => bool_decide (artist_name a = PyStr.strip name)) d.
Proof.
  intros Hn [t Ht]. unfold twice_one_row.
  destruct (fetchone (fun a => bool_decide (artist_name a = PyStr.strip name)) t)
    as [r|] eqn:Hr.
  - exists (artist_id r), d, t. rewrite Hr.
    rewrite (find_or_create_artist_found _ _ _ _ _ Hn Ht Hr). auto.
  - eexists _, _, t. rewrite Hr. split; [done|].
    split; [apply (find_or_create_artist_new _ _ _ _ Hn Ht Hr)|].
    set (new := Artist _ _ _). split.
    + rewrite (find_or_create_artist_found name country _
                 (Table (rows t ++ [new]) (next_id artist_id t)) new Hn);
        [reflexivity..|].
      apply fetchone_appended; [done|]. cbn. by apply bool_decide_eq_true.
    + exists new. split; [|split; [|reflexivity]]; [reflexivity|].
      cbn. by apply bool_decide_eq_true.
Qed.

Lemma find_or_create_genre_blank name d :
  PyStr.truthy (PyStr.strip name) = false ->
  find_or_create_genre (Some name) d = (Ok None, d).
Proof. intros H. unfold find_or_create_genre. by rewrite H. Qed.

Lemma find_or_create_genre_found name d t r :
  PyStr.truthy (PyStr.strip name) = true -> Genres d = Some t ->
  fetchone (fun g => bool_decide (genre_name g = PyStr.strip name)) t = Some r ->
  find_or_create_genre (Some name) d = (Ok (Some (genre_id r)), d).
Proof.
  intros Hn Ht Hr. unfold find_or_create_genre. by rewrite Hn, Ht, Hr.
Qed.

Lemma find_or_create_genre_new name d t :
  PyStr.truthy (PyStr.strip name) = true -> Genres d = Some t ->
  fetchone (fun g => bool_decide (genre_name g = PyStr.strip name)) t = None ->
  find_or_create_genre (Some name) d =
  (Ok (Some (next_id genre_id t)),
   set_Genres (Table (rows t ++ [Genre (next_id genre_id t) (PyStr.strip name)])
                 (next_id genre_id t)) d).
Proof.
  intros Hn Ht Hr. unfold find_or_create_genre, insert_genre.
  rewrite Hn, Ht, Hr. cbn [negb].
  rewrite existsb_find. unfold fetchone in Hr. rewrite Hr.
  rewrite bool_decide_false by (intros [? [=]]). reflexivity.
Qed.

Lemma find_or_create_genre_twice name d :
  PyStr.truthy (PyStr.strip name) = true -> is_Some (Genres d) ->
  twice_one_row (find_or_create_genre (Some name)) Genres set_Genres
    genre_id (fun g => bool_decide (genre_name g = PyStr.strip name)) d.
Proof.
  intros Hn [t Ht]. unfold twice_one_row.
  destruct (fetchone (fun g => bool_decide (genre_name g = PyStr.strip name)) t)
    as [r|] eqn:Hr.
  - exists (genre_id r), d, t. rewrite Hr.
    rewrite (find_or_create_genre_found _ _ _ _ Hn Ht Hr). auto.
  - eexists _, _, t. rewrite Hr. split; [done|].
    split; [apply (find_or_create_genre_new _ _ _ Hn Ht Hr)|].
    set (new := Genre _ _). split.
    + rewrite (find_or_create_genre_found name _
                 (Table (rows t ++ [new]) (next_id genre_id t)) new Hn);
        [reflexivity..|].
      apply fetchone_appended; [done|]. cbn. by apply bool_decide_eq_true.
    + exists new. split; [|split; [|reflexivity]]; [reflexivity|].
      cbn. by apply bool_decide_eq_true.
Qed.

Lemma find_or_create_store_blank name state address d :
  PyStr.truthy (PyStr.strip (default "" name)) = false ->
  find_or_create_store name state address d = (Ok None, d).
Proof. intros H. unfold find_or_create_store. by rewrite H. Qed.

Lemma find_or_create_store_eq name state address d t :
  PyStr.truthy (PyStr.strip name) = true -> Stores d = Some t ->
  find_or_create_store (Some name) state address d =
  match fetchone (store_matches (PyStr.strip name) address) t with
  | Some r => (Ok (Some (store_id r)), d)
  | None =>
      (Ok (Some (next_id store_id t)),
       set_Stores (Table (rows t ++ [Store (next_id store_id t) (PyStr.strip name)
                                       state address])
                     (next_id store_id t)) d)
  end.
Proof.
  intros Hn Ht. unfold find_or_create_store, store_matches. simpl.
  rewrite Hn, Ht. cbn [negb]. destruct (truthy_opt address); reflexivity.
Qed.

Lemma find_or_create_store_twice name state address d :
  PyStr.truthy (PyStr.strip name) = true -> is_Some (Stores d) ->
  twice_one_row (find_or_create_store (Some name) state address) Stores
    set_Stores store_id (store_matches (PyStr.strip name) address) d.
Proof.
  intros Hn [t Ht]. unfold twice_one_row.
  rewrite (find_or_create_store_eq _ _ _ _ _ Hn Ht).
  destruct (fetchone (store_matches (PyStr.strip name) address) t) as [r|] eqn:Hr.
  - exists (store_id r), d, t.
    rewrite (find_or_create_store_eq _ _ _ _ _ Hn Ht), Hr. auto.
  - set (new := Store _ _ _ _).
    assert (Hm : store_matches (PyStr.strip name) address new = true).
    { unfold store_matches, new. cbn.
      destruct (truthy_opt address); rewrite ?bool_decide_true by done; done. }
    set (t1 := Table (rows t ++ [new]) (next_id store_id t)).
    exists (next_id store_id t), (set_Stores t1 d), t.
    split; [done|]. split; [reflexivity|]. split.
    + rewrite (find_or_create_store_eq name state address
                 (set_Stores t1 d) t1 Hn eq_refl).
      unfold t1. by rewrite (fetchone_appended _ _ new _ Hr Hm).
    + rewrite Hr. exists new. auto.
Qed.

(** C5, as stated, fails where the name is already stored: both calls return
    the id of the stored row and no row is inserted. *)
Lemma find_or_create_known_name_inserts_nothing :
  let call := find_or_create_artist (Some "Miles Davis") None in
  let d2 := snd (call (snd (call miles_db))) in
  fst (call miles_db) = Ok (Some 1)
  /\ fst (call (snd (call miles_db))) = Ok (Some 1)
  /\ ~ (exists t t2, Artists miles_db = Some t /\ Artists d2 = Some t2
                     /\ length (rows t2) = S (length (rows t))).
Proof.
  cbn. split; [reflexivity|]. split; [reflexivity|].
  intros (t & t2 & [= <-] & [= <-] & H). discriminate.
Qed.

(** C5, amended: for a name that is not blank, two calls in a row of the
    find-or-create of artists, genres and stores return the same id, the
    second inserts nothing, and the first inserts exactly one row when no
    stored row matches and none when one does; for a blank name each of them
    returns [None] and leaves the database as it is. *)
Theorem find_or_create_twice (name : string)
    (country state address : option string) (d : db) :
  is_Some (Artists d) -> is_Some (Genres d) -> is_Some (Stores d) ->
  if PyStr.truthy (PyStr.strip name)
  then
    twice_one_row (find_or_create_artist (Some name) country) Artists
      set_Artists artist_id
      (fun a => bool_decide (artist_name a = PyStr.strip name)) d
    /\ twice_one_row (find_or_create_genre (Some name)) Genres
         set_Genres genre_id
         (fun g => bool_decide (genre_name g = PyStr.strip name)) d
    /\ twice_one_row (find_or_create_store (Some name) state address) Stores
         set_Stores store_id (store_matches (PyStr.strip name) address) d
  else
    find_or_create_artist (Some name) country d = (Ok None, d)
    /\ find_or_create_genre (Some name) d = (Ok None, d)
    /\ find_or_create_store (Some name) state address d = (Ok None, d).
Proof.
  intros Ha Hg Hs. destruct (PyStr.truthy (PyStr.strip name)) eqn:Hn.
  - split; [by apply find_or_create_artist_twice|].
    split; [by apply find_or_create_genre_twice|].
    by apply find_or_create_store_twice.
  - split; [by apply find_or_create_artist_blank|].
    split; [by apply find_or_create_genre_blank|].
    by apply find_or_create_store_blank.
Qed.

Lemma find_or_create_twice_witness :
  twice_one_row (find_or_create_artist (Some " Miles Davis ") None) Artists
    set_Artists artist_id
    (fun a => bool_decide (artist_name a = "Miles Davis")) blank_db
  /\ twice_one_row (find_or_create_genre (Some " Miles Davis ")) Genres
       set_Genres genre_id
       (fun g => bool_decide (genre_name g = "Miles Davis")) blank_db
  /\ twice_one_row (find_or_create_store (Some " Miles Davis ") None (Some "Main St"))
       Stores set_Stores store_id
       (store_matches "Miles Davis" (Some "Main St")) blank_db.
Proof.
  apply (find_or_create_twice " Miles Davis " None None (Some "Main St") blank_db);
    eexists; reflexivity.
Defined.

(** * Deleting records and genres *)

Section Deletion.
Context {A : Type}.

Lemma filter_all (p : A -> bool) (l : list A) :
  (forall r, r ∈ l -> p r = true) -> List.filter p l = l.
Proof.
  induction l as [|x l IH]; simpl; [done|]. intros H.
  rewrite (H x) by left. f_equal. apply IH. intros r Hr. apply H. by right.
Qed.

Lemma filter_none (p : A -> bool) (l : list A) :
  (forall r, r ∈ l -> p r = false) -> List.filter p l = [].
Proof.
  induction l as [|x l IH]; simpl; [done|]. intros H.
  rewrite (H x) by left. apply IH. intros r Hr. apply H. by right.
Qed.

Lemma elem_of_List_filter (p : A -> bool) (l : list A) (r : A) :
  r ∈ List.filter p l <-> r ∈ l /\ p r = true.
Proof. rewrite !list_elem_of_In. apply filter_In. Qed.

Lemma delete_where_none (p : A -> bool) (t : table A) :
  (forall r, r ∈ rows t -> p r = false) -> delete_where p t = t.
Proof.
  intros H. unfold delete_where. rewrite filter_all; [by destruct t|].
  intros r Hr. by rewrite (H r Hr).
Qed.

Lemma elem_of_delete_where (p : A -> bool) (t : table A) (r : A) :
  r ∈ rows (delete_where p t) <-> r ∈ rows t /\ p r = false.
Proof.
  unfold delete_where. cbn. rewrite elem_of_List_filter.
  by rewrite negb_true_iff.
Qed.

Lemma count_where_zero (p : A -> bool) (t : table A) :
  (forall r, r ∈ rows t -> p r = false) -> count_where p t = 0.
Proof. intros H. unfold count_where. by rewrite filter_none. Qed.

Lemma count_where_pos (p : A -> bool) (t : table A) (r : A) :
  r ∈ rows t -> p r = true -> 0 < count_where p t.
Proof.
  intros Hr Hp. unfold count_where.
  assert (H : r ∈ List.filter p (rows t)) by by apply elem_of_List_filter.
  destruct (List.filter p (rows t)); [inversion H|]. cbn. lia.
Qed.

End Deletion.

Lemma set_Records_same d t : Records d = Some t -> set_Records t d = d.
Proof. intros H. symmetry. by apply db_eq. Qed.

Lemma set_recordStores_same d l :
  recordStores d = Some l -> set_recordStores l d = d.
Proof. intros H. symmetry. by apply db_eq. Qed.

Lemma unlink_record_none rid ls : links_of rid ls = [] -> unlink_record rid ls = ls.
Proof.
  unfold links_of, unlink_record. intros H. apply filter_all. intros l Hl.
  destruct (fst l =? rid) eqn:E; [|done].
  assert (Hin : l ∈ List.filter (fun l => fst l =? rid) ls)
    by by apply elem_of_List_filter.
  rewrite H in Hin. inversion Hin.
Qed.

Lemma elem_of_unlink_record rid ls l :
  l ∈ unlink_record rid ls <-> l ∈ ls /\ fst l <> rid.
Proof.
  unfold unlink_record. rewrite elem_of_List_filter.
  by rewrite negb_true_iff, Z.eqb_neq.
Qed.

(** The deletion of a record id that no record carries. *)
Lemma delete_record_db_missing rid d recs ls :
  Records d = Some recs -> recordStores d = Some ls ->
  (forall r, r ∈ rows recs -> record_id r <> rid) ->
  delete_record_db rid d = (Ok tt, set_recordStores (unlink_record rid ls) d).
Proof.
  intros Hr Hl Hno. unfold delete_record_db. rewrite Hr, Hl. cbn [the_table].
  assert (Hp : forall r, r ∈ rows recs -> (record_id r =? rid) = false).
  { intros r Hin. apply Z.eqb_neq. auto. }
  rewrite (proj2 (fetchone_None _ recs) Hp). cbn [truthy_id].
  rewrite (delete_where_none _ _ Hp). f_equal.
  apply db_eq; cbn; done.
Qed.

(** C10, as stated, fails where a link row names the missing record: the
    deletion answers 204 and the link row is gone. *)
Lemma delete_missing_record_removes_links :
  (forall r, r ∈ rows (default (Table [] 0) (Records dangling_db)) ->
             record_id r <> 99)
  /\ exists d', api_delete_record 99 dangling_db = (Response 204 Empty, d')
                /\ recordStores dangling_db = Some [(99, 1)]
                /\ recordStores d' = Some []
                /\ d' <> dangling_db.
Proof.
  split; [intros r Hr; inversion Hr|].
  eexists. split; [reflexivity|]. repeat split; try reflexivity.
  intros [=].
Qed.

(** C10, amended: on a database with the table of records and the link
    table, the deletion of a record id that SQLite can bind and that no
    record carries answers 204, removes no record and no artist, and removes
    from the link table the rows that carry that id and no other; the
    database is unchanged when no link row names the id. *)
Theorem delete_missing_record (rid : Z) (d : db) (recs : table record)
    (ls : list link) :
  sqlite_int rid ->
  Records d = Some recs -> recordStores d = Some ls ->
  (forall r, r ∈ rows recs -> record_id r <> rid) ->
  exists d' ls',
    api_delete_record rid d = (Response 204 Empty, d')
    /\ Records d' = Records d /\ Artists d' = Artists d
    /\ Genres d' = Genres d /\ Stores d' = Stores d
    /\ recordStores d' = Some ls'
    /\ (forall l, l ∈ ls' <-> l ∈ ls /\ fst l <> rid)
    /\ ((forall l, l ∈ ls -> fst l <> rid) -> d' = d).
Proof.
  intros _ Hr Hl Hno. unfold api_delete_record, run, hbind, call, hret.
  rewrite (delete_record_db_missing rid d recs ls Hr Hl Hno).
  eexists _, _. split; [reflexivity|]. do 4 (split; [reflexivity|]).
  split; [reflexivity|]. split; [apply elem_of_unlink_record|].
  intros H. rewrite unlink_record_none; [by apply set_recordStores_same|].
  unfold links_of. apply filter_none. intros l Hin. apply Z.eqb_neq. auto.
Qed.

Lemma delete_missing_record_witness :
  exists d',
    api_delete_record 99 stale_db = (Response 204 Empty, d')
    /\ Records d' = Records stale_db /\ Artists d' = Artists stale_db
    /\ Genres d' = Genres stale_db /\ Stores d' = Stores stale_db
    /\ recordStores stale_db = Some [(1, 1); (99, 1); (1, 2)]
    /\ recordStores d' = Some [(1, 1); (1, 2)].
Proof.
  destruct (delete_missing_record 99 stale_db
              (Table [kind_of_blue; bitches_brew] 2) [(1, 1); (99, 1); (1, 2)])
    as (d' & ls' & E & Hr & Ha & Hg & Hs & Hl & _).
  - unfold sqlite_int. lia.
  - reflexivity.
  - reflexivity.
  - intros r Hr. cbn in Hr. set_solver.
  - exists d'. split; [exact E|]. repeat split; try done.
    rewrite Hl. vm_compute in E. by injection E as <-.
Defined.

(** C6: deleting a record removes its link rows and the record; its artist
    is removed when no other record refers to it and is kept when another
    record does. *)
Theorem delete_record_cascade (rid aid : Z) (d : db) (recs : table record)
    (ls : list link) (arts : table artist) (r : record) :
  Records d = Some recs -> recordStores d = Some ls -> Artists d = Some arts ->
  NoDup (record_id <$> rows recs) ->
  r ∈ rows recs -> record_id r = rid -> rec_artist_id r = Some aid -> aid <> 0 ->
  exists d' ls' recs',
    delete_record_db rid d = (Ok tt, d')
    /\ recordStores d' = Some ls'
    /\ (forall l, l ∈ ls' <-> l ∈ ls /\ fst l <> rid)
    /\ Records d' = Some recs'
    /\ (forall x, x ∈ rows recs' <-> x ∈ rows recs /\ record_id x <> rid)
    /\ Genres d' = Genres d /\ Stores d' = Stores d
    /\ ((forall r', r' ∈ rows recs -> rec_artist_id r' = Some aid ->
                    record_id r' = rid) ->
        exists arts', Artists d' = Some arts'
          /\ forall a, a ∈ rows arts' <-> a ∈ rows arts /\ artist_id a <> aid)
    /\ ((exists r', r' ∈ rows recs /\ rec_artist_id r' = Some aid
                    /\ record_id r' <> rid) ->
        Artists d' = Some arts).
Proof.
  intros Hr Hl Ha Hnd Hin <- Haid Hnz.
  unfold delete_record_db. rewrite Hr, Hl. cbn [the_table].
  rewrite (fetchone_by_key record_id recs r Hnd Hin), Haid.
  unfold truthy_id. rewrite (proj2 (Z.eqb_neq aid 0) Hnz).
  set (recs' := delete_where (fun x => record_id x =? record_id r) recs).
  assert (Hrows : forall x, x ∈ rows recs'
                            <-> x ∈ rows recs /\ record_id x <> record_id r).
  { intros x. unfold recs'. rewrite elem_of_delete_where. by rewrite Z.eqb_neq. }
  destruct (count_where (fun x => Zeqb_opt (rec_artist_id x) aid) recs' =? 0)
    eqn:Hc.
  - cbn [Artists set_Records set_recordStores]. rewrite Ha. cbn [the_table].
    eexists _, _, _. split; [reflexivity|]. cbn.
    split; [reflexivity|]. split; [apply elem_of_unlink_record|].
    split; [reflexivity|]. split; [exact Hrows|]. repeat split; try done.
    + intros _. eexists. split; [reflexivity|]. intros a.
      rewrite elem_of_delete_where. by rewrite Z.eqb_neq.
    + intros (r' & Hr' & Ha' & Hne). exfalso.
      apply Z.eqb_eq in Hc.
      assert (0 < count_where (fun x => Zeqb_opt (rec_artist_id x) aid) recs');
        [|lia].
      apply (count_where_pos _ _ r').
      * by apply Hrows.
      * rewrite Ha'. cbn. apply Z.eqb_refl.
  - eexists _, _, _. split; [reflexivity|]. cbn.
    split; [reflexivity|]. split; [apply elem_of_unlink_record|].
    split; [reflexivity|]. split; [exact Hrows|]. repeat split; try done.
    intros Honly. exfalso. apply Z.eqb_neq in Hc. apply Hc.
    apply count_where_zero. intros r' [Hr' Hne]%Hrows.
    destruct (rec_artist_id r') as [a|] eqn:Ea; [cbn|done].
    apply Z.eqb_neq. intros ->. by apply Hne, Honly.
Qed.

(** The only record of an artist, sold by two stores: the links, the record
    and the artist go.  One of two records of an artist: the links and the
    record go, the artist stays. *)
Lemma delete_record_cascade_witness :
  (exists d' ls' recs' arts',
     delete_record_db 1 solo_db = (Ok tt, d')
     /\ recordStores solo_db = Some [(1, 1); (1, 2)]
     /\ recordStores d' = Some ls' /\ (forall l, l ∉ ls')
     /\ Records d' = Some recs' /\ (forall x, x ∉ rows recs')
     /\ Artists d' = Some arts' /\ (forall a, a ∉ rows arts'))
  /\ (exists d' ls' recs',
        delete_record_db 1 shelf_db = (Ok tt, d')
        /\ recordStores d' = Some ls' /\ (forall l, l ∉ ls')
        /\ Records d' = Some recs'
        /\ (forall x, x ∈ rows recs' <-> x = bitches_brew)
        /\ Artists d' = Some (Table [Artist 1 "Miles Davis" None] 1)).
Proof.
  split.
  - destruct (delete_record_cascade 1 1 solo_db (Table [kind_of_blue] 1)
                [(1, 1); (1, 2)] (Table [Artist 1 "Miles Davis" None] 1)
                kind_of_blue)
      as (d' & ls' & recs' & E & Hl & Hls & Hr & Hrs & _ & _ & Honly & _);
      try reflexivity.
    + cbn. apply NoDup_singleton.
    + cbn. left.
    + lia.
    + destruct Honly as (arts' & Ha & Harts).
      { intros r' ->%list_elem_of_singleton _. reflexivity. }
      exists d', ls', recs', arts'. repeat split; try done.
      * intros l [Hin Hne]%Hls. cbn in Hin. set_solver.
      * intros x [Hin Hne]%Hrs. cbn in Hin. set_solver.
      * intros a [Hin Hne]%Harts. cbn in Hin. set_solver.
  - destruct (delete_record_cascade 1 1 shelf_db
                (Table [kind_of_blue; bitches_brew] 2) [(1, 1); (1, 2)]
                (Table [Artist 1 "Miles Davis" None] 1) kind_of_blue)
      as (d' & ls' & recs' & E & Hl & Hls & Hr & Hrs & _ & _ & _ & Hkept);
      try reflexivity.
    + cbn. apply NoDup_cons. split; [|apply NoDup_singleton].
      intros [=]%list_elem_of_singleton.
    + cbn. left.
    + lia.
    + exists d', ls', recs'. repeat split; try done.
      * intros l [Hin Hne]%Hls. cbn in Hin. set_solver.
      * intros [Hin Hne]%Hrs. cbn in Hin.
        apply elem_of_cons in Hin as [->|Hin]; [done|].
        by apply list_elem_of_singleton in Hin.
      * intros ->. apply Hrs. split; [cbn; set_solver|done].
      * apply Hkept. exists bitches_brew. repeat split; [cbn; set_solver|done].
Defined.

(** C7: the deletion of a genre that a record refers to is answered by a
    client error, the database is as it was and the genre is still listed. *)
Theorem delete_genre_in_use (gid : Z) (d : db) (gens : table genre)
    (recs : table record) (g : genre) (r : record) :
  Genres d = Some gens -> Records d = Some recs ->
  g ∈ rows gens -> genre_id g = gid ->
  r ∈ rows recs -> rec_genre_id r = Some gid ->
  api_delete_genre gid d
  = (bad_request "genre in use by records, cannot delete", d)
  /\ exists l, api_get_genres (snd (api_delete_genre gid d))
               = (Response 200 (GenreList l), d)
               /\ g ∈ l.
Proof.
  intros Hg Hr Hin Hid Hrin Hrg.
  assert (E : api_delete_genre gid d
              = (bad_request "genre in use by records, cannot delete", d)).
  { unfold api_delete_genre. rewrite Hr. cbn [the_table].
    assert (H : 0 < count_where (fun x => Zeqb_opt (rec_genre_id x) gid) recs).
    { apply (count_where_pos _ _ r); [done|]. rewrite Hrg. cbn.
      apply Z.eqb_refl. }
    apply Z.gtb_lt in H. by rewrite H. }
  split; [done|]. rewrite E. cbn [snd].
  unfold api_get_genres, run, hbind, call, hret, get_genres_db.
  rewrite Hg. cbn [the_table rbind]. eexists. split; [reflexivity|].
  by rewrite merge_sort_Permutation.
Qed.

(** * Sanitised text *)

Lemma lstrip_head s :
  match PyStr.lstrip s with
  | EmptyString => True
  | String c _ => PyStr.is_space c = false
  end.
Proof.
  induction s as [|c s IH]; cbn; [done|].
  destruct (PyStr.is_space c) eqn:E; [done|]. by rewrite E.
Qed.

Lemma rstrip_head c s :
  PyStr.is_space c = false ->
  PyStr.rstrip (String c s) = String c (PyStr.rstrip s).
Proof. intros E. cbn. rewrite E. by destruct (PyStr.rstrip s). Qed.

Lemma strip_head s :
  match PyStr.strip s with
  | EmptyString => True
  | String c _ => PyStr.is_space c = false
  end.
Proof.
  unfold PyStr.strip. pose proof (lstrip_head s) as H.
  destruct (PyStr.lstrip s) as [|c r]; [done|]. by rewrite rstrip_head.
Qed.

(** Text that was stripped and cut is not blank: stripping it again leaves
    its first character. *)
Lemma strip_prefix_truthy n s :
  PyStr.truthy (PyStr.strip s) = true ->
  PyStr.truthy (PyStr.strip (PyStr.prefix (S n) (PyStr.strip s))) = true.
Proof.
  pose proof (strip_head s) as H. destruct (PyStr.strip s) as [|c r]; [done|].
  intros _. unfold PyStr.prefix. cbn [String.substring].
  unfold PyStr.strip. cbn [PyStr.lstrip]. rewrite H. by rewrite rstrip_head.
Qed.

Lemma sanitize_text_inv v s :
  sanitize_text v = Ok (Some s) ->
  exists s0, v = JStr s0 /\ s = PyStr.prefix 255 (PyStr.strip s0)
             /\ PyStr.truthy (PyStr.strip s0) = true.
Proof.
  unfold sanitize_text. destruct (truthy v) eqn:Ev.
  - destruct v; try discriminate.
    destruct (PyStr.truthy (PyStr.strip s0)) eqn:E; [|discriminate].
    intros [= <-]. eauto.
  - cbn. discriminate.
Qed.

Lemma sanitize_text_truthy v s :
  sanitize_text v = Ok (Some s) -> PyStr.truthy (PyStr.strip s) = true.
Proof.
  intros (s0 & -> & -> & H)%sanitize_text_inv. by apply strip_prefix_truthy.
Qed.

(** What the facade makes of a field that is text, [null] or missing. *)
Lemma sanitize_text_optional v :
  optional_text v = true -> sanitize_text v = Ok (clean v).
Proof.
  unfold clean. destruct v; try discriminate; intros _; [reflexivity|].
  unfold sanitize_text. by destruct (truthy (JStr s)).
Qed.

Lemma parse_date_optional v :
  optional_text v = true -> parse_date_yyyy_mm_dd v = Ok (date_of v).
Proof.
  unfold date_of. destruct v; try discriminate; intros _; [reflexivity|].
  unfold parse_date_yyyy_mm_dd. by destruct (truthy (JStr s)).
Qed.

(** * The facade's reading of a record payload *)

Lemma fetchone_fresh {A} (key : A -> Z) (t : table A) (r : A) (s : Z) :
  key r = next_id key t ->
  fetchone (fun x => key x =? key r) (Table (rows t ++ [r]) s) = Some r.
Proof.
  intros Hk. apply fetchone_appended; [|apply Z.eqb_refl].
  apply fetchone_None. intros x Hx. apply Z.eqb_neq.
  pose proof (next_id_fresh key t x Hx). lia.
Qed.

Lemma set_Artists_same d t : Artists d = Some t -> set_Artists t d = d.
Proof. intros H. symmetry. by apply db_eq. Qed.

Lemma set_Genres_same d t : Genres d = Some t -> set_Genres t d = d.
Proof. intros H. symmetry. by apply db_eq. Qed.

(** The artist the facade finds or creates is the one the list shows. *)
Lemma artist_for_spec an d arts :
  Artists d = Some arts ->
  (forall n, an = Some n -> PyStr.truthy (PyStr.strip n) = true) ->
  exists aid arts',
    artist_for an d = (Next aid, set_Artists arts' d)
    /\ (NoDup (artist_id <$> rows arts) ->
        aid ≫= (fun i => artist_name <$> fetchone (fun a => artist_id a =? i) arts')
        = PyStr.strip <$> an).
Proof.
  intros Ha Hn. destruct an as [n|]; cbn [artist_for].
  - specialize (Hn n eq_refl). unfold call.
    destruct (fetchone (fun a => bool_decide (artist_name a = PyStr.strip n)) arts)
      as [r|] eqn:Hr.
    + rewrite (find_or_create_artist_found _ _ _ _ _ Hn Ha Hr).
      exists (Some (artist_id r)), arts. rewrite (set_Artists_same _ _ Ha).
      split; [done|]. intros Hnd. cbn.
      apply fetchone_Some in Hr as [Hin Hname].
      rewrite (fetchone_by_key artist_id arts r Hnd Hin). cbn.
      by apply bool_decide_eq_true in Hname as ->.
    + rewrite (find_or_create_artist_new _ _ _ _ Hn Ha Hr).
      set (new := Artist _ _ _). eexists _, _. split; [reflexivity|].
      intros _. cbn. by rewrite (fetchone_fresh artist_id arts new _ eq_refl).
  - exists None, arts. rewrite (set_Artists_same _ _ Ha). by cbn.
Qed.

Lemma genre_for_spec gn d gens :
  Genres d = Some gens ->
  (forall n, gn = Some n -> PyStr.truthy (PyStr.strip n) = true) ->
  exists gid gens',
    genre_for gn d = (Next gid, set_Genres gens' d)
    /\ (NoDup (genre_id <$> rows gens) ->
        gid ≫= (fun i => genre_name <$> fetchone (fun g => genre_id g =? i) gens')
        = PyStr.strip <$> gn).
Proof.
  intros Ha Hn. destruct gn as [n|]; cbn [genre_for].
  - specialize (Hn n eq_refl). unfold call.
    destruct (fetchone (fun g => bool_decide (genre_name g = PyStr.strip n)) gens)
      as [r|] eqn:Hr.
    + rewrite (find_or_create_genre_found _ _ _ _ Hn Ha Hr).
      exists (Some (genre_id r)), gens. rewrite (set_Genres_same _ _ Ha).
      split; [done|]. intros Hnd. cbn.
      apply fetchone_Some in Hr as [Hin Hname].
      rewrite (fetchone_by_key genre_id gens r Hnd Hin). cbn.
      by apply bool_decide_eq_true in Hname as ->.
    + rewrite (find_or_create_genre_new _ _ _ Hn Ha Hr).
      set (new := Genre _ _). eexists _, _. split; [reflexivity|].
      intros _. cbn. by rewrite (fetchone_fresh genre_id gens new _ eq_refl).
  - exists None, gens. rewrite (set_Genres_same _ _ Ha). by cbn.
Qed.


Lemma Qc_ltb_false (a b : Qc) : (b ≤ a)%Qc <-> Qc_ltb a b = false.
Proof.
  unfold Qc_ltb, Qcle. rewrite negb_false_iff. symmetry. apply Qle_bool_iff.
Qed.

Section Facade.
Variable int_of_str : string -> option Z.
Variable float_of_str : string -> option Qc.

Lemma parse_int_in_range (y lo hi : Z) :
  lo ≤ y ≤ hi -> parse_int int_of_str (JInt y) (Some lo) (Some hi) = Some y.
Proof.
  intros [H1 H2]. cbn.
  rewrite (proj2 (Z.ltb_ge y lo)) by lia.
  destruct (Z.gtb_spec y hi); [lia|done].
Qed.

Lemma parse_float_number v q :
  number v = Some q -> (0 ≤ q)%Qc ->
  parse_float float_of_str v (Some 0%Qc) None = Some q.
Proof.
  intros Hv Hq%Qc_ltb_false.
  destruct v; try discriminate; injection Hv as <-;
    unfold parse_float, py_float; cbn [mbind option_bind]; by rewrite Hq.
Qed.

Lemma record_form_valid p d t y q arts gens :
  valid_payload p t y q ->
  Artists d = Some arts -> Genres d = Some gens ->
  exists aid gid arts' gens',
    record_form int_of_str float_of_str p d
    = (Next (RecordData (Some (PyStr.prefix 255 (PyStr.strip t))) aid gid
               (PInt y) (clean (get p "condition")) (PFloat q)
               (date_of (get p "purchase_date"))
               (Some (parse_int int_of_str (get p "store_id") (Some 1) None))),
       set_Genres gens' (set_Artists arts' d))
    /\ (NoDup (artist_id <$> rows arts) ->
        aid ≫= (fun i => artist_name <$> fetchone (fun a => artist_id a =? i) arts')
        = PyStr.strip <$> clean (get p "artist_name"))
    /\ (NoDup (genre_id <$> rows gens) ->
        gid ≫= (fun i => genre_name <$> fetchone (fun g => genre_id g =? i) gens')
        = PyStr.strip <$> clean (get p "genre")).
Proof.
  intros (Ht & Htt & Hy & Hyr & Hq & Hq0 & Han & Hgn & Hc & Hd) Ha Hg.
  destruct (artist_for_spec (clean (get p "artist_name")) d arts Ha)
    as (aid & arts' & Ea & Hla).
  { intros n Hn. apply (sanitize_text_truthy (get p "artist_name")).
    by rewrite sanitize_text_optional, Hn. }
  destruct (genre_for_spec (clean (get p "genre")) (set_Artists arts' d) gens
              Hg) as (gid & gens' & Eg & Hlg).
  { intros n Hn. apply (sanitize_text_truthy (get p "genre")).
    by rewrite sanitize_text_optional, Hn. }
  exists aid, gid, arts', gens'. split; [|done].
  unfold record_form, hbind, eval, call, reply, hret.
  rewrite Ht. unfold sanitize_text at 1. cbn [truthy].
  assert (Htr : PyStr.truthy t = true).
  { destruct t; [|done]. by cbv in Htt. }
  rewrite Htr, Htt.
  rewrite (sanitize_text_optional _ Han), (sanitize_text_optional _ Hgn).
  rewrite Ea, Eg, Hy, (parse_int_in_range y 1800 2100 Hyr).
  rewrite (sanitize_text_optional _ Hc), (parse_float_number _ _ Hq Hq0).
  by rewrite (parse_date_optional _ Hd).
Qed.

Lemma add_record_db_ok data d t y q recs ls :
  d_title data = Some t -> d_year data = PInt y -> 1800 ≤ y ≤ 2100 ->
  d_price data = PFloat q -> (0 ≤ q)%Qc ->
  Records d = Some recs -> recordStores d = Some ls ->
  let rid := next_id record_id recs in
  let new := Record_ rid t (d_artist_id data) (d_genre_id data) (Some y)
               (d_condition data) (Some q) (d_purchase_date data) in
  exists ls',
    add_record_db data d
    = (Ok rid, set_recordStores ls' (set_Records (Table (rows recs ++ [new]) rid) d)).
Proof.
  intros Ht Hy Hyr Hp Hq%Qc_ltb_false Hr Hl rid new.
  unfold add_record_db, validate, checked_year, checked_price.
  rewrite Ht, Hy, Hp, Hq, Hr.
  rewrite (proj2 (Z.ltb_ge y 1800)) by lia.
  destruct (Z.gtb_spec y 2100); [lia|]. cbn [orb the_table rbind append_row].
  fold rid. fold new.
  destruct (truthy_id (d_store_id data ≫= id)) as [sid|].
  - cbn [recordStores set_Records]. rewrite Hl. cbn [the_table rbind commit].
    eauto.
  - cbn [commit]. exists ls. by rewrite set_recordStores_same.
Qed.

Lemma clean_spec_text v : optional_text v = true -> clean v = spec_text v.
Proof.
  destruct v as [| | | |s| |]; try discriminate; intros _; [reflexivity|].
  unfold clean, sanitize_text, spec_text. cbn [truthy].
  destruct s as [|c s]; [reflexivity|]. cbn [PyStr.truthy].
  by destruct (PyStr.truthy (PyStr.strip (String c s))).
Qed.

Lemma date_of_field v : date_field v -> date_of v = text_of v.
Proof.
  destruct v as [| | | |s| |]; try done. cbn [date_field]. intros H.
  unfold date_of, parse_date_yyyy_mm_dd. cbn [truthy].
  destruct s as [|c s]; [discriminate H|]. cbn. by rewrite H.
Qed.

Lemma parse_int_id_field v o :
  id_field v o -> parse_int int_of_str v (Some 1) None = o.
Proof.
  destruct v as [| |z| | | |]; try done; cbn [id_field].
  intros [_ ->]. cbn. destruct (Z.ltb_spec z 1), (Z.leb_spec 1 z); try lia; done.
Qed.

Lemma id_field_truthy v o : id_field v o -> truthy_id o = o.
Proof.
  destruct v as [| |z| | | |]; try done; cbn [id_field]; try (by intros ->).
  intros [_ ->]. destruct (Z.leb_spec 1 z); [|done]. cbn.
  by rewrite (proj2 (Z.eqb_neq z 0)) by lia.
Qed.

Lemma elem_of_insert_or_ignore (l x : link) (ls : list link) :
  x ∈ insert_or_ignore l ls <-> x ∈ ls \/ x = l.
Proof.
  unfold insert_or_ignore. case_bool_decide as H.
  - split; [auto|]. by intros [?| ->].
  - rewrite elem_of_app, list_elem_of_singleton. done.
Qed.




(** ** Updating a record *)

Lemma parse_int_min v m s :
  parse_int int_of_str v (Some m) None = Some s -> m ≤ s.
Proof.
  unfold parse_int. destruct v; try discriminate;
    (destruct (py_int int_of_str _) as [i|]; [|discriminate]);
    cbn [mbind option_bind]; destruct (Z.ltb_spec i m); intros [=]; lia.
Qed.

Lemma links_of_unlink rid ls : links_of rid (unlink_record rid ls) = [].
Proof.
  unfold links_of, unlink_record. apply filter_none.
  intros l [_ Hl]%elem_of_List_filter. by apply negb_true_iff.
Qed.

Lemma unlink_unlink rid ls :
  unlink_record rid (unlink_record rid ls) = unlink_record rid ls.
Proof.
  unfold unlink_record. apply filter_all.
  by intros l [_ Hl]%elem_of_List_filter.
Qed.

Lemma links_of_app rid a b :
  links_of rid (a ++ b) = links_of rid a ++ links_of rid b.
Proof. apply List.filter_app. Qed.

Lemma unlink_record_app rid a b :
  unlink_record rid (a ++ b) = unlink_record rid a ++ unlink_record rid b.
Proof. apply List.filter_app. Qed.

Lemma parse_int_from (y lo : Z) :
  lo ≤ y -> parse_int int_of_str (JInt y) (Some lo) None = Some y.
Proof. intros H. cbn. by rewrite (proj2 (Z.ltb_ge y lo)) by lia. Qed.

Lemma insert_after_unlink rid s ls :
  insert_or_ignore (rid, s) (unlink_record rid ls)
  = unlink_record rid ls ++ [(rid, s)].
Proof.
  unfold insert_or_ignore. rewrite bool_decide_false; [done|].
  unfold unlink_record. intros [_ H]%elem_of_List_filter. cbn in H.
  by rewrite Z.eqb_refl in H.
Qed.

Lemma update_record_db_ok rid data d t y q sid recs ls :
  d_title data = Some t -> d_year data = PInt y -> 1800 ≤ y ≤ 2100 ->
  d_price data = PFloat q -> (0 ≤ q)%Qc -> d_store_id data = Some sid ->
  Records d = Some recs -> recordStores d = Some ls ->
  update_record_db rid data d
  = (Ok tt,
     set_recordStores
       (match truthy_id sid with
        | Some s => insert_or_ignore (rid, s) (unlink_record rid ls)
        | None => unlink_record rid ls
        end)
       (set_Records (Table (update_row rid t y q data <$> rows recs) (seq recs)) d)).
Proof.
  intros Ht Hy Hyr Hp Hq%Qc_ltb_false Hs Hr Hl.
  unfold update_record_db, validate, checked_year, checked_price.
  rewrite Ht, Hy, Hp, Hq, Hr, Hs.
  rewrite (proj2 (Z.ltb_ge y 1800)) by lia.
  destruct (Z.gtb_spec y 2100); [lia|]. cbn [orb the_table rbind].
  cbn [recordStores set_Records]. rewrite Hl. cbn [the_table rbind].
  by destruct (truthy_id sid).
Qed.

(** C9: an update with a valid payload is answered by 204 and replaces the
    links of the record: the dict handed down always has the key
    [store_id], and afterwards the record is linked to the store given, if
    [store_id] parses as an integer from 1 up, and to no store otherwise,
    whatever its links were; the links of other records stay.  The price is
    a number that [float] takes over as it is, and the ids of the record
    and of the store can be bound. *)
Theorem update_record_replaces_links (rid : Z) (p : payload) (d : db)
    (t : string) (y : Z) (q : Qc) arts gens recs ls :
  valid_payload p t y q -> exact_number (get p "price") -> sqlite_int rid ->
  Artists d = Some arts -> Genres d = Some gens -> Records d = Some recs ->
  recordStores d = Some ls ->
  let sid := parse_int int_of_str (get p "store_id") (Some 1) None in
  (forall s, sid = Some s -> sqlite_int s) ->
  exists data d2 d' ls',
    record_form int_of_str float_of_str p d = (Next data, d2)
    /\ d_store_id data = Some sid
    /\ api_update_record int_of_str float_of_str rid p d
       = (Response 204 Empty, d')
    /\ recordStores d' = Some ls'
    /\ (forall l, l ∈ ls' <->
                  l ∈ ls /\ fst l <> rid \/ fst l = rid /\ sid = Some (snd l))
    /\ (forall s, get p "store_id" = JInt s -> 1 ≤ s -> sid = Some s)
    /\ (forall s, get p "store_id" = JInt s -> s < 1 -> sid = None)
    /\ (get p "store_id" = JNull -> sid = None).
Proof.
  intros Hv _ _ Ha Hg Hr Hl sid _.
  destruct (record_form_valid p d t y q arts gens Hv Ha Hg)
    as (aid & gid & arts' & gens' & Ef & _).
  destruct Hv as (_ & _ & _ & Hyr & _ & Hq0 & _).
  set (d2 := set_Genres gens' (set_Artists arts' d)) in *.
  set (data := RecordData _ _ _ _ _ _ _ _) in Ef.
  pose proof (update_record_db_ok rid data d2 _ y q sid recs ls eq_refl eq_refl
                Hyr eq_refl Hq0 eq_refl Hr Hl) as Eup.
  set (links := match truthy_id sid with
                | Some s => insert_or_ignore (rid, s) (unlink_record rid ls)
                | None => unlink_record rid ls
                end) in Eup.
  assert (Hlinks : forall l, l ∈ links <->
            l ∈ ls /\ fst l <> rid \/ fst l = rid /\ sid = Some (snd l)).
  { intros [a b]. unfold links. destruct sid as [s|] eqn:Es; cbn [truthy_id fst snd].
    - apply parse_int_min in Es.
      destruct (Z.eqb_spec s 0); [lia|].
      rewrite elem_of_insert_or_ignore, elem_of_unlink_record. cbn [fst].
      split; (intros [?|H]; [by left|right]).
      + by injection H as -> ->.
      + destruct H as [-> [= ->]]. done.
    - rewrite elem_of_unlink_record. cbn [fst].
      split; [by left|]. by intros [?|[_ [=]]]. }
  eexists data, d2, _, links. split; [done|]. split; [done|]. split.
  { unfold api_update_record, run, hbind, call, hret. rewrite Ef, Eup.
    reflexivity. }
  split; [done|]. split; [exact Hlinks|]. split; [|split].
  - intros s Hs Hs1. unfold sid. rewrite Hs.
    by rewrite (parse_int_from s 1) by lia.
  - intros s Hs Hs1. unfold sid. rewrite Hs. cbn.
    by rewrite (proj2 (Z.ltb_lt s 1)) by lia.
  - intros Hs. unfold sid. by rewrite Hs.
Qed.

End Facade.

Lemma delete_genre_in_use_witness :
  api_delete_genre 1 jazz_db
  = (bad_request "genre in use by records, cannot delete", jazz_db)
  /\ exists l, api_get_genres (snd (api_delete_genre 1 jazz_db))
               = (Response 200 (GenreList l), jazz_db)
               /\ jazz ∈ l.
Proof.
  apply (delete_genre_in_use 1 jazz_db (Table [jazz] 1) (Table [jazz_record] 1)
           jazz jazz_record); try reflexivity; cbn; left.
Defined.

Lemma kind_of_blue_payload_valid :
  valid_payload kind_of_blue_payload "Kind of Blue" 1959 (Qc_of_Z 25).
Proof.
  unfold valid_payload. repeat split; try reflexivity; try lia.
  apply Qc_ltb_false. reflexivity.
Defined.


(** The first record of the shelf, linked to stores 1 and 2, updated with a
    payload that names store 2: the link to store 1 is gone. *)
Lemma update_record_replaces_links_witness :
  exists d' ls',
    api_update_record no_number no_number 1 kind_of_blue_payload shelf_db
    = (Response 204 Empty, d')
    /\ recordStores shelf_db = Some [(1, 1); (1, 2)]
    /\ recordStores d' = Some ls'
    /\ (forall l, l ∈ ls' <-> l = (1, 2)).
Proof.
  destruct (update_record_replaces_links no_number no_number 1
              kind_of_blue_payload shelf_db "Kind of Blue" 1959 (Qc_of_Z 25)
              (Table [Artist 1 "Miles Davis" None] 1) (Table [] 0)
              (Table [kind_of_blue; bitches_brew] 2) [(1, 1); (1, 2)])
    as (data & d2 & d' & ls' & _ & _ & E & Hl & Hls & Hsid & _);
    try reflexivity.
  - apply kind_of_blue_payload_valid.
  - by vm_compute.
  - unfold sqlite_int. lia.
  - intros s Hs. vm_compute in Hs. injection Hs as <-. unfold sqlite_int. lia.
  - exists d', ls'. repeat split; try done.
    + intros [[Hin Hne]|[Hfst Hsnd]]%Hls.
      * cbn in Hin. set_solver.
      * destruct l as [a b]. cbn in Hfst, Hsnd. by injection Hsnd as <-; subst.
    + intros ->. apply Hls. right. done.
Defined.

(** * Rejected payloads *)

(** C3, evaluated: with year 1799, with year 2101 and with price -0.01 the
    creation is answered by 400 and no record is stored, but the artist the
    payload names has been inserted before the year and the price are
    looked at. *)
Theorem add_record_rejected_keeps_artist :
  forall (int_of_str : string -> option Z) (float_of_str : string -> option Qc),
    api_add_record int_of_str float_of_str (year_payload 1799) blank_db
    = (bad_request "year must be a valid number between 1800 and 2100", nobody_db)
    /\ api_add_record int_of_str float_of_str (year_payload 2101) blank_db
       = (bad_request "year must be a valid number between 1800 and 2100", nobody_db)
    /\ api_add_record int_of_str float_of_str negative_price_payload blank_db
       = (bad_request "price must be a valid non-negative number", nobody_db)
    /\ Artists nobody_db <> Artists blank_db.
Proof.
  intros. repeat split; try reflexivity. discriminate.
Qed.

(** * Reports *)

(** C2, evaluated: for a record linked to two stores the list [rows] has one
    entry per link while [count] has the record once. *)
Theorem report_count_differs_from_rows :
  forall (int_of_str : string -> option Z),
    exists rows st,
      api_report_records int_of_str report_payload shelf_db
      = (Response 200 (Report rows st), shelf_db)
      /\ v_title <$> rows = ["Bitches Brew"; "Kind of Blue"; "Kind of Blue"]
      /\ length rows = 3%nat /\ count st = 2.
Proof.
  intros. eexists _, _. split; [reflexivity|]. repeat split.
Qed.

(** * What the writes of the facade leave alone *)

Lemma find_or_create_artist_frame name country d r d' :
  find_or_create_artist name country d = (r, d') ->
  Genres d' = Genres d /\ Records d' = Records d /\ Stores d' = Stores d
  /\ recordStores d' = recordStores d.
Proof.
  unfold find_or_create_artist, insert_artist.
  repeat case_match; intros [= <- <-]; simplify_eq; cbn; auto.
Qed.

Lemma find_or_create_genre_frame name d r d' :
  find_or_create_genre name d = (r, d') ->
  Artists d' = Artists d /\ Records d' = Records d /\ Stores d' = Stores d
  /\ recordStores d' = recordStores d.
Proof.
  unfold find_or_create_genre, insert_genre.
  repeat case_match; intros [= <- <-]; simplify_eq; cbn; auto.
Qed.

Section Rejection.
Variable int_of_str : string -> option Z.
Variable float_of_str : string -> option Qc.

Ltac frames :=
  repeat match goal with
    | H : find_or_create_artist _ _ _ = (_, _) |- _ =>
        apply find_or_create_artist_frame in H; destruct H as (? & ? & ? & ?)
    | H : find_or_create_genre _ _ = (_, _) |- _ =>
        apply find_or_create_genre_frame in H; destruct H as (? & ? & ? & ?)
    end.

(** Reading the payload never writes to the records, the stores or the
    links. *)
Lemma record_form_frame p d x d' :
  record_form int_of_str float_of_str p d = (x, d') ->
  Records d' = Records d /\ Stores d' = Stores d
  /\ recordStores d' = recordStores d.
Proof.
  unfold record_form, artist_for, genre_for, hbind, eval, call, reply, hret.
  cbv beta iota.
  repeat case_match; simplify_eq; intros [= <- <-]; frames;
    repeat split; congruence.
Qed.

(** A payload whose year or price the facade does not accept gets no record:
    the reply is 400, or 500 when an earlier step raised. *)
Lemma record_form_rejects p d :
  parse_int int_of_str (get p "year") (Some 1800) (Some 2100) = None
  \/ parse_float float_of_str (get p "price") (Some 0%Qc) None = None ->
  exists r d', record_form int_of_str float_of_str p d = (Return r, d')
               /\ (status r = 400 \/ status r = 500).
Proof.
  intros Hbad.
  unfold record_form, artist_for, genre_for, hbind, eval, call, reply, hret.
  cbv beta iota.
  repeat case_match; simplify_eq; try (destruct Hbad; congruence);
    eexists _, _; (split; [reflexivity|]); cbn; auto.
Qed.

(** X19: [api_add_record] turns down a payload whose year or price does not
    parse within the bounds: the reply is 400, or 500 when an earlier step
    raised, and the records, the stores and the links are as before. *)
Lemma add_record_rejected p d :
  parse_int int_of_str (get p "year") (Some 1800) (Some 2100) = None
  \/ parse_float float_of_str (get p "price") (Some 0%Qc) None = None ->
  exists r d', api_add_record int_of_str float_of_str p d = (r, d')
               /\ (status r = 400 \/ status r = 500)
               /\ Records d' = Records d /\ Stores d' = Stores d
               /\ recordStores d' = recordStores d.
Proof.
  intros Hbad. destruct (record_form_rejects p d Hbad) as (r & d' & E & Hs).
  exists r, d'. split.
  { unfold api_add_record, run, hbind. by rewrite E. }
  split; [done|]. by apply (record_form_frame p d _ _ E).
Qed.

(** The three payloads of the claim are of that kind. *)
Lemma year_1799_rejected :
  parse_int int_of_str (JInt 1799) (Some 1800) (Some 2100) = None.
Proof. reflexivity. Qed.

Lemma year_2101_rejected :
  parse_int int_of_str (JInt 2101) (Some 1800) (Some 2100) = None.
Proof. reflexivity. Qed.

Lemma price_minus_cent_rejected :
  parse_float float_of_str (JFloat (Q2Qc (-1 # 100))) (Some 0%Qc) None = None.
Proof. reflexivity. Qed.

End Rejection.

(** * Reports: where the count and the rows agree *)

Section Counting.
Context (W : from_row -> bool).

Lemma selected_cons J r l :
  selected W J (r :: l)
  = (length (List.filter W (J r)) + selected W J l)%nat.
Proof.
  unfold selected. cbn. by rewrite List.filter_app, length_app.
Qed.

Lemma selected_perm J l1 l2 : l1 ≡ₚ l2 -> selected W J l1 = selected W J l2.
Proof.
  induction 1 as [|x l1 l2 _ IH|x y l|l1 l2 l3 _ IH1 _ IH2].
  - done.
  - by rewrite !selected_cons, IH.
  - rewrite !selected_cons. lia.
  - by rewrite IH1.
Qed.

Lemma selected_ext J J' l :
  (forall r, r ∈ l ->
     length (List.filter W (J r)) = length (List.filter W (J' r))) ->
  selected W J l = selected W J' l.
Proof.
  induction l as [|r l IH]; [done|]. intros H. rewrite !selected_cons.
  rewrite (H r) by left. f_equal. apply IH. intros r' Hr'. apply H. by right.
Qed.

End Counting.

Lemma where_holds_app c1 c2 x :
  where_holds (c1 ++ c2) x = where_holds c1 x && where_holds c2 x.
Proof. apply forallb_app. Qed.

(** The conditions that do not name the link hold of a record whatever is
    joined to it. *)
Lemma where_holds_no_RS wh r o o' :
  existsb names_RS wh = false ->
  where_holds wh (r, o) = where_holds wh (r, o').
Proof.
  unfold where_holds. induction wh as [|c wh IH]; [done|].
  cbn [existsb forallb]. intros [Hc Hwh]%orb_false_elim.
  rewrite (IH Hwh). by destruct c.
Qed.

Lemma join_links_single wh ls r :
  existsb names_RS wh = false ->
  (length (links_of (record_id r) ls) ≤ 1)%nat ->
  length (List.filter (where_holds wh) (join_links ls r))
  = length (List.filter (where_holds wh) (no_links r)).
Proof.
  intros Hwh Hlen. unfold join_links, no_links.
  destruct (links_of (record_id r) ls) as [|l [|l' m]]; [done| |cbn in Hlen; lia].
  cbn [fmap list_fmap List.filter].
  rewrite (where_holds_no_RS wh r (Some l) None Hwh).
  by destruct (where_holds wh (r, None)).
Qed.

Lemma report_rows_full wh d arts gens recs sts ls :
  Artists d = Some arts -> Genres d = Some gens -> Records d = Some recs ->
  Stores d = Some sts -> recordStores d = Some ls ->
  report_rows wh d
  = Ok (report_row arts gens sts
        <$> List.filter (where_holds wh)
              (merge_sort rec_desc (rows recs) ≫= join_links ls)).
Proof.
  intros Ha Hg Hr Hs Hl. unfold report_rows. rewrite Ha, Hg, Hr, Hs, Hl.
  reflexivity.
Qed.

(** The filters are conjunctive: a row of the report stems from a record of
    the table, with one of its links or none, of which every condition
    holds, and every such record and link has its row. *)
Lemma report_rows_conjunctive wh d arts gens recs sts ls v :
  Artists d = Some arts -> Genres d = Some gens -> Records d = Some recs ->
  Stores d = Some sts -> recordStores d = Some ls ->
  (exists l, report_rows wh d = Ok l /\ v ∈ l) <->
  exists x, fst x ∈ rows recs /\ x ∈ join_links ls (fst x)
            /\ Forall (fun c => holds c x = true) wh
            /\ v = report_row arts gens sts x.
Proof.
  intros Ha Hg Hr Hs Hl.
  rewrite (report_rows_full wh d arts gens recs sts ls Ha Hg Hr Hs Hl).
  assert (Hsel : forall x,
    x ∈ List.filter (where_holds wh)
          (merge_sort rec_desc (rows recs) ≫= join_links ls)
    <-> fst x ∈ rows recs /\ x ∈ join_links ls (fst x)
        /\ Forall (fun c => holds c x = true) wh).
  { intros x. rewrite elem_of_List_filter, list_elem_of_bind.
    unfold where_holds. rewrite forallb_forall, Forall_forall.
    setoid_rewrite merge_sort_Permutation.
    setoid_rewrite <- list_elem_of_In. split.
    - intros [(r & Hx & Hrin) Hall].
      assert (fst x = r) as ->; [|done].
      unfold join_links in Hx.
      destruct (links_of (record_id r) ls).
      + by apply list_elem_of_singleton in Hx as ->.
      + by apply list_elem_of_fmap in Hx as (? & -> & _).
    - intros (Hin & Hx & Hall). eauto. }
  split.
  - intros (l & [= <-] & (x & -> & Hx)%list_elem_of_fmap).
    apply Hsel in Hx as (Hin & Hx & Hall). by exists x.
  - intros (x & Hin & Hx & Hall & ->). eexists. split; [reflexivity|].
    apply list_elem_of_fmap. exists x. split; [done|]. by apply Hsel.
Qed.

Section ReportCount.
Variable int_of_str : string -> option Z.

(** The count of the statistics is the number of rows when the request has a
    store filter, and when it has none and no record has two links. *)
Lemma report_count_eq_rows p d arts gens recs sts ls :
  Artists d = Some arts -> Genres d = Some gens -> Records d = Some recs ->
  Stores d = Some sts -> recordStores d = Some ls ->
  optional_text (get p "start_date") = true ->
  optional_text (get p "end_date") = true ->
  (truthy_id (parse_int int_of_str (get p "store_id") (Some 1) None) = None ->
   forall r, r ∈ rows recs -> (length (links_of (record_id r) ls) ≤ 1)%nat) ->
  exists l st,
    api_report_records int_of_str p d = (Response 200 (Report l st), d)
    /\ count st = Z.of_nat (length l).
Proof.
  intros Ha Hg Hr Hs Hl Hsd Hed Hone.
  unfold api_report_records, run, hbind, eval, call, hret. cbv beta iota.
  rewrite (parse_date_optional _ Hsd), (parse_date_optional _ Hed).
  set (sid := truthy_id (parse_int int_of_str (get p "store_id") (Some 1) None))
    in *.
  set (wh := match date_of (get p "start_date") with
             | Some s => opt_list (PyStr.truthy s) (DateGe s) | None => []
             end ++ _ ++ _ ++ _ ++ _).
  assert (Hwh : existsb names_RS wh = bool_decide (is_Some sid)).
  { unfold wh. rewrite !existsb_app.
    destruct (date_of (get p "start_date")) as [s1|];
      [destruct (PyStr.truthy s1)|];
      (destruct (date_of (get p "end_date")) as [s2|];
         [destruct (PyStr.truthy s2)|]);
      destruct (truthy_id (parse_int int_of_str (get p "artist_id") (Some 1) None));
      destruct (truthy_id (parse_int int_of_str (get p "genre_id") (Some 1) None));
      destruct sid; reflexivity. }
  clearbody wh.
  rewrite (report_rows_full wh d arts gens recs sts ls Ha Hg Hr Hs Hl).
  unfold report_stats, check_where. rewrite Hr, Hl, Hwh.
  cbn [the_table rbind].
  destruct sid as [s|] eqn:Es.
  - rewrite bool_decide_true by eauto. cbn [negb andb rbind].
    eexists _, _. split; [reflexivity|]. cbn [count].
    rewrite length_fmap. f_equal. symmetry.
    apply (selected_perm (where_holds wh) (join_links ls)).
    apply merge_sort_Permutation.
  - rewrite bool_decide_false by (by intros [? [=]]). cbn [negb andb rbind].
    eexists _, _. split; [reflexivity|]. cbn [count].
    rewrite length_fmap. f_equal. symmetry.
    rewrite bool_decide_false in Hwh by (by intros [? [=]]).
    etrans; [apply (selected_perm (where_holds wh) (join_links ls));
             apply merge_sort_Permutation|].
    apply selected_ext. intros r Hin. apply join_links_single; auto.
Qed.

End ReportCount.

(** * The date parser on padded text *)

Example strptime_padded_date : Strptime.strptime_ok "2020-01-01" = true.
Proof. reflexivity. Qed.

Example strptime_leap_day : Strptime.strptime_ok "2024-02-29" = true.
Proof. reflexivity. Qed.

Example strptime_no_such_day : Strptime.strptime_ok "2023-02-29" = false.
Proof. reflexivity. Qed.

Example strptime_month_13 : Strptime.strptime_ok "2020-13-01" = false.
Proof. reflexivity. Qed.

Example strptime_text_remains : Strptime.strptime_ok "2020-01-011" = false.
Proof. reflexivity. Qed.

Example strptime_space_day : Strptime.strptime_ok "2020-01- 5" = true.
Proof. reflexivity. Qed.

Example strip_title : PyStr.strip "  Kind of Blue  " = "Kind of Blue".
Proof. reflexivity. Qed.

Lemma is_digit_cases c :
  PyStr.is_digit c = true ->
  c ∈ ["0"; "1"; "2"; "3"; "4"; "5"; "6"; "7"; "8"; "9"]%char.
Proof.
  destruct c as [[] [] [] [] [] [] [] []]; intros H;
    try discriminate H; set_solver.
Qed.

Ltac digits H :=
  apply is_digit_cases in H;
  repeat (apply elem_of_cons in H as [->|H]); [..|by apply elem_of_nil in H].

Lemma month_padded {A} m1 m2 r (K : Z -> string -> option A) :
  PyStr.is_digit m1 = true -> PyStr.is_digit m2 = true ->
  Strptime.first_alt Strptime.month_alts (String m1 (String m2 (String "-" r)))
    (fun m r3 => r4 ← Strptime.dash r3; K m r4)
  = if (1 <=? num2 m1 m2) && (num2 m1 m2 <=? 12) then K (num2 m1 m2) r else None.
Proof.
  intros H1 H2. digits H1; digits H2; vm_compute; try reflexivity;
    by destruct (K _ r).
Qed.

Lemma day_padded d1 d2 (y m : Z) :
  PyStr.is_digit d1 = true -> PyStr.is_digit d2 = true ->
  Strptime.first_alt Strptime.day_alts (String d1 (String d2 EmptyString))
    (fun d r5 => Some (y, m, d, r5))
  = if (1 <=? num2 d1 d2) && (num2 d1 d2 <=? 31)
    then Some (y, m, num2 d1 d2, EmptyString)
    else if Strptime.in_range "1" "9" d1
         then Some (y, m, PyStr.digit_val d1, String d2 EmptyString)
         else None.
Proof. intros H1 H2. digits H1; digits H2; reflexivity. Qed.

Lemma valid_date_bounds y m d :
  Strptime.valid_date y m d = true -> 1 ≤ m ≤ 12 /\ 1 ≤ d ≤ 31.
Proof.
  unfold Strptime.valid_date, Strptime.days_in_month.
  rewrite !andb_true_iff, !Z.leb_le. intros (((((_ & _) & ?) & ?) & ?) & Hd).
  repeat case_match; lia.
Qed.

(** On text of the shape [YYYY-MM-DD] the parser accepts the dates of the
    calendar and nothing else. *)
Lemma strptime_padded y1 y2 y3 y4 m1 m2 d1 d2 :
  let s := String y1 (String y2 (String y3 (String y4 (String "-"
             (String m1 (String m2 (String "-"
               (String d1 (String d2 EmptyString))))))))) in
  Strptime.is_yyyy_mm_dd s = true ->
  Strptime.strptime_ok s
  = Strptime.valid_date (num4 y1 y2 y3 y4) (num2 m1 m2) (num2 d1 d2).
Proof.
  intros s. unfold s, Strptime.is_yyyy_mm_dd.
  rewrite !andb_true_iff.
  intros (((((((((Hy1 & Hy2) & Hy3) & Hy4) & _) & Hm1) & Hm2) & _) & Hd1) & Hd2).
  unfold Strptime.strptime_ok, Strptime.regex_match, Strptime.year4.
  rewrite Hy1, Hy2, Hy3, Hy4. cbn [andb mbind option_bind Strptime.dash].
  fold (num4 y1 y2 y3 y4).
  rewrite (month_padded m1 m2 _ _ Hm1 Hm2).
  destruct (Strptime.valid_date _ _ _) eqn:Hv.
  - destruct (valid_date_bounds _ _ _ Hv) as [[? ?] [? ?]].
    rewrite (proj2 (Z.leb_le 1 (num2 m1 m2))), (proj2 (Z.leb_le (num2 m1 m2) 12))
      by done.
    cbn [andb]. rewrite (day_padded d1 d2 _ _ Hd1 Hd2).
    rewrite (proj2 (Z.leb_le 1 (num2 d1 d2))), (proj2 (Z.leb_le (num2 d1 d2) 31))
      by done.
    done.
  - destruct ((1 <=? num2 m1 m2) && (num2 m1 m2 <=? 12)); [|done].
    rewrite (day_padded d1 d2 _ _ Hd1 Hd2).
    destruct ((1 <=? num2 d1 d2) && (num2 d1 d2 <=? 31)); [done|].
    by destruct (Strptime.in_range "1" "9" d1).
Qed.

(** The facade keeps text that is tidy already as it is. *)
Lemma prefix_short n s : (String.length s ≤ n)%nat -> PyStr.prefix n s = s.
Proof.
  unfold PyStr.prefix. revert n.
  induction s as [|c s IH]; intros [|n] H; cbn in *; try done; try lia.
  f_equal. apply IH. lia.
Qed.

Lemma clean_tidy s :
  PyStr.strip s = s -> PyStr.truthy s = true -> (String.length s ≤ 255)%nat ->
  clean (JStr s) = Some s.
Proof.
  intros Hs Ht Hl. unfold clean, sanitize_text. cbn [truthy].
  rewrite Ht, Hs, Ht. by rewrite prefix_short.
Qed.

Lemma date_of_valid s :
  Strptime.strptime_ok s = true -> date_of (JStr s) = Some s.
Proof.
  intros H. unfold date_of, parse_date_yyyy_mm_dd.
  destruct s; [done|]. cbn [truthy PyStr.truthy negb]. by rewrite H.
Qed.

(** * How the states of the counterexamples come about *)

(** An update of a record id that no record carries leaves a link row for
    it. *)
Example update_unknown_record_links :
  api_update_record no_number no_number 99 (store_payload 1) blank_db
  = (Response 204 Empty, dangling_db).
Proof. reflexivity. Qed.

(** Such a link row stays for the record that gets the id later, which then
    has two links. *)
Example create_after_update_two_links :
  let d1 := snd (api_update_record no_number no_number 1 (store_payload 1) blank_db) in
  let d2 := snd (api_add_record no_number no_number (store_payload 2) d1) in
  recordStores d2 = Some [(1, 1); (1, 2)]
  /\ (fun t => record_id <$> rows t) <$> Records d2 = Some [1].
Proof. split; reflexivity. Qed.

(** * More of the schema, the parsers and the lists *)

(** X1: on a database whose tables, where they are there, have the columns
    of [SCHEMA] (the databases of this development), [init_db] loses
    nothing: afterwards the four entity tables are there, each with the
    rows and the counter it had or empty, the link table is as it was, no
    index is lost, and a second run changes nothing. *)
Theorem init_db_keeps_data (d : db) :
  exists d1,
    init_db d = Ok d1 /\ init_db d1 = Ok d1
    /\ Artists d1 = or_empty (Artists d) /\ Genres d1 = or_empty (Genres d)
    /\ Records d1 = or_empty (Records d) /\ Stores d1 = or_empty (Stores d)
    /\ recordStores d1 = recordStores d
    /\ indexes d ⊆ indexes d1.
Proof.
  eexists. split; [apply init_db_spec|]. split.
  { rewrite init_db_spec. f_equal. apply db_eq; try reflexivity.
    cbn. apply leibniz_equiv. set_solver. }
  cbn. repeat split. set_solver.
Qed.

(** X2: on text of the shape [YYYY-MM-DD] the date parser returns the text
    when its three numbers are a date of the calendar and [None] when they
    are not. *)
Theorem parse_date_padded (y1 y2 y3 y4 m1 m2 d1 d2 : ascii) :
  let s := String y1 (String y2 (String y3 (String y4 (String "-"
             (String m1 (String m2 (String "-"
               (String d1 (String d2 EmptyString))))))))) in
  Strptime.is_yyyy_mm_dd s = true ->
  parse_date_yyyy_mm_dd (JStr s)
  = Ok (if Strptime.valid_date (num4 y1 y2 y3 y4) (num2 m1 m2) (num2 d1 d2)
        then Some s else None).
Proof.
  intros s H. pose proof (strptime_padded y1 y2 y3 y4 m1 m2 d1 d2 H) as E.
  unfold parse_date_yyyy_mm_dd. fold s in E. rewrite E. reflexivity.
Qed.

Lemma parse_date_padded_witness :
  parse_date_yyyy_mm_dd (JStr "2023-02-29") = Ok None
  /\ parse_date_yyyy_mm_dd (JStr "2024-02-29") = Ok (Some "2024-02-29").
Proof.
  split.
  - apply (parse_date_padded "2" "0" "2" "3" "0" "2" "2" "9"). reflexivity.
  - apply (parse_date_padded "2" "0" "2" "4" "0" "2" "2" "9"). reflexivity.
Defined.

Lemma length_prefix n s : (String.length (PyStr.prefix n s) ≤ n)%nat.
Proof.
  unfold PyStr.prefix. revert n.
  induction s as [|c s IH]; intros [|n]; cbn; try lia.
  specialize (IH n). lia.
Qed.

Lemma sanitize_text_length (v : json) (s : string) :
  sanitize_text v = Ok (Some s) -> (1 ≤ String.length s ≤ 255)%nat.
Proof.
  intros (s0 & -> & -> & Ht)%sanitize_text_inv.
  pose proof (length_prefix 255 (PyStr.strip s0)).
  destruct (PyStr.strip s0) as [|c r] eqn:E; [done|].
  split; [|done]. unfold PyStr.prefix. cbn [String.substring String.length]. lia.
Qed.

(** X3: the text [sanitize_text] keeps has from 1 to 255 characters, begins
    with a character that is not white space, and is the beginning of the
    stripped input. *)
Theorem sanitize_text_shape (v : json) (s : string) :
  sanitize_text v = Ok (Some s) ->
  (1 ≤ String.length s ≤ 255)%nat
  /\ (exists c r, s = String c r /\ PyStr.is_space c = false)
  /\ exists s0, v = JStr s0 /\ s = PyStr.prefix 255 (PyStr.strip s0).
Proof.
  intros (s0 & -> & -> & Ht)%sanitize_text_inv.
  pose proof (strip_head s0) as Hh. pose proof (length_prefix 255 (PyStr.strip s0)).
  destruct (PyStr.strip s0) as [|c r] eqn:E; [done|].
  split; [|split; [|by exists s0; rewrite E]].
  - split; [|done]. unfold PyStr.prefix. cbn [String.substring String.length]. lia.
  - unfold PyStr.prefix. cbn [String.substring]. eauto.
Qed.

Lemma sanitize_text_shape_witness :
  (1 ≤ String.length "Kind of Blue" ≤ 255)%nat
  /\ (exists c r, "Kind of Blue" = String c r /\ PyStr.is_space c = false)
  /\ exists s0, JStr "  Kind of Blue " = JStr s0
                /\ "Kind of Blue" = PyStr.prefix 255 (PyStr.strip s0).
Proof. apply (sanitize_text_shape (JStr "  Kind of Blue ")). reflexivity. Defined.

#[global] Instance artist_asc_total : Total artist_asc.
Proof. intros a b. apply (total String.le). Qed.

#[global] Instance genre_asc_total : Total genre_asc.
Proof. intros a b. apply (total String.le). Qed.

#[global] Instance store_asc_total : Total store_asc.
Proof. intros a b. apply (total String.le). Qed.

(** X4: the three lists hold every row of their table once and are in the
    order of the names. *)
Theorem entity_lists_sorted (d : db) (arts : table artist) (gens : table genre)
    (sts : table store) :
  Artists d = Some arts -> Genres d = Some gens -> Stores d = Some sts ->
  exists la lg ls,
    api_get_artists d = (ArtistList la, d)
    /\ la ≡ₚ rows arts /\ Sorted artist_asc la
    /\ api_get_genres d = (Response 200 (GenreList lg), d)
    /\ lg ≡ₚ rows gens /\ Sorted genre_asc lg
    /\ api_get_stores d = (StoreList ls, d)
    /\ ls ≡ₚ rows sts /\ Sorted store_asc ls.
Proof.
  intros Ha Hg Hs.
  exists (merge_sort artist_asc (rows arts)), (merge_sort genre_asc (rows gens)),
    (merge_sort store_asc (rows sts)).
  unfold api_get_artists, api_get_genres, api_get_stores, conclude, run, hbind,
    call, hret, get_artists_db, get_genres_db, get_stores_db.
  rewrite Ha, Hg, Hs. cbn [the_table rbind].
  repeat split; try apply merge_sort_Permutation; apply Sorted_merge_sort; apply _.
Qed.

Lemma entity_lists_sorted_witness :
  exists la lg ls,
    api_get_artists shelf_db = (ArtistList la, shelf_db)
    /\ la ≡ₚ [Artist 1 "Miles Davis" None] /\ Sorted artist_asc la
    /\ api_get_genres shelf_db = (Response 200 (GenreList lg), shelf_db)
    /\ lg ≡ₚ [] /\ Sorted genre_asc lg
    /\ api_get_stores shelf_db = (StoreList ls, shelf_db)
    /\ ls ≡ₚ rows two_stores /\ Sorted store_asc ls.
Proof.
  apply (entity_lists_sorted shelf_db (Table [Artist 1 "Miles Davis" None] 1)
           (Table [] 0) two_stores); reflexivity.
Defined.

(** * The record functions of the repository *)

Lemma checked_year_range v y : checked_year v = Some y -> 1800 ≤ y ≤ 2100.
Proof.
  destruct v; try discriminate. cbn.
  destruct (Z.ltb_spec z 1800), (Z.gtb_spec z 2100); intros [= <-]; lia.
Qed.

Lemma checked_price_range v q : checked_price v = Some q -> (0 ≤ q)%Qc.
Proof.
  destruct v as [|z|q'|]; try discriminate; cbn.
  - destruct (Z.ltb_spec z 0); intros [= <-].
    unfold Qcle, Qle. change (0 * 1 ≤ z * 1). lia.
  - destruct (Qc_ltb q' 0) eqn:E; intros [= <-]. by apply Qc_ltb_false.
Qed.

(** What a call of [add_record_db] comes to. *)
Lemma add_record_db_cases data d :
  (exists e, add_record_db data d = (Raise e, d))
  \/ exists t y q recs d',
       d_title data = Some t /\ checked_year (d_year data) = Some y
       /\ checked_price (d_price data) = Some q /\ Records d = Some recs
       /\ add_record_db data d = (Ok (next_id record_id recs), d')
       /\ Records d'
          = Some (Table (rows recs ++
                           [Record_ (next_id record_id recs) t (d_artist_id data)
                              (d_genre_id data) (Some y) (d_condition data)
                              (Some q) (d_purchase_date data)])
                    (next_id record_id recs))
       /\ Artists d' = Artists d /\ Genres d' = Genres d /\ Stores d' = Stores d
       /\ (recordStores d' = recordStores d
           \/ exists ls s, recordStores d = Some ls /\ d_store_id data = Some (Some s)
                           /\ s <> 0
                           /\ recordStores d'
                              = Some (insert_or_ignore
                                        (next_id record_id recs, s) ls)).
Proof.
  unfold add_record_db, validate.
  destruct (d_title data) as [t|]; [|left; eauto].
  destruct (checked_year (d_year data)) as [y|]; [|left; eauto].
  destruct (checked_price (d_price data)) as [q|]; [|left; eauto].
  destruct (Records d) as [recs|] eqn:Hr; [|left; cbn; eauto].
  cbn [the_table rbind append_row].
  destruct (d_store_id data) as [[s|]|] eqn:Hs; cbn [mbind option_bind id truthy_id].
  - destruct (Z.eqb_spec s 0) as [->|Hne].
    + right. eexists t, y, q, recs, _. cbn. repeat split; try done.
      left. reflexivity.
    + cbn [recordStores set_Records].
      destruct (recordStores d) as [ls|] eqn:Hl; [|left; cbn; eauto].
      right. eexists t, y, q, recs, _. cbn. repeat split; try done.
      right. exists ls, s. repeat split; done.
  - right. eexists t, y, q, recs, _. cbn. repeat split; try done.
    left. reflexivity.
  - right. eexists t, y, q, recs, _. cbn. repeat split; try done.
    left. reflexivity.
Qed.

(** X5: for a dict whose price is [None], an integer, a finite float or
    text (a [pyval]: a NaN and the infinities are not among them), a call of
    [add_record_db] that raises leaves the database as it was, also when it
    is the link that cannot be written; a call that returns has appended
    one record, with an id above every id of the table, a year from 1800 to
    2100 and a price that is not negative, and has left the rows that were
    there and the other entity tables alone. *)
Theorem add_record_db_outcome (data : record_data) (d d' : db)
    (r : result Z) :
  add_record_db data d = (r, d') ->
  match r with
  | Raise _ => d' = d
  | Ok rid =>
      exists recs new,
        Records d = Some recs
        /\ Records d' = Some (Table (rows recs ++ [new]) rid)
        /\ record_id new = rid /\ valid_row new
        /\ Forall (fun x => record_id x < rid) (rows recs)
        /\ Artists d' = Artists d /\ Genres d' = Genres d
        /\ Stores d' = Stores d
  end.
Proof.
  intros E.
  destruct (add_record_db_cases data d)
    as [[e E']|(t & y & q & recs & d1 & Ht & Hy & Hq & Hr & E' & Hr' & Ha & Hg & Hs & _)];
    rewrite E' in E; injection E as <- <-; [done|].
  eexists recs, _. split; [done|]. split; [done|]. split; [done|].
  split; [|split; [|done]].
  - exists y, q. cbn. pose proof (checked_year_range _ _ Hy).
    pose proof (checked_price_range _ _ Hq). done.
  - apply Forall_forall. intros x Hx. by apply next_id_fresh.
Qed.

Lemma add_record_db_outcome_witness :
  match fst (add_record_db good_data shelf_db) with
  | Raise _ => snd (add_record_db good_data shelf_db) = shelf_db
  | Ok rid =>
      exists recs new,
        Records shelf_db = Some recs
        /\ Records (snd (add_record_db good_data shelf_db))
           = Some (Table (rows recs ++ [new]) rid)
        /\ record_id new = rid /\ valid_row new
        /\ Forall (fun x => record_id x < rid) (rows recs)
        /\ Artists (snd (add_record_db good_data shelf_db)) = Artists shelf_db
        /\ Genres (snd (add_record_db good_data shelf_db)) = Genres shelf_db
        /\ Stores (snd (add_record_db good_data shelf_db)) = Stores shelf_db
  end.
Proof.
  apply (add_record_db_outcome good_data shelf_db
           (snd (add_record_db good_data shelf_db))
           (fst (add_record_db good_data shelf_db))).
  reflexivity.
Defined.

(** What a call of [update_record_db] comes to. *)
Lemma update_record_db_cases rid data d :
  (exists e, update_record_db rid data d = (Raise e, d))
  \/ exists t y q recs d',
       d_title data = Some t /\ checked_year (d_year data) = Some y
       /\ checked_price (d_price data) = Some q /\ Records d = Some recs
       /\ update_record_db rid data d = (Ok tt, d')
       /\ Records d'
          = Some (Table (update_row rid t y q data <$> rows recs) (seq recs))
       /\ Artists d' = Artists d /\ Genres d' = Genres d /\ Stores d' = Stores d.
Proof.
  unfold update_record_db, validate.
  destruct (d_title data) as [t|]; [|left; eauto].
  destruct (checked_year (d_year data)) as [y|]; [|left; eauto].
  destruct (checked_price (d_price data)) as [q|]; [|left; eauto].
  destruct (Records d) as [recs|] eqn:Hr; [|left; cbn; eauto].
  cbn [the_table rbind].
  destruct (d_store_id data) as [sid|].
  - cbn [recordStores set_Records].
    destruct (recordStores d) as [ls|]; [|left; cbn; eauto].
    cbn [the_table rbind]. right.
    destruct (truthy_id sid); eexists t, y, q, recs, _; cbn; repeat split; done.
  - right. eexists t, y, q, recs, _. cbn. repeat split; done.
Qed.

(** X6: for a dict whose price is [None], an integer, a finite float or
    text (a [pyval]: a NaN and the infinities are not among them), a call of
    [update_record_db] that raises leaves the database as it was; a call
    that returns has kept the ids of the records, their order and every
    record with another id, has given the record with the id a year from
    1800 to 2100 and a price that is not negative, and has left the other
    entity tables alone.  An id that no record has changes no record. *)
Theorem update_record_db_outcome (rid : Z) (data : record_data) (d d' : db)
    (r : result unit) :
  update_record_db rid data d = (r, d') ->
  match r with
  | Raise _ => d' = d
  | Ok _ =>
      exists recs recs',
        Records d = Some recs /\ Records d' = Some recs'
        /\ record_id <$> rows recs' = record_id <$> rows recs
        /\ seq recs' = seq recs
        /\ Forall2 (fun x x' => record_id x <> rid -> x' = x)
             (rows recs) (rows recs')
        /\ Forall (fun x' => record_id x' = rid -> valid_row x') (rows recs')
        /\ Artists d' = Artists d /\ Genres d' = Genres d
        /\ Stores d' = Stores d
  end.
Proof.
  intros E.
  destruct (update_record_db_cases rid data d)
    as [[e E']|(t & y & q & recs & d1 & Ht & Hy & Hq & Hr & E' & Hr' & Ha & Hg & Hs)];
    rewrite E' in E; injection E as <- <-; [done|].
  eexists recs, _. split; [done|]. split; [done|]. cbn [rows seq].
  split; [|split; [done|split; [|split; [|done]]]].
  - rewrite <- list_fmap_compose. apply list_fmap_ext. intros i x _. cbn.
    unfold update_row. by destruct (record_id x =? rid).
  - apply Forall2_fmap_r, Forall_Forall2_diag, Forall_forall.
    intros x _ Hne. unfold update_row.
    by rewrite (proj2 (Z.eqb_neq _ _) Hne).
  - apply Forall_fmap, Forall_forall. intros x _. cbn. unfold update_row.
    destruct (Z.eqb_spec (record_id x) rid) as [Heq|Hne]; cbn; [|done].
    intros _. exists y, q. cbn. pose proof (checked_year_range _ _ Hy).
    pose proof (checked_price_range _ _ Hq). done.
Qed.

Lemma update_record_db_outcome_witness :
  match fst (update_record_db 1 good_data shelf_db) with
  | Raise _ => snd (update_record_db 1 good_data shelf_db) = shelf_db
  | Ok _ =>
      exists recs recs',
        Records shelf_db = Some recs
        /\ Records (snd (update_record_db 1 good_data shelf_db)) = Some recs'
        /\ record_id <$> rows recs' = record_id <$> rows recs
        /\ seq recs' = seq recs
        /\ Forall2 (fun x x' => record_id x <> 1 -> x' = x)
             (rows recs) (rows recs')
        /\ Forall (fun x' => record_id x' = 1 -> valid_row x') (rows recs')
        /\ Artists (snd (update_record_db 1 good_data shelf_db)) = Artists shelf_db
        /\ Genres (snd (update_record_db 1 good_data shelf_db)) = Genres shelf_db
        /\ Stores (snd (update_record_db 1 good_data shelf_db)) = Stores shelf_db
  end.
Proof.
  apply (update_record_db_outcome 1 good_data shelf_db
           (snd (update_record_db 1 good_data shelf_db))
           (fst (update_record_db 1 good_data shelf_db))).
  reflexivity.
Defined.

(** What a call of [delete_record_db] that returns has done. *)
Lemma delete_record_db_returns rid d d1 :
  delete_record_db rid d = (Ok tt, d1) ->
  exists recs ls,
    Records d = Some recs /\ recordStores d = Some ls
    /\ Records d1 = Some (delete_where (fun r => record_id r =? rid) recs)
    /\ recordStores d1 = Some (unlink_record rid ls)
    /\ Genres d1 = Genres d /\ Stores d1 = Stores d
    /\ (Artists d1 = Artists d
        \/ exists aid arts,
             Artists d = Some arts
             /\ Artists d1 = Some (delete_where (fun a => artist_id a =? aid) arts)
             /\ count_where (fun r => Zeqb_opt (rec_artist_id r) aid)
                  (delete_where (fun r => record_id r =? rid) recs) = 0).
Proof.
  unfold delete_record_db.
  destruct (Records d) as [recs|] eqn:Hr; [|discriminate].
  destruct (recordStores d) as [ls|] eqn:Hl; [|discriminate].
  cbn [the_table].
  destruct (truthy_id _) as [aid|].
  - destruct (Z.eqb_spec (count_where (fun r => Zeqb_opt (rec_artist_id r) aid)
                (delete_where (fun r => record_id r =? rid) recs)) 0) as [Hc|Hc].
    + cbn [Artists set_Records set_recordStores].
      destruct (Artists d) as [arts|] eqn:Ha; [|discriminate].
      cbn [the_table]. intros [= <-]. exists recs, ls. cbn.
      repeat split; try done. right. exists aid, arts. done.
    + intros [= <-]. exists recs, ls. cbn. repeat split; try done.
      left. reflexivity.
  - intros [= <-]. exists recs, ls. cbn. repeat split; try done.
    left. reflexivity.
Qed.

Lemma delete_where_twice {A} (p : A -> bool) (t : table A) :
  delete_where p (delete_where p t) = delete_where p t.
Proof.
  unfold delete_where. cbn. f_equal. apply filter_all.
  by intros r [_ Hr]%elem_of_List_filter.
Qed.

(** X7: deleting a record a second time succeeds and changes nothing. *)
Theorem delete_record_db_twice (rid : Z) (d d1 : db) :
  delete_record_db rid d = (Ok tt, d1) ->
  delete_record_db rid d1 = (Ok tt, d1).
Proof.
  intros (recs & ls & _ & _ & Hr1 & Hl1 & _)%delete_record_db_returns.
  rewrite (delete_record_db_missing rid d1 _ _ Hr1 Hl1).
  - rewrite unlink_unlink. by rewrite set_recordStores_same.
  - intros r [_ Hr]%elem_of_delete_where. by apply Z.eqb_neq.
Qed.

Lemma delete_record_db_twice_witness :
  delete_record_db 1 (snd (delete_record_db 1 shelf_db))
  = (Ok tt, snd (delete_record_db 1 shelf_db)).
Proof. apply (delete_record_db_twice 1 shelf_db). reflexivity. Defined.

(** * References between the tables *)

Lemma delete_record_db_raises rid d e d1 :
  delete_record_db rid d = (Raise e, d1) -> d1 = d \/ Artists d1 = None.
Proof.
  unfold delete_record_db.
  destruct (Records d) as [recs|]; [|intros [= _ <-]; by left].
  destruct (recordStores d) as [ls|]; [|intros [= _ <-]; by left].
  cbn [the_table]. destruct (truthy_id _) as [aid|]; [|discriminate].
  destruct (_ =? 0); [|discriminate].
  cbn [Artists set_Records set_recordStores].
  destruct (Artists d) as [arts|] eqn:Ha; [discriminate|].
  cbn [the_table]. intros [= _ <-]. right. exact Ha.
Qed.

(** X8: the two deletions that can remove an artist, [api_delete_artist] and
    the deletion of a record, leave no record with an artist that is not
    stored, if there was none before. *)
Theorem deletions_keep_artist_refs (aid rid : Z) (d : db) :
  artist_refs_ok d ->
  artist_refs_ok (snd (api_delete_artist aid d))
  /\ artist_refs_ok (snd (api_delete_record rid d)).
Proof.
  intros Hok. split.
  - unfold api_delete_artist.
    destruct (Records d) as [recs|] eqn:Hr; [|done]. cbn [the_table].
    destruct (Z.gtb_spec (count_where (fun r => Zeqb_opt (rec_artist_id r) aid) recs) 0)
      as [Hc|Hc]; [done|].
    destruct (Artists d) as [arts|] eqn:Ha; [|done]. cbn [the_table snd].
    intros recs' arts' r a Hr' Ha' Hin Hra. cbn in Hr', Ha'.
    rewrite Hr in Hr'. injection Hr' as <-. injection Ha' as <-.
    destruct (Hok recs arts r a Hr Ha Hin Hra) as (x & Hx & Hxa).
    exists x. split; [|done]. apply elem_of_delete_where. split; [done|].
    apply Z.eqb_neq. intros Heq.
    assert (0 < count_where (fun r => Zeqb_opt (rec_artist_id r) aid) recs); [|lia].
    apply (count_where_pos _ _ r Hin). rewrite Hra. cbn. apply Z.eqb_eq. congruence.
  - unfold api_delete_record, run, hbind, call, hret.
    destruct (delete_record_db rid d) as [[[]|e] d1] eqn:E; cbn [snd].
    + apply delete_record_db_returns in E
        as (recs & ls & Hr & Hl & Hr1 & Hl1 & _ & _ & Hart).
      intros recs' arts' r a Hr' Ha' Hin Hra.
      rewrite Hr1 in Hr'. injection Hr' as <-.
      apply elem_of_delete_where in Hin as [Hin Hne].
      destruct Hart as [Hsame|(aid' & arts & Ha & Ha1 & Hc)].
      * rewrite Hsame in Ha'. by apply (Hok recs arts' r a).
      * rewrite Ha1 in Ha'. injection Ha' as <-.
        destruct (Hok recs arts r a Hr Ha Hin Hra) as (x & Hx & Hxa).
        exists x. split; [|done]. apply elem_of_delete_where. split; [done|].
        apply Z.eqb_neq. intros Heq.
        assert (0 < count_where (fun r => Zeqb_opt (rec_artist_id r) aid')
                      (delete_where (fun r => record_id r =? rid) recs)); [|lia].
        apply (count_where_pos _ _ r).
        { by apply elem_of_delete_where. }
        rewrite Hra. cbn. apply Z.eqb_eq. congruence.
    + apply delete_record_db_raises in E as [->|Hnone]; [done|].
      intros recs' arts' r a _ Ha'. congruence.
Qed.

Lemma shelf_db_artist_refs : artist_refs_ok shelf_db.
Proof.
  intros recs arts r a [= <-] [= <-] Hin Hra. exists (Artist 1 "Miles Davis" None).
  split; [left|]. cbn in Hin.
  apply elem_of_cons in Hin as [->|Hin]; [by injection Hra|].
  apply list_elem_of_singleton in Hin as ->. by injection Hra.
Defined.

Lemma deletions_keep_artist_refs_witness :
  artist_refs_ok (snd (api_delete_artist 1 shelf_db))
  /\ artist_refs_ok (snd (api_delete_record 2 shelf_db)).
Proof. apply (deletions_keep_artist_refs 1 2 shelf_db shelf_db_artist_refs). Defined.

(** X9: [api_delete_genre] leaves no record with a genre that is not stored,
    if there was none before. *)
Theorem delete_genre_keeps_refs (gid : Z) (d : db) :
  genre_refs_ok d -> genre_refs_ok (snd (api_delete_genre gid d)).
Proof.
  intros Hok. unfold api_delete_genre.
  destruct (Records d) as [recs|] eqn:Hr; [|done]. cbn [the_table].
  destruct (Z.gtb_spec (count_where (fun r => Zeqb_opt (rec_genre_id r) gid) recs) 0)
    as [Hc|Hc]; [done|].
  destruct (Genres d) as [gens|] eqn:Hg; [|done]. cbn [the_table snd].
  intros recs' gens' r g Hr' Hg' Hin Hrg. cbn in Hr', Hg'.
  rewrite Hr in Hr'. injection Hr' as <-. injection Hg' as <-.
  destruct (Hok recs gens r g Hr Hg Hin Hrg) as (x & Hx & Hxg).
  exists x. split; [|done]. apply elem_of_delete_where. split; [done|].
  apply Z.eqb_neq. intros Heq.
  assert (0 < count_where (fun r => Zeqb_opt (rec_genre_id r) gid) recs); [|lia].
  apply (count_where_pos _ _ r Hin). rewrite Hrg. cbn. apply Z.eqb_eq. congruence.
Qed.

Lemma jazz_db_genre_refs : genre_refs_ok jazz_db.
Proof.
  intros recs gens r g [= <-] [= <-] Hin Hrg. exists jazz. split; [left|].
  cbn in Hin. apply list_elem_of_singleton in Hin as ->. by injection Hrg.
Defined.

Lemma delete_genre_keeps_refs_witness :
  genre_refs_ok (snd (api_delete_genre 2 jazz_db)).
Proof. apply (delete_genre_keeps_refs 2 jazz_db jazz_db_genre_refs). Defined.

(** X10: for an id that SQLite can bind, [api_delete_store] asks nothing: it
    answers 204, removes the store and every link to it, whatever records
    are linked, and leaves the other stores, the other links and the other
    tables as they were; no link to a store that is not stored comes of
    it. *)
Theorem delete_store_outcome (sid : Z) (d : db) (sts : table store)
    (ls : list link) :
  sqlite_int sid ->
  Stores d = Some sts -> recordStores d = Some ls ->
  exists d' sts' ls',
    api_delete_store sid d = (Response 204 Empty, d')
    /\ Stores d' = Some sts' /\ recordStores d' = Some ls'
    /\ (forall s, s ∈ rows sts' <-> s ∈ rows sts /\ store_id s <> sid)
    /\ (forall l, l ∈ ls' <-> l ∈ ls /\ snd l <> sid)
    /\ Records d' = Records d /\ Artists d' = Artists d /\ Genres d' = Genres d
    /\ (store_links_ok d -> store_links_ok d').
Proof.
  intros _ Hs Hl. unfold api_delete_store. rewrite Hs, Hl. cbn [the_table].
  eexists _, _, _. split; [reflexivity|]. cbn.
  assert (Hst : forall s, s ∈ rows (delete_where (fun s => store_id s =? sid) sts)
                          <-> s ∈ rows sts /\ store_id s <> sid).
  { intros s. rewrite elem_of_delete_where. by rewrite Z.eqb_neq. }
  assert (Hlk : forall l, l ∈ unlink_store sid ls <-> l ∈ ls /\ snd l <> sid).
  { intros l. unfold unlink_store. rewrite elem_of_List_filter.
    by rewrite negb_true_iff, Z.eqb_neq. }
  split; [reflexivity|]. split; [reflexivity|]. split; [exact Hst|].
  split; [exact Hlk|]. split; [done|]. split; [done|]. split; [done|].
  intros Hok ls' sts' l Hl' Hs' Hin. cbn in Hl', Hs'.
  injection Hl' as <-. injection Hs' as <-. apply Hlk in Hin as [Hin Hne].
  destruct (Hok ls sts l Hl Hs Hin) as (x & Hx & Hxs).
  exists x. split; [|done]. apply Hst. split; [done|]. congruence.
Qed.

Lemma delete_store_outcome_witness :
  exists d' sts' ls',
    api_delete_store 1 shelf_db = (Response 204 Empty, d')
    /\ Stores d' = Some sts' /\ recordStores d' = Some ls'
    /\ (forall s, s ∈ rows sts' <-> s ∈ rows two_stores /\ store_id s <> 1)
    /\ (forall l, l ∈ ls' <-> l ∈ [(1, 1); (1, 2)] /\ snd l <> 1)
    /\ Records d' = Records shelf_db /\ Artists d' = Artists shelf_db
    /\ Genres d' = Genres shelf_db
    /\ (store_links_ok shelf_db -> store_links_ok d').
Proof.
  apply (delete_store_outcome 1 shelf_db two_stores [(1, 1); (1, 2)]);
    [unfold sqlite_int; lia|reflexivity|reflexivity].
Defined.

(** * What the record endpoints store *)

Section Stored.
Variable int_of_str : string -> option Z.
Variable float_of_str : string -> option Qc.

(** The dict that comes of a payload. *)
Lemma record_form_next p d data d2 :
  record_form int_of_str float_of_str p d = (Next data, d2) ->
  exists t y q,
    sanitize_text (get p "title") = Ok (Some t)
    /\ parse_int int_of_str (get p "year") (Some 1800) (Some 2100) = Some y
    /\ parse_float float_of_str (get p "price") (Some 0%Qc) None = Some q
    /\ d_title data = Some t /\ d_year data = PInt y /\ d_price data = PFloat q
    /\ d_store_id data
       = Some (parse_int int_of_str (get p "store_id") (Some 1) None).
Proof.
  unfold record_form, artist_for, genre_for, hbind, eval, call, reply, hret.
  cbv beta iota.
  repeat case_match; simplify_eq; intros [= <- <-]; eauto 10.
Qed.

Lemma facade_row_new t y q rid a g c pd v vy vq :
  sanitize_text v = Ok (Some t) ->
  checked_year vy = Some y -> checked_price vq = Some q ->
  facade_row (Record_ rid t a g (Some y) c (Some q) pd).
Proof.
  intros Ht Hy Hq. split.
  - exists y, q. cbn. pose proof (checked_year_range _ _ Hy).
    pose proof (checked_price_range _ _ Hq). done.
  - cbn. by apply sanitize_text_length in Ht.
Qed.

(** X11: whatever the rest of the payload, when its price is not text (and
    no NaN or infinity, which a [json] does not hold), after
    [api_add_record] and after [api_update_record] every stored record
    still has a year from 1800 to 2100, a price that is not negative and a
    title of 1 to 255 characters, if every record had before. *)
Theorem facade_rows_stay_valid (rid : Z) (p : payload) (d : db)
    (recs : table record) :
  (forall s, get p "price" <> JStr s) ->
  Records d = Some recs -> Forall facade_row (rows recs) ->
  (exists recs', Records (snd (api_add_record int_of_str float_of_str p d))
                 = Some recs'
                 /\ Forall facade_row (rows recs'))
  /\ (exists recs', Records (snd (api_update_record int_of_str float_of_str rid p d))
                    = Some recs'
                    /\ Forall facade_row (rows recs')).
Proof.
  intros _ Hr Hall.
  destruct (record_form int_of_str float_of_str p d) as [[data|r] d2] eqn:Ef.
  - destruct (record_form_frame _ _ p d _ _ Ef) as (Hr2 & _).
    rewrite Hr in Hr2.
    apply record_form_next in Ef as Hn.
    destruct Hn as (t & y & q & Ht & _ & _ & Hdt & _).
    split.
    + unfold api_add_record, run, hbind, call, hret. rewrite Ef.
      destruct (add_record_db_cases data d2)
        as [[e E]|(t' & y' & q' & recs2 & d3 & Ht' & Hy' & Hq' & Hr' & E & Hr3 & _)];
        rewrite E; cbn [snd]; [eauto|].
      eexists. split; [exact Hr3|]. cbn [rows].
      rewrite Hr2 in Hr'. injection Hr' as <-.
      apply Forall_app. split; [done|]. apply Forall_singleton.
      rewrite Hdt in Ht'. injection Ht' as <-.
      by apply (facade_row_new t y' q' _ _ _ _ _ _ _ _ Ht Hy' Hq').
    + unfold api_update_record, run, hbind, call, hret. rewrite Ef.
      destruct (update_record_db_cases rid data d2)
        as [[e E]|(t' & y' & q' & recs2 & d3 & Ht' & Hy' & Hq' & Hr' & E & Hr3 & _)];
        rewrite E; cbn [snd]; [eauto|].
      eexists. split; [exact Hr3|]. cbn [rows].
      rewrite Hr2 in Hr'. injection Hr' as <-.
      apply Forall_fmap, Forall_forall. intros x Hx. cbn. unfold update_row.
      destruct (record_id x =? rid).
      * rewrite Hdt in Ht'. injection Ht' as <-.
        by apply (facade_row_new t y' q' _ _ _ _ _ _ _ _ Ht Hy' Hq').
      * by apply (proj1 (Forall_forall _ _) Hall).
  - destruct (record_form_frame _ _ p d _ _ Ef) as (Hr2 & _).
    rewrite Hr in Hr2.
    split; [unfold api_add_record|unfold api_update_record];
      unfold run, hbind; rewrite Ef; cbn [snd]; eauto.
Qed.

Lemma add_record_db_linked data d t y q s recs ls :
  d_title data = Some t -> d_year data = PInt y -> 1800 ≤ y ≤ 2100 ->
  d_price data = PFloat q -> (0 ≤ q)%Qc ->
  d_store_id data = Some (Some s) -> s <> 0 ->
  Records d = Some recs -> recordStores d = Some ls ->
  let rid := next_id record_id recs in
  let new := Record_ rid t (d_artist_id data) (d_genre_id data) (Some y)
               (d_condition data) (Some q) (d_purchase_date data) in
  add_record_db data d
  = (Ok rid, set_recordStores (insert_or_ignore (rid, s) ls)
               (set_Records (Table (rows recs ++ [new]) rid) d)).
Proof.
  intros Ht Hy Hyr Hp Hq%Qc_ltb_false Hs Hne Hr Hl rid new.
  unfold add_record_db, validate, checked_year, checked_price.
  rewrite Ht, Hy, Hp, Hq, Hr, Hs.
  rewrite (proj2 (Z.ltb_ge y 1800)) by lia.
  destruct (Z.gtb_spec y 2100); [lia|].
  cbn [orb the_table rbind append_row mbind option_bind id truthy_id].
  rewrite (proj2 (Z.eqb_neq s 0) Hne).
  cbn [recordStores set_Records]. rewrite Hl. reflexivity.
Qed.

(** X12: [api_add_record] links the new record to the store the payload
    names without looking the store up: the link is written whatever the
    table of stores holds, also when that table is absent.  The store id
    is an integer from 1 up that SQLite can bind, and the price a number
    that [float] takes over as it is. *)
Theorem add_record_links_unchecked (p : payload) (d : db) (t : string)
    (y s : Z) (q : Qc) arts gens recs ls :
  valid_payload p t y q -> exact_number (get p "price") ->
  get p "store_id" = JInt s -> 1 ≤ s -> sqlite_int s ->
  Artists d = Some arts -> Genres d = Some gens -> Records d = Some recs ->
  recordStores d = Some ls ->
  exists rid d' ls',
    api_add_record int_of_str float_of_str p d
    = (Response 201 (RecordId rid), d')
    /\ recordStores d' = Some ls' /\ (rid, s) ∈ ls'
    /\ Stores d' = Stores d.
Proof.
  intros Hv _ Hsid Hs1 _ Ha Hg Hr Hl.
  destruct (record_form_valid int_of_str float_of_str p d t y q arts gens Hv Ha Hg)
    as (aid & gid & arts' & gens' & Ef & _).
  rewrite Hsid, (parse_int_from int_of_str s 1 Hs1) in Ef.
  destruct Hv as (_ & _ & _ & Hyr & _ & Hq0 & _).
  unfold api_add_record, run, hbind, call, hret. rewrite Ef.
  erewrite (add_record_db_linked _ _ _ y q s recs ls);
    [|reflexivity|reflexivity|done|reflexivity|done|reflexivity|lia|done|done].
  eexists _, _, _. split; [reflexivity|]. split; [reflexivity|].
  split; [|reflexivity].
  unfold insert_or_ignore. case_bool_decide; [done|].
  apply elem_of_app. right. left.
Qed.

End Stored.

Lemma shelf_rows_facade : Forall facade_row [kind_of_blue; bitches_brew].
Proof.
  apply Forall_cons. split; [|apply Forall_singleton].
  - split; [|cbn; lia].
    exists 1959, (Qc_of_Z 25). repeat split; try reflexivity; try lia.
    discriminate.
  - split; [|cbn; lia].
    exists 1970, (Qc_of_Z 30). repeat split; try reflexivity; try lia.
    discriminate.
Defined.

Lemma facade_rows_stay_valid_witness :
  (exists recs', Records (snd (api_add_record no_number no_number
                                 (year_payload 1799) shelf_db)) = Some recs'
                 /\ Forall facade_row (rows recs'))
  /\ (exists recs', Records (snd (api_update_record no_number no_number 1
                                    kind_of_blue_payload shelf_db)) = Some recs'
                    /\ Forall facade_row (rows recs')).
Proof.
  split.
  - apply (facade_rows_stay_valid no_number no_number 1 (year_payload 1799)
             shelf_db (Table [kind_of_blue; bitches_brew] 2));
      [by intros s|reflexivity|apply shelf_rows_facade].
  - apply (facade_rows_stay_valid no_number no_number 1 kind_of_blue_payload
             shelf_db (Table [kind_of_blue; bitches_brew] 2));
      [by intros s|reflexivity|apply shelf_rows_facade].
Defined.

Lemma add_record_links_unchecked_witness :
  exists rid d' ls',
    api_add_record no_number no_number kind_of_blue_payload no_stores_db
    = (Response 201 (RecordId rid), d')
    /\ recordStores d' = Some ls' /\ (rid, 2) ∈ ls'
    /\ Stores d' = Stores no_stores_db.
Proof.
  apply (add_record_links_unchecked no_number no_number kind_of_blue_payload
           no_stores_db "Kind of Blue" 1959 2 (Qc_of_Z 25)
           (Table [] 0) (Table [] 0) (Table [] 0) []);
    try reflexivity;
    [apply kind_of_blue_payload_valid | by vm_compute | lia
    | unfold sqlite_int; lia].
Defined.

(** * The list of records on an incomplete schema *)

(** X13: on a table of records with the columns of [SCHEMA] (the tables of
    this development: a table of an older layout, with text columns for
    artist, genre and store, is not among them), [fetch_all_records_db]
    needs the table of records and no other: it returns one row for every
    record, newest id first, with the title, year, condition, price and
    purchase date of the record; the artist is [None] throughout when there
    is no table of artists, the genre when there is no table of genres, the
    store when the link table or the table of stores is missing. *)
Theorem fetch_all_needs_only_records (d : db) (recs : table record) :
  Records d = Some recs ->
  exists l,
    fetch_all_records_db d = Ok l
    /\ Forall2 (fun r v =>
                  v_record_id v = record_id r /\ v_title v = title r
                  /\ v_year v = year r /\ v_condition v = condition r
                  /\ v_price v = price r /\ v_purchase_date v = purchase_date r
                  /\ (Artists d = None -> v_artist v = None)
                  /\ (Genres d = None -> v_genre v = None)
                  /\ (recordStores d = None \/ Stores d = None ->
                      v_store v = None))
         (merge_sort rec_desc (rows recs)) l
    /\ Sorted view_desc l.
Proof.
  intros Hr. unfold fetch_all_records_db. rewrite Hr.
  assert (Hsorted : Sorted rec_desc (merge_sort rec_desc (rows recs))).
  { apply Sorted_merge_sort. intros a b. unfold rec_desc. lia. }
  destruct (Artists d) as [arts|], (Genres d) as [gens|],
    (recordStores d) as [ls|], (Stores d) as [sts|];
    (eexists; split; [reflexivity|]; split;
     [ apply Forall2_fmap_r, Forall_Forall2_diag, Forall_forall;
       intros r _; cbn; repeat split; try done;
       try (by intros [|]); try (by intros [[=]|[=]])
     | apply (Sorted_fmap _ rec_desc view_desc); [by intros x y|done] ]).
Qed.

(** Two records and no other table: both are listed, the newer first,
    without artist, genre and store. *)
Lemma fetch_all_needs_only_records_witness :
  exists l,
    fetch_all_records_db bare_db = Ok l
    /\ v_title <$> l = ["Bitches Brew"; "Kind of Blue"]
    /\ v_record_id <$> l = [2; 1]
    /\ v_year <$> l = [Some 1970; Some 1959]
    /\ Forall (fun v => v_artist v = None /\ v_genre v = None
                        /\ v_store v = None) l.
Proof.
  destruct (fetch_all_needs_only_records bare_db
              (Table [kind_of_blue; bitches_brew] 2) eq_refl)
    as (l & E & Hall & _).
  exists l. split; [exact E|].
  vm_compute in E. injection E as <-.
  repeat split; repeat constructor.
Defined.

(** * The endpoints of artists, genres and stores *)

Lemma sanitize_text_name v n :
  v = JStr n -> PyStr.truthy (PyStr.strip n) = true ->
  sanitize_text v = Ok (Some (PyStr.prefix 255 (PyStr.strip n))).
Proof.
  intros -> Hn. unfold sanitize_text. cbn [truthy].
  assert (Ht : PyStr.truthy n = true) by (destruct n; [by cbv in Hn|done]).
  by rewrite Ht, Hn.
Qed.

(** X14: [api_create_artist] with a name that is not blank answers 201 with
    an id, and the list of artists then holds an artist with that id and the
    name, stripped; when an artist of that name is stored already the id is
    its id and nothing changes, the country of the payload included, and
    otherwise one artist is appended. *)
Theorem create_artist_listed (p : payload) (d : db) (arts : table artist)
    (n : string) :
  Artists d = Some arts -> get p "name" = JStr n ->
  PyStr.truthy (PyStr.strip n) = true ->
  optional_text (get p "country") = true ->
  let nm := PyStr.strip (PyStr.prefix 255 (PyStr.strip n)) in
  exists i d' l a,
    api_create_artist p d = (ArtistId (Some i), d')
    /\ api_get_artists d' = (ArtistList l, d')
    /\ a ∈ l /\ artist_id a = i /\ artist_name a = nm
    /\ match fetchone (fun x => bool_decide (artist_name x = nm)) arts with
       | Some r => i = artist_id r /\ d' = d
       | None =>
           d' = set_Artists
                  (Table (rows arts ++ [Artist i nm (clean (get p "country"))]) i) d
       end.
Proof.
  intros Ha Hn Ht Hc nm.
  pose proof (strip_prefix_truthy 254 n Ht) as Hnm. fold nm in Hnm.
  unfold api_create_artist, conclude, hbind, eval, call, reply, hret.
  cbv beta iota.
  rewrite (sanitize_text_name _ n Hn Ht), (sanitize_text_optional _ Hc).
  destruct (fetchone (fun x => bool_decide (artist_name x = nm)) arts)
    as [r|] eqn:Hr.
  - rewrite (find_or_create_artist_found _ _ _ _ _ Hnm Ha Hr).
    exists (artist_id r), d, (merge_sort artist_asc (rows arts)), r.
    apply fetchone_Some in Hr as [Hin Hname].
    apply bool_decide_eq_true in Hname.
    split; [done|]. split.
    { unfold api_get_artists, conclude, hbind, call, hret, get_artists_db.
      by rewrite Ha. }
    split; [by rewrite merge_sort_Permutation|]. done.
  - rewrite (find_or_create_artist_new _ _ _ _ Hnm Ha Hr). fold nm.
    set (i := next_id artist_id arts).
    set (a := Artist i nm (clean (get p "country"))).
    exists i, (set_Artists (Table (rows arts ++ [a]) i) d),
      (merge_sort artist_asc (rows arts ++ [a])), a.
    split; [done|]. split; [reflexivity|].
    split; [|done]. rewrite merge_sort_Permutation.
    apply elem_of_app. right. left.
Qed.

Lemma create_artist_listed_witness :
  let p : payload := list_to_map [("name", JStr " Miles Davis "); ("country", JStr "US")] in
  let nm := PyStr.strip (PyStr.prefix 255 (PyStr.strip " Miles Davis ")) in
  exists i d' l a,
    api_create_artist p miles_db = (ArtistId (Some i), d')
    /\ api_get_artists d' = (ArtistList l, d')
    /\ a ∈ l /\ artist_id a = i /\ artist_name a = nm
    /\ match fetchone (fun x => bool_decide (artist_name x = nm))
               (Table [Artist 1 "Miles Davis" None] 1) with
       | Some r => i = artist_id r /\ d' = miles_db
       | None =>
           d' = set_Artists
                  (Table ([Artist 1 "Miles Davis" None]
                          ++ [Artist i nm (clean (get p "country"))]) i) miles_db
       end.
Proof.
  intros p nm.
  apply (create_artist_listed p miles_db (Table [Artist 1 "Miles Davis" None] 1)
           " Miles Davis "); reflexivity.
Defined.

Lemma sanitize_text_blank v : blank v -> sanitize_text v = Ok None.
Proof.
  destruct v as [| | | |n| |]; try done. cbn [blank]. intros H.
  unfold sanitize_text. cbn [truthy].
  destruct (PyStr.truthy n); [by rewrite H|reflexivity].
Qed.

Lemma sanitize_text_not_text v : not_text v -> sanitize_text v = Raise AttributeError.
Proof.
  intros [Ht Hs]. unfold sanitize_text. rewrite Ht.
  destruct v; try reflexivity. by destruct (Hs s).
Qed.

(** X15: without a name, or with a blank one, no artist, genre or store is
    created or updated, and the database stays as it is.  The reply is 400
    from [api_create_genre], [api_update_genre] and [api_create_store],
    which look at the name first.  [api_create_artist] and
    [api_update_artist] clean the country, and [api_update_store] the state
    and the address, before they look at the name: their reply is 400 when
    these are text or missing, and 500 when one of them is there and is not
    text. *)
Theorem entity_needs_name (i : Z) (p : payload) (d : db) :
  blank (get p "name") ->
  api_create_genre p d = (Plain (bad_request "name required"), d)
  /\ api_update_genre i p d = (bad_request "name required", d)
  /\ api_create_store p d = (Plain (bad_request "name required"), d)
  /\ (optional_text (get p "country") = true ->
      api_create_artist p d = (Plain (bad_request "name required"), d)
      /\ api_update_artist i p d = (bad_request "name required", d))
  /\ (not_text (get p "country") ->
      api_create_artist p d = (Plain (internal_error AttributeError), d)
      /\ api_update_artist i p d = (internal_error AttributeError, d))
  /\ (optional_text (get p "state") = true ->
      optional_text (get p "address") = true ->
      api_update_store i p d = (bad_request "name required", d))
  /\ (not_text (get p "state")
      \/ optional_text (get p "state") = true /\ not_text (get p "address") ->
      api_update_store i p d = (internal_error AttributeError, d)).
Proof.
  intros Hn%sanitize_text_blank.
  unfold api_create_artist, api_create_genre, api_create_store,
    api_update_artist, api_update_genre, api_update_store,
    conclude, run, hbind, eval, call, reply, hret.
  cbv beta iota. rewrite Hn.
  split; [done|]. split; [done|]. split; [done|]. split; [|split; [|split]].
  - intros Hc. by rewrite (sanitize_text_optional _ Hc).
  - intros Hc. by rewrite (sanitize_text_not_text _ Hc).
  - intros Hs Ha.
    by rewrite (sanitize_text_optional _ Hs), (sanitize_text_optional _ Ha).
  - intros [Hs|[Hs Ha]].
    + by rewrite (sanitize_text_not_text _ Hs).
    + by rewrite (sanitize_text_optional _ Hs), (sanitize_text_not_text _ Ha).
Qed.

(** A blank name with the number 5 for a country: the genre and the store
    endpoints answer 400, the artist endpoints 500. *)
Lemma entity_needs_name_witness :
  let p : payload := list_to_map [("name", JStr "   "); ("country", JInt 5)] in
  api_create_genre p shelf_db = (Plain (bad_request "name required"), shelf_db)
  /\ api_update_genre 1 p shelf_db = (bad_request "name required", shelf_db)
  /\ api_create_store p shelf_db = (Plain (bad_request "name required"), shelf_db)
  /\ api_update_store 1 p shelf_db = (bad_request "name required", shelf_db)
  /\ api_create_artist p shelf_db = (Plain (internal_error AttributeError), shelf_db)
  /\ api_update_artist 1 p shelf_db = (internal_error AttributeError, shelf_db).
Proof.
  intros p.
  destruct (entity_needs_name 1 p shelf_db) as (Hg & Hug & Hs & _ & Ha & Hus & _);
    [reflexivity|].
  split; [exact Hg|]. split; [exact Hug|]. split; [exact Hs|].
  split; [by apply Hus|].
  apply Ha. split; [reflexivity|]. by intros s.
Defined.

Lemma update_keeps_names aid nm c (l : list artist) :
  NoDup (artist_id <$> l) -> NoDup (artist_name <$> l) ->
  (forall y, y ∈ l -> artist_id y <> aid -> artist_name y <> nm) ->
  NoDup (artist_name <$> (update_artist_row aid nm c <$> l)).
Proof.
  induction l as [|x l IH]; [constructor|].
  rewrite !fmap_cons, !NoDup_cons. intros [Hix Hil] [Hnx Hnl] Hother.
  split.
  - rewrite <- list_fmap_compose.
    intros (y & Hxy & Hy)%list_elem_of_fmap. cbn in Hxy.
    assert (Hyo : artist_id y <> aid -> artist_name y <> nm)
      by (apply Hother; by right).
    unfold update_artist_row in Hxy.
    destruct (Z.eqb_spec (artist_id x) aid) as [Hx|Hx];
      destruct (Z.eqb_spec (artist_id y) aid) as [Hy'|Hy']; cbn in Hxy.
    + apply Hix. apply list_elem_of_fmap. exists y. split; [congruence|done].
    + by apply Hyo.
    + apply (Hother x); [left|done|done].
    + apply Hnx. apply list_elem_of_fmap. eauto.
  - apply IH; [done|done|]. intros y Hy. apply Hother. by right.
Qed.

(** X16: for an id that SQLite can bind, [api_update_artist] keeps the names
    of artists apart: when the artist exists and another artist has the
    name already, the reply is 500 and nothing changes; otherwise the reply
    is 204, the artist has the name and the country of the payload (no
    country when the payload has none), every other artist is as before and
    no two artists have one name. *)
Theorem update_artist_unique (aid : Z) (p : payload) (d : db)
    (arts : table artist) (n : string) :
  sqlite_int aid ->
  Artists d = Some arts -> get p "name" = JStr n ->
  PyStr.truthy (PyStr.strip n) = true ->
  optional_text (get p "country") = true ->
  NoDup (artist_id <$> rows arts) -> NoDup (artist_name <$> rows arts) ->
  let nm := PyStr.prefix 255 (PyStr.strip n) in
  let clash :=
    (exists x, x ∈ rows arts /\ artist_id x = aid)
    /\ (exists y, y ∈ rows arts /\ artist_id y <> aid /\ artist_name y = nm) in
  (clash ->
   api_update_artist aid p d
   = (internal_error (IntegrityError "UNIQUE constraint failed: Artists.name"), d))
  /\ (~ clash ->
      exists arts',
        api_update_artist aid p d = (Response 204 Empty, set_Artists arts' d)
        /\ artist_id <$> rows arts' = artist_id <$> rows arts
        /\ NoDup (artist_name <$> rows arts')
        /\ Forall (fun a => artist_id a = aid ->
                            artist_name a = nm
                            /\ artist_country a = spec_text (get p "country"))
             (rows arts')
        /\ Forall2 (fun a a' => artist_id a <> aid -> a' = a)
             (rows arts) (rows arts')).
Proof.
  intros _ Ha Hn Ht Hc Hids Hnames nm clash.
  rewrite <- (clean_spec_text _ Hc).
  unfold api_update_artist, run, hbind, eval, call, reply, hret.
  cbv beta iota.
  rewrite (sanitize_text_name _ n Hn Ht), (sanitize_text_optional _ Hc).
  fold nm. rewrite Ha. cbn [the_table rbind]. unfold update_artists.
  set (e1 := existsb (fun a => artist_id a =? aid) (rows arts)).
  set (e2 := existsb (fun a => negb (artist_id a =? aid)
                               && bool_decide (artist_name a = nm)) (rows arts)).
  assert (H1 : e1 = true <-> exists x, x ∈ rows arts /\ artist_id x = aid).
  { unfold e1. rewrite existsb_exists. setoid_rewrite <- list_elem_of_In.
    by setoid_rewrite Z.eqb_eq. }
  assert (H2 : e2 = true <->
               exists y, y ∈ rows arts /\ artist_id y <> aid /\ artist_name y = nm).
  { unfold e2. rewrite existsb_exists. setoid_rewrite <- list_elem_of_In.
    setoid_rewrite andb_true_iff. setoid_rewrite negb_true_iff.
    setoid_rewrite Z.eqb_neq. by setoid_rewrite bool_decide_eq_true. }
  split.
  - intros [Hx Hy]. apply H1 in Hx. apply H2 in Hy. by rewrite Hx, Hy.
  - intros Hno.
    assert (He : e1 && e2 = false).
    { destruct e1 eqn:E1, e2 eqn:E2; try done. exfalso. apply Hno.
      split; [by apply H1|by apply H2]. }
    rewrite He. cbn [rbind commit].
    eexists. split; [reflexivity|]. cbn [rows].
    split; [|split; [|split]].
    + rewrite <- list_fmap_compose. apply list_fmap_ext. intros i x _. cbn.
      unfold update_artist_row. by destruct (artist_id x =? aid).
    + destruct e1 eqn:E1.
      * apply update_keeps_names; [done|done|].
        intros y Hy Hne Hnm. cbn in He.
        assert (e2 = true); [|congruence]. apply H2. eauto.
      * assert (Hid : update_artist_row aid nm (clean (get p "country"))
                      <$> rows arts = rows arts).
        { rewrite <- (list_fmap_id (rows arts)) at 2.
          apply list_fmap_ext. intros i x Hx. unfold update_artist_row.
          destruct (Z.eqb_spec (artist_id x) aid) as [Heq|]; [|done].
          assert (false = true); [|done].
          apply H1. exists x. split; [|done]. by eapply list_elem_of_lookup_2. }
        by rewrite Hid.
    + apply Forall_fmap, Forall_forall. intros x _. cbn. unfold update_artist_row.
      destruct (Z.eqb_spec (artist_id x) aid); cbn; done.
    + apply Forall2_fmap_r, Forall_Forall2_diag, Forall_forall.
      intros x _ Hne. unfold update_artist_row.
      by rewrite (proj2 (Z.eqb_neq _ _) Hne).
Qed.

(** Of two artists, the second cannot take the name of the first, and can
    take a name that no artist has. *)
Lemma update_artist_unique_witness :
  let taken : payload := list_to_map [("name", JStr "Miles Davis")] in
  let free : payload := list_to_map [("name", JStr " Alice Coltrane ")] in
  api_update_artist 2 taken two_artists_db
  = (internal_error (IntegrityError "UNIQUE constraint failed: Artists.name"),
     two_artists_db)
  /\ exists arts',
       api_update_artist 2 free two_artists_db
       = (Response 204 Empty, set_Artists arts' two_artists_db)
       /\ artist_name <$> rows arts' = ["Miles Davis"; "Alice Coltrane"].
Proof.
  intros taken free.
  assert (Hids : NoDup (artist_id <$> [Artist 1 "Miles Davis" None;
                                       Artist 2 "John Coltrane" (Some "US")]))
    by (cbn; repeat constructor; set_solver).
  assert (Hnames : NoDup (artist_name <$> [Artist 1 "Miles Davis" None;
                                           Artist 2 "John Coltrane" (Some "US")]))
    by (cbn; repeat constructor; set_solver).
  split.
  - apply (update_artist_unique 2 taken two_artists_db
             (Table [Artist 1 "Miles Davis" None;
                     Artist 2 "John Coltrane" (Some "US")] 2) "Miles Davis");
      try reflexivity; try done; try (unfold sqlite_int; lia).
    split.
    + exists (Artist 2 "John Coltrane" (Some "US")). split; [set_solver|done].
    + exists (Artist 1 "Miles Davis" None). split; [set_solver|done].
  - destruct (update_artist_unique 2 free two_artists_db
                (Table [Artist 1 "Miles Davis" None;
                        Artist 2 "John Coltrane" (Some "US")] 2)
                " Alice Coltrane ") as [_ Hfree];
      try reflexivity; try done; try (unfold sqlite_int; lia).
    destruct Hfree as (arts' & E & _).
    { intros [_ (y & Hy & _ & Hname)]. cbn in Hy.
      apply elem_of_cons in Hy as [->|Hy]; [by vm_compute in Hname|].
      apply list_elem_of_singleton in Hy as ->. by vm_compute in Hname. }
    exists arts'. split; [exact E|].
    vm_compute in E. injection E as <-. reflexivity.
Defined.

(** X17: [find_or_create_store] tells stores of one name apart by their
    address only when an address is given: a name that no store has, given
    with two different addresses, makes two stores; the same name given
    without an address then finds the first of them and inserts nothing. *)
Theorem store_found_by_address (n : string) (st1 st2 st3 a1 a2 a3 : option string)
    (d : db) (t : table store) :
  PyStr.truthy (PyStr.strip n) = true -> Stores d = Some t ->
  (forall x, x ∈ rows t -> store_name x <> PyStr.strip n) ->
  truthy_opt a1 = true -> truthy_opt a2 = true -> a1 <> a2 ->
  truthy_opt a3 = false ->
  exists i1 i2 d1 d2 t2,
    find_or_create_store (Some n) st1 a1 d = (Ok (Some i1), d1)
    /\ find_or_create_store (Some n) st2 a2 d1 = (Ok (Some i2), d2)
    /\ i1 < i2
    /\ Stores d2 = Some t2
    /\ rows t2 = rows t ++ [Store i1 (PyStr.strip n) st1 a1;
                            Store i2 (PyStr.strip n) st2 a2]
    /\ find_or_create_store (Some n) st3 a3 d2 = (Ok (Some i1), d2).
Proof.
  intros Hn Ht Hfresh H1 H2 Hne H3.
  set (nm := PyStr.strip n) in *.
  set (i1 := next_id store_id t).
  set (s1 := Store i1 nm st1 a1).
  set (t1 := Table (rows t ++ [s1]) i1).
  set (i2 := next_id store_id t1).
  set (s2 := Store i2 nm st2 a2).
  set (t2 := Table (rows t1 ++ [s2]) i2).
  assert (Hold : forall a x, x ∈ rows t -> store_matches nm a x = false).
  { intros a x Hx. unfold store_matches.
    rewrite (bool_decide_false (store_name x = nm)) by by apply Hfresh.
    by destruct (truthy_opt a). }
  exists i1, i2, (set_Stores t1 d), (set_Stores t2 (set_Stores t1 d)), t2.
  split.
  { rewrite (find_or_create_store_eq n st1 a1 d t Hn Ht). fold nm.
    by rewrite (proj2 (fetchone_None (store_matches nm a1) t) (Hold a1)). }
  split.
  { rewrite (find_or_create_store_eq n st2 a2 (set_Stores t1 d) t1 Hn eq_refl).
    fold nm.
    rewrite (proj2 (fetchone_None (store_matches nm a2) t1)); [done|].
    intros x [Hx| ->%list_elem_of_singleton]%elem_of_app; [by apply Hold|].
    unfold store_matches. rewrite H2. cbn.
    rewrite (bool_decide_false (a1 = a2)) by done. apply andb_false_r. }
  split.
  { pose proof (next_id_above_seq store_id t1). cbn in H. fold i2 in H. lia. }
  split; [done|]. split.
  { cbn. by rewrite <- app_assoc. }
  rewrite (find_or_create_store_eq n st3 a3 (set_Stores t2 (set_Stores t1 d)) t2
             Hn eq_refl). fold nm.
  assert (Hfind : fetchone (store_matches nm a3) t2 = Some s1).
  { unfold fetchone. cbn [rows t2 t1]. rewrite !find_app.
    pose proof (proj2 (fetchone_None (store_matches nm a3) t) (Hold a3)) as E.
    unfold fetchone in E. rewrite E. cbn. unfold store_matches. rewrite H3. cbn.
    by rewrite bool_decide_true. }
  by rewrite Hfind.
Qed.

Lemma store_found_by_address_witness :
  exists i1 i2 d1 d2 t2,
    find_or_create_store (Some "Vinyl Corner") None (Some "1 Main St") blank_db
    = (Ok (Some i1), d1)
    /\ find_or_create_store (Some "Vinyl Corner") None (Some "2 High St") d1
       = (Ok (Some i2), d2)
    /\ i1 < i2
    /\ Stores d2 = Some t2
    /\ rows t2 = [] ++ [Store i1 (PyStr.strip "Vinyl Corner") None (Some "1 Main St");
                        Store i2 (PyStr.strip "Vinyl Corner") None (Some "2 High St")]
    /\ find_or_create_store (Some "Vinyl Corner") None None d2 = (Ok (Some i1), d2).
Proof.
  apply (store_found_by_address "Vinyl Corner" None None None
           (Some "1 Main St") (Some "2 High St") None blank_db (Table [] 0));
    try reflexivity; try done.
  intros x Hx. inversion Hx.
Defined.

(** * A record added and deleted again *)

Lemma delete_record_db_ok rid d :
  is_Some (Records d) -> is_Some (recordStores d) -> is_Some (Artists d) ->
  exists d1, delete_record_db rid d = (Ok tt, d1).
Proof.
  intros [recs Hr] [ls Hl] [arts Ha]. unfold delete_record_db.
  rewrite Hr, Hl. cbn [the_table].
  destruct (truthy_id _) as [aid|]; [|eauto].
  destruct (_ =? 0); [|eauto].
  cbn [Artists set_Records set_recordStores]. rewrite Ha. cbn [the_table]. eauto.
Qed.

Lemma add_record_db_links data d rid d' ls :
  add_record_db data d = (Ok rid, d') -> recordStores d = Some ls ->
  exists ls', recordStores d' = Some ls'
              /\ unlink_record rid ls' = unlink_record rid ls.
Proof.
  intros Eadd Hl.
  destruct (add_record_db_cases data d) as [[e E]|H]; [congruence|].
  destruct H as (t & y & q & recs & d1 & _ & _ & _ & _ & E & _ & _ & _ & _ & Hls).
  rewrite Eadd in E. injection E as -> ->.
  destruct Hls as [Hls|(ls0 & s & Hl0 & _ & _ & Hls)].
  - exists ls. by rewrite Hls.
  - rewrite Hl in Hl0. injection Hl0 as <-.
    eexists. split; [exact Hls|]. unfold insert_or_ignore.
    destruct (bool_decide _); [done|].
    rewrite unlink_record_app. cbn. rewrite Z.eqb_refl. cbn. apply app_nil_r.
Qed.

Section RoundTrip.
Variable int_of_str : string -> option Z.
Variable float_of_str : string -> option Qc.

(** X18: a record added through [api_add_record] and deleted through
    [api_delete_record] leaves the rows of the records as they were, and the
    links as they were without those of the id; the id is not given again:
    the next record gets a larger one.  The price of the payload is a
    number that [float] takes over as it is, and its store id nothing or an
    integer that SQLite can bind. *)
Theorem add_then_delete (p : payload) (d : db) (t : string) (y : Z) (q : Qc)
    (sid : option Z) arts gens recs ls :
  valid_payload p t y q -> exact_number (get p "price") ->
  id_field (get p "store_id") sid ->
  Artists d = Some arts -> Genres d = Some gens -> Records d = Some recs ->
  recordStores d = Some ls ->
  exists rid d1 d2 recs2 ls2,
    api_add_record int_of_str float_of_str p d = (Response 201 (RecordId rid), d1)
    /\ api_delete_record rid d1 = (Response 204 Empty, d2)
    /\ Records d2 = Some recs2
    /\ rows recs2 = rows recs
    /\ rid < next_id record_id recs2
    /\ recordStores d2 = Some ls2
    /\ (forall l, l ∈ ls2 <-> l ∈ ls /\ fst l <> rid)
    /\ Genres d2 = Genres d1 /\ Stores d2 = Stores d.
Proof.
  intros Hv _ _ Ha Hg Hr Hl.
  destruct (record_form_valid int_of_str float_of_str p d t y q arts gens Hv Ha Hg)
    as (aid & gid & arts' & gens' & Ef & _ & _).
  destruct Hv as (_ & _ & _ & Hyr & _ & Hq0 & _).
  set (d2 := set_Genres gens' (set_Artists arts' d)) in *.
  set (data := RecordData _ _ _ _ _ _ _ _) in Ef.
  destruct (add_record_db_ok data d2 _ y q recs ls eq_refl eq_refl Hyr eq_refl
              Hq0 Hr Hl) as (ls' & Eadd).
  set (rid := next_id record_id recs) in *.
  set (new := Record_ rid _ _ _ _ _ _ _) in Eadd.
  set (recs' := Table (rows recs ++ [new]) rid) in Eadd.
  set (d1 := set_recordStores ls' (set_Records recs' d2)) in *.
  destruct (add_record_db_links data d2 rid d1 ls Eadd Hl) as (ls1 & Hl1 & Hun).
  destruct (delete_record_db_ok rid d1) as [d3 Edel]; [by eexists..|].
  destruct (delete_record_db_returns rid d1 d3 Edel)
    as (recs0 & ls0 & Hr0 & Hl0 & Hr3 & Hl3 & Hg3 & Hs3 & _).
  cbn in Hr0. injection Hr0 as <-.
  rewrite Hl1 in Hl0. injection Hl0 as <-.
  exists rid, d1, d3, (delete_where (fun r => record_id r =? rid) recs'),
    (unlink_record rid ls1).
  split.
  { unfold api_add_record, run, hbind, call, hret. by rewrite Ef, Eadd. }
  split.
  { unfold api_delete_record, run, hbind, call, hret. by rewrite Edel. }
  split; [done|].
  assert (Hrows : rows (delete_where (fun r => record_id r =? rid) recs')
                  = rows recs).
  { cbn. rewrite List.filter_app. cbn. rewrite Z.eqb_refl. cbn.
    rewrite app_nil_r. apply filter_all. intros r Hin.
    pose proof (next_id_fresh record_id recs r Hin) as Hlt. fold rid in Hlt.
    apply negb_true_iff, Z.eqb_neq. lia. }
  split; [done|]. split.
  { apply (next_id_above_seq record_id
             (delete_where (fun r => record_id r =? rid) recs')). }
  split; [done|]. split; [|by rewrite Hs3].
  intros l. rewrite Hun. apply elem_of_unlink_record.
Qed.

End RoundTrip.

(** A third record on the shelf, linked to store 2, and gone again: the two
    records and the two links of the shelf are what is left, and the next
    id is above 3. *)
Lemma add_then_delete_witness :
  exists d1 d2 recs2 ls2,
    api_add_record no_number no_number kind_of_blue_payload shelf_db
    = (Response 201 (RecordId 3), d1)
    /\ recordStores d1 = Some [(1, 1); (1, 2); (3, 2)]
    /\ api_delete_record 3 d1 = (Response 204 Empty, d2)
    /\ Records d2 = Some recs2
    /\ rows recs2 = [kind_of_blue; bitches_brew]
    /\ 3 < next_id record_id recs2
    /\ recordStores d2 = Some ls2
    /\ (forall l, l ∈ ls2 <-> l ∈ [(1, 1); (1, 2)]).
Proof.
  destruct (add_then_delete no_number no_number kind_of_blue_payload shelf_db
              "Kind of Blue" 1959 (Qc_of_Z 25) (Some 2)
              (Table [Artist 1 "Miles Davis" None] 1) (Table [] 0)
              (Table [kind_of_blue; bitches_brew] 2) [(1, 1); (1, 2)])
    as (rid & d1 & d2 & recs2 & ls2 & Eadd & Edel & Hr & Hrows & Hnext & Hl
        & Hls & _); try reflexivity.
  - apply kind_of_blue_payload_valid.
  - by vm_compute.
  - split; [lia|reflexivity].
  - assert (Hrid : rid = 3 /\ recordStores d1 = Some [(1, 1); (1, 2); (3, 2)]).
    { vm_compute in Eadd. injection Eadd as <- <-. split; reflexivity. }
    destruct Hrid as [-> Hl1].
    exists d1, d2, recs2, ls2. repeat split; try done.
    + intros [Hin _]%Hls. exact Hin.
    + intros Hin. apply Hls. split; [done|]. cbn in Hin. set_solver.
Defined.

(** * A rejected payload *)

Lemma add_record_rejected_witness :
  exists r d', api_add_record no_number no_number (year_payload 1799) blank_db
               = (r, d')
               /\ (status r = 400 \/ status r = 500)
               /\ Records d' = Records blank_db /\ Stores d' = Stores blank_db
               /\ recordStores d' = recordStores blank_db.
Proof.
  apply (add_record_rejected no_number no_number (year_payload 1799) blank_db).
  left. reflexivity.
Defined.

(** * The bounds of the integer parser *)

Section Bounds.
Variable int_of_str : string -> option Z.

(** X22: what [parse_int] returns is the integer that [int] makes of the
    value; the value is not [None]; and the integer is not below the lower
    bound and not above the upper bound, where one is given, whatever the
    interpreter makes of text. *)
Theorem parse_within_bounds (v : json) (lo hi : option Z) (i : Z) :
  parse_int int_of_str v lo hi = Some i ->
  v <> JNull /\ py_int int_of_str v = Some i
  /\ (forall m, lo = Some m -> m ≤ i)
  /\ (forall m, hi = Some m -> i ≤ m).
Proof.
  intros H.
  assert (Hv : v <> JNull) by (by intros ->).
  assert (E : parse_int int_of_str v lo hi
              = (j ← py_int int_of_str v;
                 if match lo with Some m => j <? m | None => false end
                 then None
                 else if match hi with Some m => j >? m | None => false end
                      then None else Some j))
    by (by destruct v).
  rewrite E in H. destruct (py_int int_of_str v) as [j|]; [|done].
  cbn [mbind option_bind] in H.
  destruct lo as [l|], hi as [h|];
    repeat match type of H with
      | context [?a <? ?b] => destruct (Z.ltb_spec a b); [done|]
      | context [?a >? ?b] => destruct (Z.gtb_spec a b); [done|]
      end;
    injection H as <-; repeat split; try done; intros m [= <-]; lia.
Qed.

End Bounds.

(** The text of a year, read by an interpreter that knows this one text. *)
Lemma parse_within_bounds_witness :
  let int_of := fun s : string => if String.eqb s "1959" then Some 1959 else None in
  JStr "1959" <> JNull /\ py_int int_of (JStr "1959") = Some 1959
  /\ (forall m, Some 1800 = Some m -> m ≤ 1959)
  /\ (forall m, Some 2100 = Some m -> 1959 ≤ m).
Proof.
  intros int_of.
  apply (parse_within_bounds int_of (JStr "1959") (Some 1800) (Some 2100) 1959).
  reflexivity.
Defined.

(** * Updates of an artist, genre or store that is not stored *)

Lemma set_Stores_same d t : Stores d = Some t -> set_Stores t d = d.
Proof. destruct d. cbn. by intros ->. Qed.

Lemma existsb_none {A} (f : A -> bool) (l : list A) :
  (forall x, x ∈ l -> f x = false) -> existsb f l = false.
Proof.
  intros H. destruct (existsb f l) eqn:E; [|done].
  apply existsb_exists in E as (x & Hin%list_elem_of_In & Hx).
  by rewrite (H x Hin) in Hx.
Qed.

Lemma fmap_unchanged {A} (f : A -> A) (l : list A) :
  (forall x, x ∈ l -> f x = x) -> f <$> l = l.
Proof.
  intros H. rewrite <- (list_fmap_id l) at 2. apply list_fmap_ext.
  intros i x Hx. apply H. by eapply list_elem_of_lookup_2.
Qed.

(** X23: for an id that SQLite can bind, [api_update_artist],
    [api_update_genre] and [api_update_store] answer 204 also when no row
    has the id, and the database is then as before: an update of what is
    not stored is not reported. *)
Theorem update_missing_entity (i : Z) (p : payload) (d : db)
    (arts : table artist) (gens : table genre) (sts : table store) (n : string) :
  sqlite_int i ->
  Artists d = Some arts -> Genres d = Some gens -> Stores d = Some sts ->
  get p "name" = JStr n -> PyStr.truthy (PyStr.strip n) = true ->
  optional_text (get p "country") = true ->
  optional_text (get p "state") = true ->
  optional_text (get p "address") = true ->
  (forall a, a ∈ rows arts -> artist_id a <> i) ->
  (forall g, g ∈ rows gens -> genre_id g <> i) ->
  (forall s, s ∈ rows sts -> store_id s <> i) ->
  api_update_artist i p d = (Response 204 Empty, d)
  /\ api_update_genre i p d = (Response 204 Empty, d)
  /\ api_update_store i p d = (Response 204 Empty, d).
Proof.
  intros _ Ha Hg Hs Hn Ht Hc Hst Had Hna Hng Hns.
  split; [|split].
  - unfold api_update_artist, run, hbind, eval, call, reply, hret.
    cbv beta iota.
    rewrite (sanitize_text_name _ n Hn Ht), (sanitize_text_optional _ Hc), Ha.
    cbn [the_table rbind]. unfold update_artists.
    rewrite (existsb_none (fun a => artist_id a =? i) (rows arts))
      by (intros a Hin; apply Z.eqb_neq; auto).
    cbn [andb rbind commit]. rewrite fmap_unchanged.
    + destruct arts. cbn. by rewrite (set_Artists_same d _ Ha).
    + intros a Hin. unfold update_artist_row.
      by rewrite (proj2 (Z.eqb_neq _ _) (Hna a Hin)).
  - unfold api_update_genre, run, hbind, eval, call, reply, hret.
    cbv beta iota.
    rewrite (sanitize_text_name _ n Hn Ht), Hg.
    cbn [the_table rbind]. unfold update_genres.
    rewrite (existsb_none (fun g => genre_id g =? i) (rows gens))
      by (intros g Hin; apply Z.eqb_neq; auto).
    cbn [andb rbind commit]. rewrite fmap_unchanged.
    + destruct gens. cbn. by rewrite (set_Genres_same d _ Hg).
    + intros g Hin. unfold update_genre_row.
      by rewrite (proj2 (Z.eqb_neq _ _) (Hng g Hin)).
  - unfold api_update_store, run, hbind, eval, call, reply, hret.
    cbv beta iota.
    rewrite (sanitize_text_name _ n Hn Ht), (sanitize_text_optional _ Hst),
      (sanitize_text_optional _ Had), Hs.
    cbn [the_table rbind commit]. rewrite fmap_unchanged.
    + destruct sts. cbn. by rewrite (set_Stores_same d _ Hs).
    + intros s Hin. unfold update_store_row.
      by rewrite (proj2 (Z.eqb_neq _ _) (Hns s Hin)).
Qed.

Lemma update_missing_entity_witness :
  let p : payload := list_to_map [("name", JStr "Blue Note")] in
  api_update_artist 7 p shelf_db = (Response 204 Empty, shelf_db)
  /\ api_update_genre 7 p shelf_db = (Response 204 Empty, shelf_db)
  /\ api_update_store 7 p shelf_db = (Response 204 Empty, shelf_db).
Proof.
  intros p.
  apply (update_missing_entity 7 p shelf_db
           (Table [Artist 1 "Miles Davis" None] 1) (Table [] 0) two_stores
           "Blue Note"); try reflexivity.
  - unfold sqlite_int. lia.
  - intros a ->%list_elem_of_singleton. done.
  - intros g Hg. inversion Hg.
  - intros s Hs. cbn in Hs. set_solver.
Defined.

(** * Deleting an artist or a genre *)

Lemma Zeqb_opt_true o z : Zeqb_opt o z = true <-> o = Some z.
Proof.
  destruct o as [x|]; cbn; [|done]. rewrite Z.eqb_eq.
  split; [by intros ->|by intros [= ->]].
Qed.

Lemma Zeqb_opt_false o z : Zeqb_opt o z = false <-> o <> Some z.
Proof.
  rewrite <- Zeqb_opt_true. by destruct (Zeqb_opt o z).
Qed.

(** X24: for an id that SQLite can bind, [api_delete_artist] refuses with
    400 and changes nothing when a record names the artist; when none does
    it answers 204, the artist is gone and the other artists and their
    order are as before. *)
Theorem delete_artist_outcome (aid : Z) (d : db) (recs : table record)
    (arts : table artist) :
  sqlite_int aid ->
  Records d = Some recs -> Artists d = Some arts ->
  ((exists r, r ∈ rows recs /\ rec_artist_id r = Some aid) ->
   api_delete_artist aid d
   = (bad_request "artist has records, cannot delete", d))
  /\ ((forall r, r ∈ rows recs -> rec_artist_id r <> Some aid) ->
      exists arts',
        api_delete_artist aid d = (Response 204 Empty, set_Artists arts' d)
        /\ rows arts'
           = List.filter (fun a => negb (artist_id a =? aid)) (rows arts)
        /\ (forall a, a ∈ rows arts' <-> a ∈ rows arts /\ artist_id a <> aid)).
Proof.
  intros _ Hr Ha. unfold api_delete_artist. rewrite Hr, Ha. cbn [the_table].
  split.
  - intros (r & Hin & Hra).
    assert (H : 0 < count_where (fun x => Zeqb_opt (rec_artist_id x) aid) recs).
    { apply (count_where_pos _ _ r); [done|]. by apply Zeqb_opt_true. }
    destruct (Z.gtb_spec (count_where (fun x => Zeqb_opt (rec_artist_id x) aid)
                            recs) 0); [done|lia].
  - intros Hnone.
    rewrite count_where_zero by (intros r Hin; apply Zeqb_opt_false; auto).
    cbn. eexists. split; [reflexivity|]. split; [done|].
    intros a. rewrite elem_of_delete_where. by rewrite Z.eqb_neq.
Qed.

(** The artist of the shelf has records and stays; the second of two
    artists without records goes. *)
Lemma delete_artist_outcome_witness :
  api_delete_artist 1 shelf_db
  = (bad_request "artist has records, cannot delete", shelf_db)
  /\ exists arts',
       api_delete_artist 2 two_artists_db
       = (Response 204 Empty, set_Artists arts' two_artists_db)
       /\ rows arts' = [Artist 1 "Miles Davis" None].
Proof.
  split.
  - destruct (delete_artist_outcome 1 shelf_db
                (Table [kind_of_blue; bitches_brew] 2)
                (Table [Artist 1 "Miles Davis" None] 1))
      as [Hused _]; [unfold sqlite_int; lia|reflexivity|reflexivity|].
    apply Hused. exists kind_of_blue. split; [left|reflexivity].
  - destruct (delete_artist_outcome 2 two_artists_db (Table [] 0)
                (Table [Artist 1 "Miles Davis" None;
                        Artist 2 "John Coltrane" (Some "US")] 2))
      as [_ Hfree]; [unfold sqlite_int; lia|reflexivity|reflexivity|].
    destruct Hfree as (arts' & E & Hrows & _).
    { intros r Hr. inversion Hr. }
    exists arts'. split; [exact E|]. rewrite Hrows. reflexivity.
Defined.

(** X25: for an id that SQLite can bind, [api_delete_genre] of a genre that
    no record names answers 204; the genre is gone, the other genres and
    their order are as before, and so are the other tables. *)
Theorem delete_genre_unused (gid : Z) (d : db) (recs : table record)
    (gens : table genre) :
  sqlite_int gid ->
  Records d = Some recs -> Genres d = Some gens ->
  (forall r, r ∈ rows recs -> rec_genre_id r <> Some gid) ->
  exists d' gens',
    api_delete_genre gid d = (Response 204 Empty, d')
    /\ Genres d' = Some gens'
    /\ rows gens' = List.filter (fun g => negb (genre_id g =? gid)) (rows gens)
    /\ (forall g, g ∈ rows gens' <-> g ∈ rows gens /\ genre_id g <> gid)
    /\ Records d' = Records d /\ Artists d' = Artists d
    /\ Stores d' = Stores d /\ recordStores d' = recordStores d.
Proof.
  intros _ Hr Hg Hnone. unfold api_delete_genre. rewrite Hr, Hg. cbn [the_table].
  rewrite count_where_zero by (intros r Hin; apply Zeqb_opt_false; auto).
  cbn. eexists _, _. split; [reflexivity|]. split; [reflexivity|].
  split; [done|]. split; [|done].
  intros g. rewrite elem_of_delete_where. by rewrite Z.eqb_neq.
Qed.

(** Of the genres Jazz, which a record names, and Rock, which none does,
    Rock is deleted and Jazz is left. *)
Lemma delete_genre_unused_witness :
  exists d' gens',
    api_delete_genre 2 two_genres_db = (Response 204 Empty, d')
    /\ Genres two_genres_db = Some (Table [jazz; rock] 2)
    /\ Genres d' = Some gens' /\ rows gens' = [jazz]
    /\ Records d' = Records two_genres_db.
Proof.
  destruct (delete_genre_unused 2 two_genres_db (Table [jazz_record] 1)
              (Table [jazz; rock] 2))
    as (d' & gens' & E & Hg & Hrows & _ & Hr & _);
    [unfold sqlite_int; lia|reflexivity|reflexivity| |].
  - intros r ->%list_elem_of_singleton. done.
  - exists d', gens'. repeat split; done.
Defined.

(** * The filters of a report *)

Lemma strptime_ok_truthy s : Strptime.strptime_ok s = true -> PyStr.truthy s = true.
Proof. by destruct s. Qed.

Lemma date_field_optional v : date_field v -> optional_text v = true.
Proof. by destruct v. Qed.

Lemma filter_nil_iff {A} (f : A -> bool) (l : list A) :
  List.filter f l = [] <-> forall x, x ∈ l -> f x = false.
Proof.
  split; [|apply filter_none].
  intros H x Hx. destruct (f x) eqn:E; [|done].
  assert (Hin : x ∈ List.filter f l) by by apply elem_of_List_filter.
  rewrite H in Hin. inversion Hin.
Qed.

(** The rows that the join gives for a record. *)
Lemma elem_of_join_links ls r (x : from_row) :
  x ∈ join_links ls r <-> fst x = r /\ link_joined ls r (snd x).
Proof.
  assert (Hm : forall l, l ∈ links_of (record_id r) ls
                         <-> l ∈ ls /\ fst l = record_id r).
  { intros l. unfold links_of. rewrite elem_of_List_filter. by rewrite Z.eqb_eq. }
  unfold join_links. revert Hm.
  destruct (links_of (record_id r) ls) as [|l0 m]; intros Hm.
  - rewrite list_elem_of_singleton. split.
    + intros ->. split; [done|]. cbn. intros l Hl Hfst.
      by apply (not_elem_of_nil l), Hm.
    + destruct x as [r' [l|]]; cbn; intros [-> H]; [|done].
      exfalso. by apply (not_elem_of_nil l), Hm.
  - rewrite list_elem_of_fmap. split.
    + intros (l & -> & Hin%Hm). done.
    + destruct x as [r' [l|]]; cbn; intros [-> H].
      * exists l. split; [done|]. by apply Hm.
      * destruct (proj1 (Hm l0)) as [Hin Hfst]; [left|]. by destruct (H l0 Hin).
Qed.

Lemma holds_from (sd : option string) (x : from_row) :
  (forall t, sd = Some t -> PyStr.truthy t = true) ->
  where_holds match sd with
              | Some t => opt_list (PyStr.truthy t) (DateGe t)
              | None => []
              end x = true
  <-> forall t, sd = Some t ->
        exists dt, purchase_date (fst x) = Some dt /\ PyStr.leb t dt = true.
Proof.
  intros Ht. destruct sd as [t|]; [|by split].
  rewrite (Ht t eq_refl). unfold where_holds. cbn.
  destruct (purchase_date (fst x)) as [dt|]; rewrite andb_true_r; split.
  - intros H t' [= <-]. eauto.
  - intros H. by destruct (H t eq_refl) as (dt' & [= <-] & Hle).
  - done.
  - intros H. by destruct (H t eq_refl) as (dt' & [=] & _).
Qed.

Lemma holds_until (ed : option string) (x : from_row) :
  (forall t, ed = Some t -> PyStr.truthy t = true) ->
  where_holds match ed with
              | Some t => opt_list (PyStr.truthy t) (DateLe t)
              | None => []
              end x = true
  <-> forall t, ed = Some t ->
        exists dt, purchase_date (fst x) = Some dt /\ PyStr.leb dt t = true.
Proof.
  intros Ht. destruct ed as [t|]; [|by split].
  rewrite (Ht t eq_refl). unfold where_holds. cbn.
  destruct (purchase_date (fst x)) as [dt|]; rewrite andb_true_r; split.
  - intros H t' [= <-]. eauto.
  - intros H. by destruct (H t eq_refl) as (dt' & [= <-] & Hle).
  - done.
  - intros H. by destruct (H t eq_refl) as (dt' & [=] & _).
Qed.

Lemma holds_artist (a : option Z) (x : from_row) :
  where_holds (from_option (fun z => [ArtistEq z]) [] a) x = true
  <-> forall z, a = Some z -> rec_artist_id (fst x) = Some z.
Proof.
  destruct a as [z|]; [|by split]. unfold where_holds. cbn.
  rewrite andb_true_r, Zeqb_opt_true. split; [by intros H z' [= <-]|auto].
Qed.

Lemma holds_genre (g : option Z) (x : from_row) :
  where_holds (from_option (fun z => [GenreEq z]) [] g) x = true
  <-> forall z, g = Some z -> rec_genre_id (fst x) = Some z.
Proof.
  destruct g as [z|]; [|by split]. unfold where_holds. cbn.
  rewrite andb_true_r, Zeqb_opt_true. split; [by intros H z' [= <-]|auto].
Qed.

Lemma holds_store (s : option Z) (x : from_row) :
  where_holds (from_option (fun z => [StoreEq z]) [] s) x = true
  <-> forall z, s = Some z -> exists l, snd x = Some l /\ snd l = z.
Proof.
  destruct s as [z|]; [|by split]. unfold where_holds. cbn.
  rewrite andb_true_r, Zeqb_opt_true. split.
  - intros H z' [= <-]. destruct (snd x) as [l|]; [|done].
    cbn in H. injection H as H. eauto.
  - intros H. destruct (H z eq_refl) as (l & -> & <-). done.
Qed.

Lemma report_stats_ok join wh d recs ls :
  Records d = Some recs -> recordStores d = Some ls ->
  (existsb names_RS wh = true -> join = true) ->
  exists st, report_stats join wh d = Ok st.
Proof.
  intros Hr Hl Hj. unfold report_stats, check_where. rewrite Hr, Hl.
  cbn [the_table rbind]. destruct join; cbn [negb andb rbind]; [eauto|].
  destruct (existsb names_RS wh); [by specialize (Hj eq_refl)|].
  cbn [rbind]. eauto.
Qed.

Section ReportFilters.
Variable int_of_str : string -> option Z.

(** The reply to a report request whose dates [strptime] takes and whose
    ids can be bound: the list where is the one of the filters given. *)
Lemma report_reply p d arts gens recs sts ls a g s :
  Artists d = Some arts -> Genres d = Some gens -> Records d = Some recs ->
  Stores d = Some sts -> recordStores d = Some ls ->
  date_field (get p "start_date") -> date_field (get p "end_date") ->
  id_field (get p "artist_id") a -> id_field (get p "genre_id") g ->
  id_field (get p "store_id") s ->
  exists wh l st,
    api_report_records int_of_str p d = (Response 200 (Report l st), d)
    /\ report_rows wh d = Ok l
    /\ forall x, where_holds wh x = true
                 <-> passes_filters (text_of (get p "start_date"))
                       (text_of (get p "end_date")) a g s (fst x) (snd x).
Proof.
  intros Ha Hg Hr Hs Hl Hsd Hed Hai Hgi Hsi.
  unfold api_report_records, run, hbind, eval, call, hret. cbv beta iota.
  rewrite (parse_date_optional _ (date_field_optional _ Hsd)),
    (parse_date_optional _ (date_field_optional _ Hed)).
  rewrite (date_of_field _ Hsd), (date_of_field _ Hed).
  rewrite (parse_int_id_field int_of_str _ _ Hai),
    (parse_int_id_field int_of_str _ _ Hgi),
    (parse_int_id_field int_of_str _ _ Hsi).
  rewrite (id_field_truthy _ _ Hai), (id_field_truthy _ _ Hgi),
    (id_field_truthy _ _ Hsi).
  set (w1 := match text_of (get p "start_date") with
             | Some t => opt_list (PyStr.truthy t) (DateGe t) | None => []
             end).
  set (w2 := match text_of (get p "end_date") with
             | Some t => opt_list (PyStr.truthy t) (DateLe t) | None => []
             end).
  set (wh := w1 ++ w2 ++ _ ++ _ ++ _).
  assert (Ht : forall v, date_field v ->
                 forall t, text_of v = Some t -> PyStr.truthy t = true).
  { intros v Hv t Ev. destruct v; try done. cbn in Ev, Hv.
    injection Ev as <-. by apply strptime_ok_truthy. }
  assert (Hwh : forall x, where_holds wh x = true
                 <-> passes_filters (text_of (get p "start_date"))
                       (text_of (get p "end_date")) a g s (fst x) (snd x)).
  { intros x. unfold wh, passes_filters.
    rewrite !where_holds_app, !andb_true_iff.
    unfold w1, w2.
    rewrite (holds_from _ x (Ht _ Hsd)), (holds_until _ x (Ht _ Hed)),
      holds_artist, holds_genre, holds_store. done. }
  assert (Hjoin : existsb names_RS wh = true -> bool_decide (is_Some s) = true).
  { unfold wh, w1, w2. rewrite !existsb_app.
    destruct (text_of (get p "start_date")) as [t1|];
      [destruct (PyStr.truthy t1)|];
      (destruct (text_of (get p "end_date")) as [t2|];
         [destruct (PyStr.truthy t2)|]);
      destruct a, g, s; cbn; try done; intros _; by apply bool_decide_true. }
  clearbody wh.
  rewrite (report_rows_full wh d arts gens recs sts ls Ha Hg Hr Hs Hl).
  destruct (report_stats_ok (bool_decide (is_Some s)) wh d recs ls Hr Hl Hjoin)
    as [st Est].
  rewrite Est. eexists wh, _, st. split; [reflexivity|].
  split; [|exact Hwh].
  by rewrite (report_rows_full wh d arts gens recs sts ls Ha Hg Hr Hs Hl).
Qed.

(** X20: the filters of [api_report_records] are conjunctive.  On a database
    with the five tables, for a request whose dates are text that
    [strptime] takes or nothing and whose ids are integers that SQLite can
    bind or nothing, the reply is 200, and a row is among its rows exactly
    when it is the row of a stored record and of a link joined to it (one
    of the links of the record, or none when it has none) that pass every
    filter given: purchase date from the start date on, purchase date up to
    the end date, the artist, the genre, and the store of the link. *)
Theorem report_filters_conjunctive (p : payload) (d : db) arts gens recs sts ls
    (a g s : option Z) :
  Artists d = Some arts -> Genres d = Some gens -> Records d = Some recs ->
  Stores d = Some sts -> recordStores d = Some ls ->
  date_field (get p "start_date") -> date_field (get p "end_date") ->
  id_field (get p "artist_id") a -> id_field (get p "genre_id") g ->
  id_field (get p "store_id") s ->
  exists l st,
    api_report_records int_of_str p d = (Response 200 (Report l st), d)
    /\ forall v, v ∈ l <->
         exists r o, r ∈ rows recs /\ link_joined ls r o
                     /\ passes_filters (text_of (get p "start_date"))
                          (text_of (get p "end_date")) a g s r o
                     /\ v = report_row arts gens sts (r, o).
Proof.
  intros Ha Hg Hr Hs Hl Hsd Hed Hai Hgi Hsi.
  destruct (report_reply p d arts gens recs sts ls a g s Ha Hg Hr Hs Hl Hsd Hed
              Hai Hgi Hsi) as (wh & l & st & E & El & Hwh).
  exists l, st. split; [exact E|]. intros v.
  pose proof (report_rows_conjunctive wh d arts gens recs sts ls v Ha Hg Hr Hs Hl)
    as Hc.
  split.
  - intros Hv. destruct (proj1 Hc) as (x & Hin & Hx & Hall & ->); [eauto|].
    exists (fst x), (snd x). split; [done|].
    apply elem_of_join_links in Hx as [_ Hx]. split; [done|]. split.
    + apply Hwh. unfold where_holds. apply forallb_forall.
      intros c Hc'. apply (proj1 (Forall_forall _ _) Hall).
      by apply list_elem_of_In.
    + by destruct x.
  - intros (r & o & Hin & Hj & Hp & ->).
    destruct (proj2 Hc) as (l' & El' & Hv).
    + exists (r, o). split; [done|]. split.
      * by apply elem_of_join_links.
      * split; [|done]. apply Forall_forall. intros c Hc'.
        pose proof (proj2 (Hwh (r, o)) Hp) as Hall. unfold where_holds in Hall.
        apply (proj1 (forallb_forall _ _) Hall). by apply list_elem_of_In.
    + rewrite El in El'. by injection El' as <-.
Qed.

(** No record id occurs in two links. *)
Lemma one_link_each ls rid :
  NoDup (fst <$> ls) -> (length (links_of rid ls) ≤ 1)%nat.
Proof.
  unfold links_of. induction ls as [|l ls IH]; [cbn; lia|].
  rewrite fmap_cons, NoDup_cons. intros [Hl Hnd]. cbn.
  destruct (Z.eqb_spec (fst l) rid) as [E|E]; [|auto].
  rewrite filter_none; [cbn; lia|].
  intros x Hx. apply Z.eqb_neq. intros Ex. apply Hl.
  apply list_elem_of_fmap. exists x. split; [congruence|done].
Qed.

(** X21: on a database with the five tables, for a request whose dates are
    text that [strptime] takes or nothing and whose ids are integers that
    SQLite can bind or nothing, [api_report_records] answers 200 and the
    count of the statistics is the number of rows, when the request has a
    store filter and when it has none and no record id occurs in two
    links. *)
Theorem report_count_matches_rows (p : payload) (d : db) arts gens recs sts ls
    (a g s : option Z) :
  Artists d = Some arts -> Genres d = Some gens -> Records d = Some recs ->
  Stores d = Some sts -> recordStores d = Some ls ->
  date_field (get p "start_date") -> date_field (get p "end_date") ->
  id_field (get p "artist_id") a -> id_field (get p "genre_id") g ->
  id_field (get p "store_id") s ->
  (s = None -> NoDup (fst <$> ls)) ->
  exists l st,
    api_report_records int_of_str p d = (Response 200 (Report l st), d)
    /\ count st = Z.of_nat (length l).
Proof.
  intros Ha Hg Hr Hs Hl Hsd Hed Hai Hgi Hsi Hone.
  apply (report_count_eq_rows int_of_str p d arts gens recs sts ls Ha Hg Hr Hs Hl
           (date_field_optional _ Hsd) (date_field_optional _ Hed)).
  rewrite (parse_int_id_field int_of_str _ _ Hsi), (id_field_truthy _ _ Hsi).
  intros Hnone r _. by apply one_link_each, Hone.
Qed.

End ReportFilters.

(** The records of artist 1 bought from June 2020 on the shelf: of the two
    records of the artist, the one bought in 2021 and no other. *)
Lemma report_filters_conjunctive_witness :
  exists l st,
    api_report_records no_number late_payload shelf_db
    = (Response 200 (Report l st), shelf_db)
    /\ (exists v, v ∈ l)
    /\ (forall v, v ∈ l -> v_title v = "Bitches Brew").
Proof.
  destruct (report_filters_conjunctive no_number late_payload shelf_db
              (Table [Artist 1 "Miles Davis" None] 1) (Table [] 0)
              (Table [kind_of_blue; bitches_brew] 2) two_stores [(1, 1); (1, 2)]
              (Some 1) None None)
    as (l & st & E & Hrows); try reflexivity; try (split; [lia|reflexivity]).
  exists l, st. split; [exact E|]. split.
  - eexists. apply Hrows. exists bitches_brew, None.
    split; [cbn; set_solver|]. split.
    + intros lk Hlk. cbn in Hlk. set_solver.
    + split; [|reflexivity]. repeat split; try done.
      intros t Ht. vm_compute in Ht. injection Ht as <-.
      exists "2021-06-01"%string. split; reflexivity.
  - intros v (r & o & Hr & _ & (Hfrom & _) & ->)%Hrows. cbn in Hr.
    destruct (Hfrom "2020-06-01"%string eq_refl) as (dt & Hdt & Hle).
    apply elem_of_cons in Hr as [->|Hr].
    + cbn in Hdt. injection Hdt as <-. by vm_compute in Hle.
    + apply list_elem_of_singleton in Hr as ->. reflexivity.
Defined.

(** The report on artist 1 from 2020 on, when each of the two records has
    one store: two rows, and a count of two. *)
Lemma report_count_matches_rows_witness :
  exists l st,
    api_report_records no_number report_payload linked_db
    = (Response 200 (Report l st), linked_db)
    /\ count st = Z.of_nat (length l) /\ length l = 2%nat.
Proof.
  destruct (report_count_matches_rows no_number report_payload linked_db
              (Table [Artist 1 "Miles Davis" None] 1) (Table [] 0)
              (Table [kind_of_blue; bitches_brew] 2) two_stores [(1, 2); (2, 1)]
              (Some 1) None None)
    as (l & st & E & Hc); try reflexivity; try (split; [lia|reflexivity]).
  - intros _. cbn. apply NoDup_cons. split; [|apply NoDup_singleton].
    intros [=]%list_elem_of_singleton.
  - exists l, st. split; [exact E|]. split; [exact Hc|].
    vm_compute in E. by injection E as <- _.
Defined.
